(** * video-transcribe: the agent-framework examples

    A shallow embedding of the two executing functions of the repository,

      - [examples/autogen-agent.py], [VideoTranscriptionCapability.transcribe_video]
      - [examples/crewai-agent.py],  [VideoTranscriptionTool._run]

    together with the parts of the Python runtime they call ([json],
    [os], [os.path], [subprocess], [dict.get], subscripting, [max],
    truthiness), and the properties of the result record they return. *)

From Stdlib Require Import ZArith NArith List String Ascii Bool Lia DecimalString.
From Stdlib Require Import SpecFloat.
Import ListNotations.

Set Warnings "-register-all".
Local Open Scope list_scope.
Local Open Scope string_scope.

(** ** Python values

    The values that flow through the two functions are the ones
    [json.load] produces, plus the records the functions build from them:
    [None], booleans, integers, floats, strings, lists and dictionaries with
    string keys.  A dictionary keeps its insertion order (this is what
    [json.dumps] prints), so it is an association list without duplicate
    keys.

    A [str] is a Rocq [string] holding the text in UTF-8, the way a string
    literal of this file does.  Every operation the agents perform on
    strings (concatenation, [endswith], equality, emptiness) commutes with
    that encoding.

    A float is carried as a signed decimal [m * 10^e], or as one of the three
    special values.  The agents never compute with a float: they test its
    truth value and hand it to [json.dumps].  The decimal of a float that
    [json.loads] returns is the one [repr] shows: the shortest decimal that
    rounds to the binary64 nearest to the literal. *)

Inductive pyfloat : Type :=
| FNan
| FInf (negative : bool)
| FDec (negative : bool) (m : N) (e : Z).

Inductive value : Type :=
| VNone
| VBool (b : bool)
| VInt (n : Z)
| VFloat (f : pyfloat)
| VStr (s : string)
| VList (l : list value)
| VDict (d : list (string * value)).

(** [bool(v)]: the truth value used by [if v], [not v] and [v or w]. *)
Definition truthy (v : value) : bool :=
  match v with
  | VNone => false
  | VBool b => b
  | VInt n => negb (Z.eqb n 0)
  | VFloat (FDec _ m _) => negb (N.eqb m 0)
  | VFloat _ => true
  | VStr s => negb (String.eqb s "")
  | VList l => match l with [] => false | _ :: _ => true end
  | VDict d => match d with [] => false | _ :: _ => true end
  end.

(** [type(v).__name__] *)
Definition type_name (v : value) : string :=
  match v with
  | VNone => "NoneType"
  | VBool _ => "bool"
  | VInt _ => "int"
  | VFloat _ => "float"
  | VStr _ => "str"
  | VList _ => "list"
  | VDict _ => "dict"
  end.

(** Dictionaries as insertion-ordered association lists. *)
Fixpoint dict_lookup (d : list (string * value)) (key : string) : option value :=
  match d with
  | [] => None
  | (k, v) :: rest => if String.eqb k key then Some v else dict_lookup rest key
  end.

(** [d[key] = v]: an existing key keeps its place, a new one goes last. *)
Fixpoint dict_set (d : list (string * value)) (key : string) (v : value)
  : list (string * value) :=
  match d with
  | [] => [(key, v)]
  | (k, v0) :: rest =>
      if String.eqb k key then (k, v) :: rest else (k, v0) :: dict_set rest key v
  end.

Definition dict_keys (d : list (string * value)) : list string := map fst d.

(** ** Exceptions and outcomes

    Every exception the modelled runtime raises is an instance of a
    subclass of [Exception]; it is recorded with its class name and with
    [str(e)], the only thing the agents read from it.  Asynchronous
    conditions outside the [Exception] hierarchy ([KeyboardInterrupt],
    [SystemExit]) are not part of the model. *)

Record exn : Type := Exception { exn_class : string; exn_str : string }.

Inductive outcome (A : Type) : Type :=
| Return (a : A)
| Raise (e : exn).

Arguments Return {A} a.
Arguments Raise {A} e.

Definition str_of_exn (e : exn) : string := exn_str e.

(** Decimal numerals, [%d] and [int.__repr__]. *)
Definition string_of_nat (n : nat) : string :=
  NilZero.string_of_uint (Nat.to_uint n).

Definition string_of_Z (n : Z) : string :=
  NilZero.string_of_int (Z.to_int n).

(** Single characters that cannot be written inside a string literal. *)
Definition dquote : string := String (ascii_of_nat 34) "".
Definition newline : string := String (ascii_of_nat 10) "".

(** [s[n:]] *)
Fixpoint drop (n : nat) (s : string) : string :=
  match n, s with
  | S n', String _ rest => drop n' rest
  | _, _ => s
  end.

(** [s.endswith(suffix)] *)
Definition endswith (s suffix : string) : bool :=
  let n := String.length s in
  let k := String.length suffix in
  Nat.leb k n && String.eqb (drop (n - k) s) suffix.

(** An open text file, as far as [json.load] reads it: its name and the
    text [read()] returns. *)
Record TextIOWrapper : Type := { file_name : string; file_text : string }.

(** ** The [json] module

    [json.loads] and [json.dumps] of the standard library, with the
    default options the agents use ([strict] decoding, [ensure_ascii]
    encoding).  Positions in error messages count characters, not bytes.
    An integer literal of more than 4300 digits is refused, as the
    interpreter does by default.  The recursion limit of the interpreter
    is not modelled: a document nested less deeply decodes the same way. *)

Module json.

Definition QUOTE : ascii := "034"%char.
Definition BACKSLASH : ascii := "092"%char.

Definition is_cont (c : ascii) : bool :=
  let n := N_of_ascii c in (128 <=? n)%N && (n <? 192)%N.

Definition is_ws (c : ascii) : bool :=
  Ascii.eqb c " " || Ascii.eqb c "009" || Ascii.eqb c "010" || Ascii.eqb c "013".

Definition is_digit (c : ascii) : bool :=
  let n := N_of_ascii c in (48 <=? n)%N && (n <=? 57)%N.

Definition digit_val (c : ascii) : N := (N_of_ascii c - 48)%N.

Definition hex_val (c : ascii) : option N :=
  let n := N_of_ascii c in
  if is_digit c then Some (n - 48)%N
  else if (97 <=? n)%N && (n <=? 102)%N then Some (n - 87)%N
  else if (65 <=? n)%N && (n <=? 70)%N then Some (n - 55)%N
  else None.

Definition hex4 (a b c d : ascii) : option N :=
  match hex_val a, hex_val b, hex_val c, hex_val d with
  | Some x, Some y, Some z, Some w => Some (((x * 16 + y) * 16 + z) * 16 + w)%N
  | _, _, _, _ => None
  end.

Definition byte (n : N) : string := String (ascii_of_N n) "".

(** [chr(cp).encode('utf-8')] (a lone surrogate is written the same way) *)
Definition utf8 (cp : N) : string :=
  if (cp <? 128)%N then byte cp
  else if (cp <? 2048)%N then
    byte (192 + cp / 64) ++ byte (128 + cp mod 64)
  else if (cp <? 65536)%N then
    byte (224 + cp / 4096) ++ byte (128 + (cp / 64) mod 64) ++ byte (128 + cp mod 64)
  else
    byte (240 + cp / 262144) ++ byte (128 + (cp / 4096) mod 64)
      ++ byte (128 + (cp / 64) mod 64) ++ byte (128 + cp mod 64).

Fixpoint skip_ws (s : string) (pos : nat) : string * nat :=
  match s with
  | String c rest => if is_ws c then skip_ws rest (S pos) else (s, pos)
  | EmptyString => (s, pos)
  end.

(** Result of a scanning step: a value with the rest of the document and
    the index reached, [StopIteration(idx)], a decoding error, or another
    exception. *)
Inductive scan (A : Type) : Type :=
| Scanned (a : A) (rest : string) (pos : nat)
| StopIteration (idx : nat)
| DecodeError (msg : string) (pos : nat)
| Failed (e : exn).

Arguments Scanned {A} a rest pos.
Arguments StopIteration {A} idx.
Arguments DecodeError {A} msg pos.
Arguments Failed {A} e.

Definition BACKSLASH_table (c : ascii) : option ascii :=
  if Ascii.eqb c QUOTE then Some QUOTE
  else if Ascii.eqb c BACKSLASH then Some BACKSLASH
  else if Ascii.eqb c "/" then Some "/"%char
  else if Ascii.eqb c "b" then Some "008"%char
  else if Ascii.eqb c "f" then Some "012"%char
  else if Ascii.eqb c "n" then Some "010"%char
  else if Ascii.eqb c "r" then Some "013"%char
  else if Ascii.eqb c "t" then Some "009"%char
  else None.

Definition cons_item {A : Type} (x : A) (r : scan (list A)) : scan (list A) :=
  match r with
  | Scanned l rest pos => Scanned (x :: l) rest pos
  | StopIteration idx => StopIteration idx
  | DecodeError msg pos => DecodeError msg pos
  | Failed e => Failed e
  end.

(** [scanstring(s, end)]: [s] starts after the opening quote, at index
    [pos]; [begin] is the index of that quote.  The result lists the
    characters of the string: a byte of the document, or the 16-bit unit
    of a [\uXXXX] escape.  As in the C scanner, such an escape needs a
    character after its four digits. *)
Fixpoint scanstring (s : string) (pos begin : nat) : scan (list (ascii + N)) :=
  match s with
  | EmptyString => DecodeError "Unterminated string starting at" begin
  | String c rest =>
      if Ascii.eqb c QUOTE then Scanned [] rest (S pos)
      else if Ascii.eqb c BACKSLASH then
        match rest with
        | EmptyString => DecodeError "Unterminated string starting at" begin
        | String esc rest1 =>
            if Ascii.eqb esc "u" then
              match rest1 with
              | String h1 (String h2 (String h3 (String h4 (String _ _ as rest2)))) =>
                  match hex4 h1 h2 h3 h4 with
                  | Some uni => cons_item (inr uni) (scanstring rest2 (pos + 6) begin)
                  | None => DecodeError "Invalid \uXXXX escape" (S pos)
                  end
              | _ => DecodeError "Invalid \uXXXX escape" (S pos)
              end
            else
              match BACKSLASH_table esc with
              | Some char => cons_item (inl char) (scanstring rest1 (pos + 2) begin)
              | None => DecodeError "Invalid \escape" pos
              end
        end
      else if (N_of_ascii c <=? 31)%N then
        DecodeError "Invalid control character at" pos
      else
        cons_item (inl c) (scanstring rest (if is_cont c then pos else S pos) begin)
  end.

(** Joins the scanned characters; an escaped high surrogate directly
    followed by an escaped low surrogate is one character. *)
Fixpoint assemble (l : list (ascii + N)) : string :=
  match l with
  | [] => ""
  | inl c :: rest => String c (assemble rest)
  | inr uni :: rest =>
      match rest with
      | inr uni2 :: rest2 =>
          if ((55296 <=? uni) && (uni <=? 56319) && (56320 <=? uni2) && (uni2 <=? 57343))%N
          then utf8 (65536 + ((uni - 55296) * 1024 + (uni2 - 56320)))%N ++ assemble rest2
          else utf8 uni ++ assemble rest
      | _ => utf8 uni ++ assemble rest
      end
  end.

Fixpoint take_digits (s : string) : string * string :=
  match s with
  | String c rest =>
      if is_digit c then let (ds, r) := take_digits rest in (String c ds, r)
      else ("", s)
  | EmptyString => ("", s)
  end.

Fixpoint digits_to_N (s : string) (acc : N) : N :=
  match s with
  | EmptyString => acc
  | String c rest => digits_to_N rest (acc * 10 + digit_val c)%N
  end.

(** Removes the zeros at the end of a numeral and counts them. *)
Fixpoint rstrip_zeros (s : string) : string * nat :=
  match s with
  | EmptyString => ("", O)
  | String c rest =>
      let (rest', k) := rstrip_zeros rest in
      if Ascii.eqb c "0" && String.eqb rest' "" then ("", S k)
      else (String c rest', k)
  end.

(** *** binary64

    [float(s)] is the binary64 nearest to the decimal [s], ties to even;
    [repr] of a float is the shortest decimal that [float] takes back to
    it, and the nearest to it of those. *)

Definition binary64_prec : Z := 53.
Definition binary64_emax : Z := 1024.

(** The binary64 nearest to [m * 10^e]. *)
Definition strtod (m : positive) (e : Z) : spec_float :=
  match e with
  | Zneg p =>
      SFdiv binary64_prec binary64_emax
        (S754_finite false m 0) (S754_finite false (Pos.pow 10 p) 0)
  | _ => binary_normalize binary64_prec binary64_emax (Zpos m * 10 ^ e)%Z 0 false
  end.

Definition same_float (x y : spec_float) : bool :=
  match x, y with
  | S754_finite _ m1 e1, S754_finite _ m2 e2 => Pos.eqb m1 m2 && Z.eqb e1 e2
  | _, _ => false
  end.

(** [m * 2^e] as a fraction, and a fraction divided by [10^j]. *)
Definition ratio (m : positive) (e : Z) : Z * Z :=
  match e with
  | Zneg p => (Zpos m, 2 ^ Zpos p)%Z
  | _ => (Zpos m * 2 ^ e, 1)%Z
  end.

Definition scaled (x : Z * Z) (j : Z) : Z * Z :=
  let (n, d) := x in
  match j with
  | Zneg p => (n * 10 ^ Zpos p, d)%Z
  | _ => (n, d * 10 ^ j)%Z
  end.

(** [10^j <= x] *)
Definition at_least (x : Z * Z) (j : Z) : bool :=
  let (n, d) := scaled x j in (d <=? n)%Z.

(** The [k] with [10^k <= x < 10^(k+1)], found from the binary logarithms
    of the numerator and of the denominator. *)
Definition decimal_exponent (x : Z * Z) : Z :=
  let (n, d) := x in
  let k0 := (((Z.log2 n - Z.log2 d - 1) * 30103) / 100000 - 1)%Z in
  if at_least x (k0 + 4) then (k0 + 4)%Z
  else if at_least x (k0 + 3) then (k0 + 3)%Z
  else if at_least x (k0 + 2) then (k0 + 2)%Z
  else if at_least x (k0 + 1) then (k0 + 1)%Z
  else k0.

(** The decimal of [p] digits that rounds to the float [m * 2^e], when
    there is one: of the two decimals of [p] digits around the float, the
    nearer one that does (the even one when both are as near). *)
Definition shortest_try (m : positive) (e : Z) (p : Z) : option (N * Z) :=
  let x := ratio m e in
  let scale := (decimal_exponent x - p + 1)%Z in
  let (n, d) := scaled x scale in
  let lo := (n / d)%Z in
  let hi := (lo + 1)%Z in
  let rounds c :=
    match c with
    | Zpos c' => same_float (strtod c' scale) (S754_finite false m e)
    | _ => false
    end in
  let lo_nearer :=
    match (2 * n ?= (2 * lo + 1) * d)%Z with
    | Lt => true
    | Gt => false
    | Eq => Z.even lo
    end in
  match rounds lo, rounds hi with
  | true, true => Some (Z.to_N (if lo_nearer then lo else hi), scale)
  | true, false => Some (Z.to_N lo, scale)
  | false, true => Some (Z.to_N hi, scale)
  | false, false => None
  end.

(** Seventeen digits always round back; should the search run out, the
    float is written out in full. *)
Fixpoint shortest_from (fuel : nat) (m : positive) (e : Z) (p : Z) : N * Z :=
  match fuel with
  | O =>
      match e with
      | Zneg q => (Npos (m * Pos.pow 5 q), e)
      | _ => (Z.to_N (Zpos m * 2 ^ e), 0%Z)
      end
  | S fuel' =>
      match shortest_try m e p with
      | Some r => r
      | None => shortest_from fuel' m e (p + 1)%Z
      end
  end.

(** The float of the literal [digits * 10^e]. *)
Definition float_of_digits (negative : bool) (digits : string) (e : Z) : pyfloat :=
  let (ds, k) := rstrip_zeros digits in
  let e' := (e + Z.of_nat k)%Z in
  match digits_to_N ds 0 with
  | N0 => FDec negative 0 0
  | Npos m =>
      if (309 <? e')%Z then FInf negative
      else if (Z.of_nat (String.length ds) + e' <? -324)%Z then FDec negative 0 0
      else
        match strtod m e' with
        | S754_finite _ m2 e2 =>
            let (digits', e10) := shortest_from 17 m2 e2 1 in
            FDec negative digits' e10
        | S754_zero _ => FDec negative 0 0
        | S754_infinity _ => FInf negative
        | S754_nan => FNan
        end
  end.

(** [NUMBER_RE.match]: an optional minus sign, then [0] or a non-zero
    digit followed by digits; then optionally a dot with at least one
    digit; then optionally [e] or [E], an optional sign and at least one
    digit.  Returns the number, the rest of the document and the length
    matched: an [int] when there is neither fraction nor exponent. *)
Definition match_number (s : string) : option (value * string * nat) :=
  let (negative, s1) :=
    match s with
    | String "-" r => (true, r)
    | _ => (false, s)
    end in
  let integer :=
    match s1 with
    | String c r =>
        if Ascii.eqb c "0" then Some ("0", r)
        else if is_digit c then let (ds, r') := take_digits r in Some (String c ds, r')
        else None
    | EmptyString => None
    end in
  match integer with
  | None => None
  | Some (int_digits, s2) =>
      let (frac, s3) :=
        match s2 with
        | String "." r =>
            match take_digits r with
            | (EmptyString, _) => ("", s2)
            | (ds, r') => (ds, r')
            end
        | _ => ("", s2)
        end in
      let '(exp, s4) :=
        match s3 with
        | String c r =>
            if Ascii.eqb c "e" || Ascii.eqb c "E" then
              let (exp_negative, r1) :=
                match r with
                | String "-" r' => (true, r')
                | String "+" r' => (false, r')
                | _ => (false, r)
                end in
              match take_digits r1 with
              | (EmptyString, _) => (None, s3)
              | (ds, r') =>
                  let n := Z.of_N (digits_to_N ds 0) in
                  (Some (if exp_negative then (- n)%Z else n), r')
              end
            else (None, s3)
        | EmptyString => (None, s3)
        end in
      let matched := (String.length s - String.length s4)%nat in
      match frac, exp with
      | EmptyString, None =>
          let n := Z.of_N (digits_to_N int_digits 0) in
          Some (VInt (if negative then (- n)%Z else n), s4, matched)
      | _, _ =>
          let e := match exp with Some x => x | None => 0%Z end in
          Some (VFloat (float_of_digits negative (int_digits ++ frac)
                          (e - Z.of_nat (String.length frac))), s4, matched)
      end
  end.

(** [int(s)] refuses a numeral of more than [sys.get_int_max_str_digits()]
    digits. *)
Definition MAX_STR_DIGITS : nat := 4300.

Definition int_too_long (digits : nat) : exn :=
  Exception "ValueError"
    ("Exceeds the limit (4300 digits) for integer string conversion: value has "
       ++ string_of_nat digits
       ++ " digits; use sys.set_int_max_str_digits() to increase the limit").

Definition map_scan {A B : Type} (f : A -> B) (r : scan A) : scan B :=
  match r with
  | Scanned a rest pos => Scanned (f a) rest pos
  | StopIteration idx => StopIteration idx
  | DecodeError msg pos => DecodeError msg pos
  | Failed e => Failed e
  end.

(** [scan_once], [JSONObject] and [JSONArray].  [fuel] bounds the number of
    nested calls.  A call of [scan_once] on an opening bracket and the call
    of the loop it makes consume one character between them, and every
    other call consumes one at least, so twice the length of the document
    and two are enough ([loads] below). *)
Fixpoint scan_once (fuel : nat) (s : string) (pos : nat) {struct fuel} : scan value :=
  match fuel with
  | O => DecodeError "Expecting value" pos
  | S fuel' =>
      match s with
      | EmptyString => StopIteration pos
      | String nextchar rest =>
          if Ascii.eqb nextchar QUOTE then
            map_scan (fun items => VStr (assemble items)) (scanstring rest (S pos) pos)
          else if Ascii.eqb nextchar "{" then
            let (s1, p1) := skip_ws rest (S pos) in
            match s1 with
            | String c r =>
                if Ascii.eqb c "}" then Scanned (VDict []) r (S p1)
                else if Ascii.eqb c QUOTE then JSONObject fuel' r (S p1) []
                else DecodeError "Expecting property name enclosed in double quotes" p1
            | EmptyString =>
                DecodeError "Expecting property name enclosed in double quotes" p1
            end
          else if Ascii.eqb nextchar "[" then
            let (s1, p1) := skip_ws rest (S pos) in
            match s1 with
            | String "]" r => Scanned (VList []) r (S p1)
            | _ => JSONArray fuel' s1 p1 []
            end
          else if String.prefix "null" s then Scanned VNone (drop 4 s) (pos + 4)
          else if String.prefix "true" s then Scanned (VBool true) (drop 4 s) (pos + 4)
          else if String.prefix "false" s then Scanned (VBool false) (drop 5 s) (pos + 5)
          else
            match match_number s with
            | Some (VInt n, s', len) =>
                let digits := match s with String "-" _ => pred len | _ => len end in
                if Nat.ltb MAX_STR_DIGITS digits then Failed (int_too_long digits)
                else Scanned (VInt n) s' (pos + len)
            | Some (res, s', len) => Scanned res s' (pos + len)
            | None =>
                if String.prefix "NaN" s then Scanned (VFloat FNan) (drop 3 s) (pos + 3)
                else if String.prefix "Infinity" s then
                  Scanned (VFloat (FInf false)) (drop 8 s) (pos + 8)
                else if String.prefix "-Infinity" s then
                  Scanned (VFloat (FInf true)) (drop 9 s) (pos + 9)
                else StopIteration pos
            end
      end
  end

(** the loop of [JSONObject]: [s] starts after the opening quote of a key *)
with JSONObject (fuel : nat) (s : string) (pos : nat) (pairs : list (string * value))
  {struct fuel} : scan value :=
  match fuel with
  | O => DecodeError "Expecting value" pos
  | S fuel' =>
      match scanstring s pos (Nat.pred pos) with
      | Scanned items s1 p1 =>
          let key := assemble items in
          let (s2, p2) := skip_ws s1 p1 in
          match s2 with
          | String ":" s3 =>
              let (s4, p4) := skip_ws s3 (S p2) in
              match scan_once fuel' s4 p4 with
              | Scanned v s5 p5 =>
                  let pairs' := dict_set pairs key v in
                  let (s6, p6) := skip_ws s5 p5 in
                  match s6 with
                  | String "}" s7 => Scanned (VDict pairs') s7 (S p6)
                  | String "," s7 =>
                      let (s8, p8) := skip_ws s7 (S p6) in
                      match s8 with
                      | String c s9 =>
                          if Ascii.eqb c QUOTE then JSONObject fuel' s9 (S p8) pairs'
                          else DecodeError
                                 "Expecting property name enclosed in double quotes" p8
                      | EmptyString =>
                          DecodeError
                            "Expecting property name enclosed in double quotes" p8
                      end
                  | _ => DecodeError "Expecting ',' delimiter" p6
                  end
              | StopIteration idx => DecodeError "Expecting value" idx
              | DecodeError msg p => DecodeError msg p
              | Failed e => Failed e
              end
          | _ => DecodeError "Expecting ':' delimiter" p2
          end
      | StopIteration idx => StopIteration idx
      | DecodeError msg p => DecodeError msg p
      | Failed e => Failed e
      end
  end

(** the loop of [JSONArray]: [values] holds the elements read so far, last first *)
with JSONArray (fuel : nat) (s : string) (pos : nat) (values : list value)
  {struct fuel} : scan value :=
  match fuel with
  | O => DecodeError "Expecting value" pos
  | S fuel' =>
      match scan_once fuel' s pos with
      | Scanned v s1 p1 =>
          let (s2, p2) := skip_ws s1 p1 in
          match s2 with
          | String "]" s3 => Scanned (VList (rev (v :: values))) s3 (S p2)
          | String "," s3 =>
              let (s4, p4) := skip_ws s3 (S p2) in
              JSONArray fuel' s4 p4 (v :: values)
          | _ => DecodeError "Expecting ',' delimiter" p2
          end
      | StopIteration idx => DecodeError "Expecting value" idx
      | DecodeError msg p => DecodeError msg p
      | Failed e => Failed e
      end
  end.

(** [lineno] and [colno] of [JSONDecodeError(msg, doc, pos)] *)
Fixpoint line_col (doc : string) (pos : nat) (lineno colno : nat) : nat * nat :=
  match doc with
  | EmptyString => (lineno, colno)
  | String c rest =>
      if is_cont c then line_col rest pos lineno colno
      else
        match pos with
        | O => (lineno, colno)
        | S pos' =>
            if Ascii.eqb c "010" then line_col rest pos' (S lineno) 1
            else line_col rest pos' lineno (S colno)
        end
  end.

Definition JSONDecodeError (msg doc : string) (pos : nat) : exn :=
  let (lineno, colno) := line_col doc pos 1 1 in
  Exception "JSONDecodeError"
    (msg ++ ": line " ++ string_of_nat lineno ++ " column " ++ string_of_nat colno
         ++ " (char " ++ string_of_nat pos ++ ")").

Definition BOM : string := byte 239 ++ byte 187 ++ byte 191.

(** [json.loads(s)] for a [str] *)
Definition loads (s : string) : outcome value :=
  if String.prefix BOM s then
    Raise (JSONDecodeError "Unexpected UTF-8 BOM (decode using utf-8-sig)" s 0)
  else
    let (s0, idx) := skip_ws s 0 in
    match scan_once (2 * String.length s + 2) s0 idx with
    | Scanned obj rest end_ =>
        match skip_ws rest end_ with
        | (EmptyString, _) => Return obj
        | (_, end') => Raise (JSONDecodeError "Extra data" s end')
        end
    | StopIteration idx' => Raise (JSONDecodeError "Expecting value" s idx')
    | DecodeError msg pos => Raise (JSONDecodeError msg s pos)
    | Failed e => Raise e
    end.

Definition hex_digit (n : N) : string :=
  byte (if (n <? 10)%N then 48 + n else 87 + n)%N.

(** [format(n, '04x')] *)
Definition hex4_lower (n : N) : string :=
  hex_digit ((n / 4096) mod 16) ++ hex_digit ((n / 256) mod 16)
    ++ hex_digit ((n / 16) mod 16) ++ hex_digit (n mod 16).

(** The replacement [py_encode_basestring_ascii] makes for one character:
    [ESCAPE_DCT] for the characters it lists, the character itself from
    space to tilde, [\uXXXX] otherwise (as a surrogate pair above the
    basic plane). *)
Definition escape_char (n : N) : string :=
  if (n =? 34)%N then String BACKSLASH dquote
  else if (n =? 92)%N then "\\"
  else if (n =? 10)%N then "\n"
  else if (n =? 13)%N then "\r"
  else if (n =? 9)%N then "\t"
  else if (n =? 8)%N then "\b"
  else if (n =? 12)%N then "\f"
  else if (32 <=? n)%N && (n <=? 126)%N then byte n
  else if (n <? 65536)%N then "\u" ++ hex4_lower n
  else
    let n' := (n - 65536)%N in
    "\u" ++ hex4_lower (55296 + (n' / 1024) mod 1024)
         ++ "\u" ++ hex4_lower (56320 + n' mod 1024).

Definition cont_bits (c : ascii) : N := (N_of_ascii c - 128)%N.

(** Escapes the characters of a string one by one, reading each from its
    UTF-8 bytes.  A byte that does not start a well-formed sequence cannot
    occur in decoded text; it is taken as the character of its own value. *)
Fixpoint escape_ascii (s : string) : string :=
  match s with
  | EmptyString => ""
  | String c rest =>
      let n := N_of_ascii c in
      let single := escape_char n ++ escape_ascii rest in
      if (n <? 192)%N then single
      else
        match rest with
        | String c1 rest1 =>
            if negb (is_cont c1) then single
            else if (n <? 224)%N then
              escape_char ((n - 192) * 64 + cont_bits c1) ++ escape_ascii rest1
            else
              match rest1 with
              | String c2 rest2 =>
                  if negb (is_cont c2) then single
                  else if (n <? 240)%N then
                    escape_char (((n - 224) * 64 + cont_bits c1) * 64 + cont_bits c2)
                      ++ escape_ascii rest2
                  else
                    match rest2 with
                    | String c3 rest3 =>
                        if negb (is_cont c3) || (248 <=? n)%N then single
                        else
                          escape_char
                            ((((n - 240) * 64 + cont_bits c1) * 64 + cont_bits c2) * 64
                             + cont_bits c3)
                            ++ escape_ascii rest3
                    | EmptyString => single
                    end
              | EmptyString => single
              end
        | EmptyString => single
        end
  end.

Definition encode_basestring_ascii (s : string) : string :=
  dquote ++ escape_ascii s ++ dquote.

Fixpoint repeat_string (s : string) (n : nat) : string :=
  match n with
  | O => ""
  | S n' => s ++ repeat_string s n'
  end.

(** [float.__repr__], and the names [json.dumps] gives to the special
    values.  With [ds] the digits of the mantissa and [decpt] the position
    of the decimal point, the exponent form is used when
    [decpt <= -4] or [decpt > 16]. *)
Definition floatstr (f : pyfloat) : string :=
  match f with
  | FNan => "NaN"
  | FInf false => "Infinity"
  | FInf true => "-Infinity"
  | FDec negative m e =>
      let sign := if negative then "-" else "" in
      if N.eqb m 0 then sign ++ "0.0"
      else
        let (ds, k) := rstrip_zeros (NilZero.string_of_uint (N.to_uint m)) in
        let n := String.length ds in
        let decpt := (Z.of_nat n + e + Z.of_nat k)%Z in
        if ((decpt <=? -4) || (16 <? decpt))%Z then
          let x := (decpt - 1)%Z in
          let xs := string_of_nat (Z.abs_nat x) in
          sign ++ String.substring 0 1 ds
            ++ (if Nat.ltb 1 n then "." ++ drop 1 ds else "")
            ++ "e" ++ (if (x <? 0)%Z then "-" else "+")
            ++ (if Nat.ltb (String.length xs) 2 then "0" else "") ++ xs
        else if (decpt <=? 0)%Z then
          sign ++ "0." ++ repeat_string "0" (Z.abs_nat decpt) ++ ds
        else if (Z.of_nat n <=? decpt)%Z then
          sign ++ ds ++ repeat_string "0" (Z.to_nat decpt - n) ++ ".0"
        else
          sign ++ String.substring 0 (Z.to_nat decpt) ds ++ "." ++ drop (Z.to_nat decpt) ds
  end.

Fixpoint join (sep : string) (l : list string) : string :=
  match l with
  | [] => ""
  | [x] => x
  | x :: rest => x ++ sep ++ join sep rest
  end.

(** [_iterencode], [_iterencode_list] and [_iterencode_dict] of
    [_make_iterencode], joined into the string [JSONEncoder.encode]
    returns. *)
Fixpoint iterencode (indent : option nat) (level : nat) (o : value) : string :=
  let item_separator := match indent with Some _ => "," | None => ", " end in
  let key_separator := ": " in
  let newline_indent (lvl : nat) :=
    match indent with
    | Some n => newline ++ repeat_string " " (n * lvl)
    | None => ""
    end in
  match o with
  | VStr s => encode_basestring_ascii s
  | VNone => "null"
  | VBool true => "true"
  | VBool false => "false"
  | VInt n => string_of_Z n
  | VFloat f => floatstr f
  | VList [] => "[]"
  | VList lst =>
      "[" ++ newline_indent (S level)
        ++ join (item_separator ++ newline_indent (S level))
             (map (iterencode indent (S level)) lst)
        ++ newline_indent level ++ "]"
  | VDict [] => "{}"
  | VDict dct =>
      "{" ++ newline_indent (S level)
        ++ join (item_separator ++ newline_indent (S level))
             (map (fun item : string * value =>
                     let (key, v) := item in
                     encode_basestring_ascii key ++ key_separator
                       ++ iterencode indent (S level) v) dct)
        ++ newline_indent level ++ "}"
  end.

(** [json.load(fp)] is [loads(fp.read())] *)
Definition load (fp : TextIOWrapper) : outcome value := loads (file_text fp).

(** [json.dumps(obj, indent=indent)] *)
Definition dumps (obj : value) (indent : option nat) : string :=
  iterencode indent 0 obj.

End json.

(** ** The machine the agents run on

    The file system is what the three calls the agents make can observe
    of it: each call on a path returns or raises.  [fs_read] stands for
    [open(path, 'r')] followed by reading the whole text, so it raises for
    a missing or unreadable file and for bytes that do not decode.
    [fs_getctime] is what [os.path.getctime] returns for a path, in ticks
    of the platform's clock: the time of creation on Windows, the time of
    the last change of the inode on a POSIX system.  Where the text below
    says creation time, it means this number.

    The program run by [subprocess.run] is a parameter, [spawn]: from the
    argument vector, the working directory and the file system it gives the
    completed process (or the exception the launch raises) and the file
    system it leaves behind.

    The [trace] records, in order, the calls the agent made to the
    operating system; [Spawn] records that [subprocess.run] was handed a
    vector of strings, whatever became of the launch. *)

Record CompletedProcess : Type :=
  { returncode : Z; stdout : string; stderr : string }.

Record filesystem : Type :=
  { fs_listdir : string -> outcome (list string);
    fs_getctime : string -> outcome Z;
    fs_read : string -> outcome string }.

Inductive event : Type :=
| Spawn (argv : list string) (cwd : string)
| Listdir (path : string)
| Getctime (path : string)
| Open (path : string).

Record world : Type := { fs : filesystem; trace : list event }.

Definition program : Type :=
  list string -> string -> filesystem -> outcome CompletedProcess * filesystem.

(** Computations that read and change the world and may raise. *)
Definition M (A : Type) : Type := world -> outcome A * world.

Definition ret {A : Type} (a : A) : M A := fun w => (Return a, w).

Definition raise {A : Type} (e : exn) : M A := fun w => (Raise e, w).

Definition bind {A B : Type} (c : M A) (k : A -> M B) : M B :=
  fun w =>
    match c w with
    | (Return a, w') => k a w'
    | (Raise e, w') => (Raise e, w')
    end.

Definition lift {A : Type} (o : outcome A) : M A := fun w => (o, w).

(** [try: body  except Exception as e: handler e] *)
Definition try_except {A : Type} (body : M A) (handler : exn -> M A) : M A :=
  fun w =>
    match body w with
    | (Return a, w') => (Return a, w')
    | (Raise e, w') => handler e w'
    end.

Definition log (ev : event) (w : world) : world :=
  {| fs := fs w; trace := trace w ++ [ev] |}.

Notation "x <- c ;; k" := (bind c (fun x => k))
  (at level 61, c at next level, right associativity).

(** *** Methods and operators on values *)

(** [v.get(key, default)]; only a [dict] has the method. *)
Definition get (v : value) (key : string) (default : value) : M value :=
  match v with
  | VDict d =>
      match dict_lookup d key with
      | Some x => ret x
      | None => ret default
      end
  | _ =>
      raise (Exception "AttributeError"
               ("'" ++ type_name v ++ "' object has no attribute 'get'"))
  end.

(** [v[key]] for a string [key] *)
Definition getitem (v : value) (key : string) : M value :=
  match v with
  | VDict d =>
      match dict_lookup d key with
      | Some x => ret x
      | None => raise (Exception "KeyError" ("'" ++ key ++ "'"))
      end
  | VList _ =>
      raise (Exception "TypeError" "list indices must be integers or slices, not str")
  | VStr _ =>
      raise (Exception "TypeError" "string indices must be integers, not 'str'")
  | _ =>
      raise (Exception "TypeError" ("'" ++ type_name v ++ "' object is not subscriptable"))
  end.

(** [a or b] where [b] is a value already at hand, and where [b] is still
    to be evaluated: it is evaluated only when [a] is false. *)
Definition or_ (a b : value) : value := if truthy a then a else b.

Definition or_else (a : value) (b : M value) : M value :=
  if truthy a then ret a else b.

(** [max(items, key=key)]: the key of every item is computed once, in
    order, and an item replaces the current maximum only when its key is
    strictly greater. *)
Fixpoint max_loop {A : Type} (key : A -> M Z) (items : list A) (maxitem : A) (maxval : Z)
  : M A :=
  match items with
  | [] => ret maxitem
  | item :: rest =>
      val <- key item ;;
      if (maxval <? val)%Z then max_loop key rest item val
      else max_loop key rest maxitem maxval
  end.

Definition max_ {A : Type} (items : list A) (key : A -> M Z) : M A :=
  match items with
  | [] => raise (Exception "ValueError" "max() arg is an empty sequence")
  | item :: rest => val <- key item ;; max_loop key rest item val
  end.

(** [open(path, 'r')], with the text the file object will give *)
Definition open_ (path : string) : M TextIOWrapper :=
  fun w =>
    match fs_read (fs w) path with
    | Return text => (Return {| file_name := path; file_text := text |}, log (Open path) w)
    | Raise e => (Raise e, log (Open path) w)
    end.

Module os.

Definition listdir (path : string) : M (list string) :=
  fun w => (fs_listdir (fs w) path, log (Listdir path) w).

Module path.

(** [posixpath.join(a, b)] *)
Definition join (a b : string) : string :=
  if String.prefix "/" b then b
  else if String.eqb a "" || endswith a "/" then a ++ b
  else a ++ "/" ++ b.

Definition getctime (filename : string) : M Z :=
  fun w => (fs_getctime (fs w) filename, log (Getctime filename) w).

End path.

End os.

Module subprocess.

(** The arguments must be strings: the first one that is not raises.
    What [Popen] does next with a vector of strings belongs to [spawn]:
    refusing an argument that holds a null byte (a [ValueError], raised
    before any process is started), finding the executable, the launch. *)
Fixpoint fsencode_args (args : list value) : outcome (list string) :=
  match args with
  | [] => Return []
  | VStr s :: rest =>
      match fsencode_args rest with
      | Return l => Return (s :: l)
      | Raise e => Raise e
      end
  | v :: _ =>
      Raise (Exception "TypeError"
               ("expected str, bytes or os.PathLike object, not " ++ type_name v))
  end.

(** [subprocess.run(args, capture_output=True, text=True, cwd=cwd)] *)
Definition run (spawn : program) (args : list value) (cwd : string) : M CompletedProcess :=
  fun w =>
    match fsencode_args args with
    | Raise e => (Raise e, w)
    | Return argv =>
        let (result, fs') := spawn argv cwd (fs w) in
        (result, {| fs := fs'; trace := trace w ++ [Spawn argv cwd] |})
    end.

End subprocess.

(** ** [examples/autogen-agent.py]

    [transcribe_video] is split where the properties below need to name a
    part of it; the parts are given with the lines they embed. *)

Module VideoTranscriptionCapability.

Section Instance.

Variable spawn : program.

(** [self.agent_path] *)
Variable agent_path : string.

(** Lines 25 to 34: the command line. *)
Definition command (video_path : string) (enhance : bool) : list value :=
  let cmd := [VStr "node";
              VStr (os.path.join agent_path "dist/index.js");
              VStr "transcribe";
              VStr video_path;
              VStr "--format"; VStr "json"] in
  if enhance then (cmd ++ [VStr "--enhance"])%list else cmd.

(** Lines 47 to 54: the record returned for the parsed artifact [data]. *)
Definition normalize (data : value) : M value :=
  e1 <- get data "enhancement" (VDict []) ;;
  enhancedText <- get e1 "enhancedText" VNone ;;
  transcription <-
    or_else enhancedText
      (t <- getitem data "transcription" ;; getitem t "fullText") ;;
  e2 <- get data "enhancement" (VDict []) ;;
  summary <- get e2 "summary" VNone ;;
  e3 <- get data "enhancement" (VDict []) ;;
  keyPoints <- get e3 "keyPoints" (VList []) ;;
  e4 <- get data "enhancement" (VDict []) ;;
  topics <- get e4 "topics" (VList []) ;;
  e5 <- get data "enhancement" (VDict []) ;;
  sentiment <- get e5 "sentiment" VNone ;;
  ret (VDict [("success", VBool true);
              ("transcription", transcription);
              ("summary", summary);
              ("keyPoints", keyPoints);
              ("topics", topics);
              ("sentiment", sentiment)]).

(** Lines 45 to 54: open the file, parse it, build the record. *)
Definition load_and_normalize (filename : string) : M value :=
  f <- open_ filename ;;
  data <- lift (json.load f) ;;
  normalize data.

(** Lines 39 to 54, the body of [if result.returncode == 0]: list the
    output directory, keep the names with the suffix, take the newest and
    return its record.  [Some record] is the [return] of line 47; [None] is
    control leaving the block when [json_files] is empty. *)
Definition locate_and_normalize : M (option value) :=
  let output_dir := os.path.join agent_path "output" in
  names <- os.listdir output_dir ;;
  let json_files := filter (fun f => endswith f "_transcription.json") names in
  if truthy (VList (map VStr json_files)) then
    latest_file <-
      max_ json_files (fun x => os.path.getctime (os.path.join output_dir x)) ;;
    record <- load_and_normalize (os.path.join output_dir latest_file) ;;
    ret (Some record)
  else ret None.

(** Lines 25 to 59, the body of the [try]. *)
Definition transcribe_video_try (video_path : string) (enhance : bool) : M value :=
  let cmd := command video_path enhance in
  result <- subprocess.run spawn cmd agent_path ;;
  returned <-
    (if (returncode result =? 0)%Z then locate_and_normalize else ret None) ;;
  match returned with
  | Some record => ret record
  | None =>
      ret (VDict [("success", VBool false);
                  ("error", or_ (VStr (stderr result)) (VStr "Transcription failed"))])
  end.

(** Lines 24 to 65. *)
Definition transcribe_video (video_path : string) (enhance : bool) : M value :=
  try_except (transcribe_video_try video_path enhance)
    (fun e => ret (VDict [("success", VBool false);
                          ("error", VStr (str_of_exn e))])).

End Instance.

End VideoTranscriptionCapability.

(** ** [examples/crewai-agent.py]

    [_run] returns the record as JSON text; it is split the same way. *)

Module VideoTranscriptionTool.

Section Instance.

Variable spawn : program.

(** [self.agent_path] *)
Variable agent_path : string.

(** Lines 42 to 51: the command line. *)
Definition command (video_path enhance output_format : value) : list value :=
  let cmd := [VStr "node";
              VStr (os.path.join agent_path "packages/cli/dist/cli.js");
              VStr "transcribe";
              video_path;
              VStr "--format"; output_format] in
  if truthy enhance then (cmd ++ [VStr "--enhance"])%list else cmd.

(** Lines 66 to 78: the record built from the parsed artifact [data],
    before [json.dumps]. *)
Definition normalize (data : value) : M value :=
  enhancement <- get data "enhancement" (VDict []) ;;
  transcription <- get data "transcription" (VDict []) ;;
  enhancedText <- get enhancement "enhancedText" VNone ;;
  text <- or_else enhancedText (get transcription "fullText" (VStr "")) ;;
  summary <- get enhancement "summary" (VStr "") ;;
  key_points <- get enhancement "keyPoints" (VList []) ;;
  topics <- get enhancement "topics" (VList []) ;;
  sentiment <- get enhancement "sentiment" (VStr "neutral") ;;
  confidence <- get transcription "confidence" (VInt 0) ;;
  metadata <- get data "metadata" (VDict []) ;;
  processingOptions <- get metadata "processingOptions" (VDict []) ;;
  output_files <- get processingOptions "outputFiles" (VList []) ;;
  ret (VDict [("success", VBool true);
              ("transcription", text);
              ("summary", summary);
              ("key_points", key_points);
              ("topics", topics);
              ("sentiment", sentiment);
              ("confidence", confidence);
              ("output_files", output_files)]).

(** Lines 63 to 78: open the file, parse it, return the record as text. *)
Definition load_and_normalize (filename : string) : M string :=
  f <- open_ filename ;;
  data <- lift (json.load f) ;;
  record <- normalize data ;;
  ret (json.dumps record (Some 2%nat)).

(** Lines 57 to 78, the body of [if result.returncode == 0].  [Some text]
    is the [return] of line 69; [None] is control leaving the block when
    [json_files] is empty. *)
Definition locate_and_normalize : M (option string) :=
  let output_dir := os.path.join agent_path "output" in
  names <- os.listdir output_dir ;;
  let json_files := filter (fun f => endswith f "_transcription.json") names in
  if truthy (VList (map VStr json_files)) then
    latest_file <-
      max_ json_files (fun x => os.path.getctime (os.path.join output_dir x)) ;;
    text <- load_and_normalize (os.path.join output_dir latest_file) ;;
    ret (Some text)
  else ret None.

(** Lines 41 to 83: run the command and report. *)
Definition transcribe (video_path enhance output_format : value) : M string :=
  let cmd := command video_path enhance output_format in
  result <- subprocess.run spawn cmd agent_path ;;
  returned <-
    (if (returncode result =? 0)%Z then locate_and_normalize else ret None) ;;
  match returned with
  | Some text => ret text
  | None =>
      ret (json.dumps
             (VDict [("success", VBool false);
                     ("error",
                      or_ (VStr (stderr result)) (VStr "Transcription failed"))])
             None)
  end.

(** Lines 33 to 83, the body of the [try]. *)
Definition _run_try (input_data : string) : M string :=
  data <- lift (json.loads input_data) ;;
  video_path <- get data "video_path" VNone ;;
  enhance <- get data "enhance" (VBool true) ;;
  output_format <- get data "output_format" (VStr "json") ;;
  if negb (truthy video_path) then
    ret (json.dumps (VDict [("error", VStr "video_path is required")]) None)
  else transcribe video_path enhance output_format.

(** Lines 32 to 89. *)
Definition _run (input_data : string) : M string :=
  try_except (_run_try input_data)
    (fun e => ret (json.dumps
                     (VDict [("success", VBool false);
                             ("error", VStr (str_of_exn e))])
                     None)).

End Instance.

End VideoTranscriptionTool.

(** ** Records, artifacts and failure kinds: the vocabulary of the properties *)

(** The field [key] of a record. *)
Definition field (r : value) (key : string) : option value :=
  match r with
  | VDict d => dict_lookup d key
  | _ => None
  end.

Definition has_field (r : value) (key : string) : bool :=
  match field r key with
  | Some _ => true
  | None => false
  end.

Definition field_names (r : value) : list string :=
  match r with
  | VDict d => dict_keys d
  | _ => []
  end.

(** The two shapes of a result record, and the invariant that a record
    has exactly one of them. *)
Definition is_success (r : value) : bool :=
  match field r "success" with
  | Some (VBool true) => has_field r "transcription"
  | _ => false
  end.

Definition is_failure (r : value) : bool :=
  match field r "success" with
  | Some (VBool false) => has_field r "error"
  | _ => false
  end.

Definition result_invariant (r : value) : bool :=
  xorb (is_success r) (is_failure r).

(** [{success: false, error: msg}] *)
Definition failure_record (msg : string) : value :=
  VDict [("success", VBool false); ("error", VStr msg)].

(** [stderr or 'Transcription failed'] as a string *)
Definition failure_message (result : CompletedProcess) : string :=
  if String.eqb (stderr result) "" then "Transcription failed" else stderr result.

(** [d.get(key, default)] for a dictionary, as a total function. *)
Definition lookup_default (d : list (string * value)) (key : string) (default : value)
  : value :=
  match dict_lookup d key with
  | Some x => x
  | None => default
  end.

(** The artifact format the agents consume (section 6 of the
    specification): a transcription section with a full text and a
    confidence number, an optional enhancement section whose entries have
    the expected types, an optional metadata section. *)
Definition is_str (v : value) : bool :=
  match v with VStr _ => true | _ => false end.

Definition is_number (v : value) : bool :=
  match v with VInt _ | VFloat _ => true | _ => false end.

Definition is_list (v : value) : bool :=
  match v with VList _ => true | _ => false end.

Definition required (d : list (string * value)) (key : string) (p : value -> bool) : bool :=
  match dict_lookup d key with
  | Some v => p v
  | None => false
  end.

Definition optional (d : list (string * value)) (key : string) (p : value -> bool) : bool :=
  match dict_lookup d key with
  | Some v => p v
  | None => true
  end.

Definition valid_transcription (v : value) : bool :=
  match v with
  | VDict t => required t "fullText" is_str && required t "confidence" is_number
  | _ => false
  end.

Definition valid_enhancement (v : value) : bool :=
  match v with
  | VDict e =>
      optional e "enhancedText" is_str && optional e "summary" is_str
      && optional e "keyPoints" is_list && optional e "topics" is_list
      && optional e "sentiment" is_str
  | _ => false
  end.

Definition valid_metadata (v : value) : bool :=
  match v with
  | VDict m =>
      optional m "processingOptions"
        (fun o => match o with
                  | VDict o' => optional o' "outputFiles" is_list
                  | _ => false
                  end)
  | _ => false
  end.

Definition valid_artifact (data : value) : bool :=
  match data with
  | VDict d =>
      required d "transcription" valid_transcription
      && optional d "enhancement" valid_enhancement
      && optional d "metadata" valid_metadata
  | _ => false
  end.

(** The raw full text and the enhanced text of an artifact, when it has them. *)
Definition raw_text (data : value) : option string :=
  match field data "transcription" with
  | Some t => match field t "fullText" with Some (VStr s) => Some s | _ => None end
  | None => None
  end.

Definition enhanced_text (data : value) : option string :=
  match field data "enhancement" with
  | Some e => match field e "enhancedText" with Some (VStr s) => Some s | _ => None end
  | None => None
  end.

(** The text of an artifact: its enhanced text when it has one that is
    not empty, its raw full text otherwise. *)
Definition transcript (data : value) : option string :=
  match enhanced_text data with
  | Some s => if String.eqb s "" then raw_text data else Some s
  | None => raw_text data
  end.

(** The file [max] selects when every creation time can be read: the
    first of the files, in listing order, whose creation time no other
    file exceeds. *)
Fixpoint newest_loop (ctime : string -> Z) (items : list string) (maxitem : string)
  : string :=
  match items with
  | [] => maxitem
  | item :: rest =>
      if (ctime maxitem <? ctime item)%Z then newest_loop ctime rest item
      else newest_loop ctime rest maxitem
  end.

Definition newest (ctime : string -> Z) (items : list string) : option string :=
  match items with
  | [] => None
  | item :: rest => Some (newest_loop ctime rest item)
  end.

Definition suffix : string := "_transcription.json".

Definition matching (names : list string) : list string :=
  filter (fun f => endswith f suffix) names.

Definition output_directory (agent_path : string) : string :=
  os.path.join agent_path "output".

(** The four kinds of failure of the specification's taxonomy, for a
    process that completed with [result] and left the file system [fs1]. *)
Inductive failure (agent_path : string) (result : CompletedProcess) (fs1 : filesystem)
  : Prop :=
| ProcessFailure :
    returncode result <> 0%Z ->
    failure agent_path result fs1
| IOUnavailable (e : exn) :
    returncode result = 0%Z ->
    fs_listdir fs1 (output_directory agent_path) = Raise e ->
    failure agent_path result fs1
| NoArtifactFound (names : list string) :
    returncode result = 0%Z ->
    fs_listdir fs1 (output_directory agent_path) = Return names ->
    matching names = [] ->
    failure agent_path result fs1
| MalformedArtifact (names : list string) (ctime : string -> Z)
    (latest text : string) (e : exn) :
    returncode result = 0%Z ->
    fs_listdir fs1 (output_directory agent_path) = Return names ->
    (forall f, In f (matching names) ->
       fs_getctime fs1 (os.path.join (output_directory agent_path) f)
       = Return (ctime f)) ->
    newest ctime (matching names) = Some latest ->
    fs_read fs1 (os.path.join (output_directory agent_path) latest) = Return text ->
    json.loads text = Raise e ->
    failure agent_path result fs1.

(** The request [_run] reads from its input: the three values it takes
    from the JSON object, when the object names a video. *)
Definition request (input_data : string) (video_path enhance output_format : value)
  : Prop :=
  exists d,
    json.loads input_data = Return (VDict d)
    /\ video_path = lookup_default d "video_path" VNone
    /\ enhance = lookup_default d "enhance" (VBool true)
    /\ output_format = lookup_default d "output_format" (VStr "json")
    /\ truthy video_path = true.

(** ** The control flow the two agents share

    The two functions differ in their command line, in the record they
    build and in returning it as a dictionary or as text; the run of the
    process, the search of the output directory and the handling of
    failures are the same code.  It is stated once here, over the parts
    that differ, and shown below to be what each agent does. *)

(** Lines 39 to 54 of the first agent, 57 to 78 of the second, over the
    function [load] that turns the selected file into the result. *)
Definition locate_with {A : Type} (agent_path : string) (load : string -> M A)
  : M (option A) :=
  let output_dir := os.path.join agent_path "output" in
  names <- os.listdir output_dir ;;
  let json_files := filter (fun f => endswith f "_transcription.json") names in
  if truthy (VList (map VStr json_files)) then
    latest_file <-
      max_ json_files (fun x => os.path.getctime (os.path.join output_dir x)) ;;
    r <- load (os.path.join output_dir latest_file) ;;
    ret (Some r)
  else ret None.

(** The [try] statement of both agents from the call of [subprocess.run]
    on, over the command [cmd], the block [locate] and the way [failing] a
    failure record is returned. *)
Definition attempt {A : Type} (spawn : program) (agent_path : string) (cmd : list value)
  (locate : M (option A)) (failing : string -> A) : M A :=
  try_except
    (result <- subprocess.run spawn cmd agent_path ;;
     returned <- (if (returncode result =? 0)%Z then locate else ret None) ;;
     match returned with
     | Some r => ret r
     | None => ret (failing (failure_message result))
     end)
    (fun e => ret (failing (str_of_exn e))).

(** What the [try] statement makes of the outcome of the block. *)
Definition conclude {A : Type} (failing : string -> A) (result : CompletedProcess)
  (r : outcome (option A) * world) : outcome A * world :=
  match r with
  | (Return (Some a), w) => (Return a, w)
  | (Return None, w) => (Return (failing (failure_message result)), w)
  | (Raise e, w) => (Return (failing (str_of_exn e)), w)
  end.

Definition some_outcome {A : Type} (o : outcome A) : outcome (option A) :=
  match o with
  | Return a => Return (Some a)
  | Raise e => Raise e
  end.

(** The world after the process has run. *)
Definition after_spawn (w : world) (argv : list string) (cwd : string) (fs1 : filesystem)
  : world :=
  {| fs := fs1; trace := trace w ++ [Spawn argv cwd] |}.

(** The argument vector of the first agent. *)
Definition capability_argv (agent_path video_path : string) (enhance : bool)
  : list string :=
  (["node"; os.path.join agent_path "dist/index.js"; "transcribe"; video_path;
    "--format"; "json"] ++ (if enhance then ["--enhance"] else []))%list.

(** The process of the first agent ran to completion: it returned
    [result] and left [fs1]. *)
Definition capability_completes (spawn : program) (agent_path video_path : string)
  (enhance : bool) (w : world) (result : CompletedProcess) (fs1 : filesystem) : Prop :=
  spawn (capability_argv agent_path video_path enhance) agent_path (fs w)
  = (Return result, fs1).

(** The same for the second agent, whose command comes from its input. *)
Definition tool_completes (spawn : program) (agent_path input_data : string)
  (w : world) (argv : list string) (result : CompletedProcess) (fs1 : filesystem) : Prop :=
  exists video_path enhance output_format,
    request input_data video_path enhance output_format
    /\ subprocess.fsencode_args
         (VideoTranscriptionTool.command agent_path video_path enhance output_format)
       = Return argv
    /\ spawn argv agent_path (fs w) = (Return result, fs1).

(** The text [_run] returns for a failure. *)
Definition failure_text (msg : string) : string :=
  json.dumps (failure_record msg) None.

(** A computation that only reads the file system: its outcome depends
    on the file system alone, and it leaves the file system as it was. *)
Definition reads {A : Type} (c : M A) : Prop :=
  forall w w', fs w = fs w' ->
    fst (c w) = fst (c w') /\ fs (snd (c w)) = fs w.

(** [latest] is the file the search of the output directory selects in
    the file system [fs1]: the directory can be listed, the creation time
    of every matching file can be read, and [latest] is the newest. *)
Definition selected (agent_path : string) (fs1 : filesystem) (latest : string) : Prop :=
  exists names ctime,
    fs_listdir fs1 (output_directory agent_path) = Return names
    /\ (forall f, In f (matching names) ->
          fs_getctime fs1 (os.path.join (output_directory agent_path) f)
          = Return (ctime f))
    /\ newest ctime (matching names) = Some latest.

(** [data] is the document parsed from the selected file. *)
Definition artifact (agent_path : string) (fs1 : filesystem) (data : value) : Prop :=
  exists latest text,
    selected agent_path fs1 latest
    /\ fs_read fs1 (os.path.join (output_directory agent_path) latest) = Return text
    /\ json.loads text = Return data.

(** What the [except] clause makes of an outcome. *)
Definition answer {A : Type} (failing : string -> A) (o : outcome A) : A :=
  match o with
  | Return a => a
  | Raise e => failing (str_of_exn e)
  end.

(** The outcome of loading the file [filename] from the file system [fs1]. *)
Definition loaded {A : Type} (load : string -> M A) (fs1 : filesystem) (filename : string)
  : outcome A :=
  fst (load filename {| fs := fs1; trace := [] |}).

(** The reply of [_run] to an input that names no video. *)
Definition validation_record : value :=
  VDict [("error", VStr "video_path is required")].

Definition validation_reply : string :=
  "{" ++ dquote ++ "error" ++ dquote ++ ": "
      ++ dquote ++ "video_path is required" ++ dquote ++ "}".

(** A computation that does not touch the world at all. *)
Definition pure {A : Type} (c : M A) : Prop :=
  exists o, forall w, c w = (o, w).

(** The record of the first agent for an enhancement section [e] and a
    transcription text, and the record of the second agent for the
    enhancement section [e], the transcription section [t] and the
    processing options [o] of an artifact.  [lookup_default] gives the
    entry of a section, or the default when the section has no such
    entry. *)
Definition capability_record (e : list (string * value)) (transcription : value) : value :=
  VDict [("success", VBool true);
         ("transcription", transcription);
         ("summary", lookup_default e "summary" VNone);
         ("keyPoints", lookup_default e "keyPoints" (VList []));
         ("topics", lookup_default e "topics" (VList []));
         ("sentiment", lookup_default e "sentiment" VNone)].

Definition tool_record (e t o : list (string * value)) : value :=
  VDict [("success", VBool true);
         ("transcription",
          or_ (lookup_default e "enhancedText" VNone)
              (lookup_default t "fullText" (VStr "")));
         ("summary", lookup_default e "summary" (VStr ""));
         ("key_points", lookup_default e "keyPoints" (VList []));
         ("topics", lookup_default e "topics" (VList []));
         ("sentiment", lookup_default e "sentiment" (VStr "neutral"));
         ("confidence", lookup_default t "confidence" (VInt 0));
         ("output_files", lookup_default o "outputFiles" (VList []))].

(** The sections [normalize] reads from an artifact [d]: each is the
    dictionary found under its key, or the empty dictionary when the key
    is absent. *)
Definition section_of (d : list (string * value)) (key : string)
  (s : list (string * value)) : Prop :=
  lookup_default d key (VDict []) = VDict s.

(** The field [name] of the record [r] is the entry [key] of the section,
    or [default] when the section has no such entry. *)
Definition defaults_to (r : value) (name : string) (section : list (string * value))
  (key : string) (default : value) : Prop :=
  field r name = Some (lookup_default section key default).

(** ** A concrete machine

    A small file system given by a table of nodes, with the exceptions the
    operating system raises, and programs that exit with a given status
    and leave a given file system behind. *)

Inductive node : Type :=
| RegularFile (ctime : Z) (text : string)
| Directory (ctime : Z) (names : list string).

Fixpoint lookup_node (disk : list (string * node)) (path : string) : option node :=
  match disk with
  | [] => None
  | (p, n) :: rest => if String.eqb p path then Some n else lookup_node rest path
  end.

Fixpoint occurs (c : ascii) (s : string) : bool :=
  match s with
  | EmptyString => false
  | String c' rest => Ascii.eqb c c' || occurs c rest
  end.

(** [repr] of one character of a [str] written between [quote]s.  The
    characters outside ASCII are taken as printable. *)
Definition repr_char (quote c : ascii) : string :=
  let n := N_of_ascii c in
  if Ascii.eqb c quote || Ascii.eqb c json.BACKSLASH then
    String json.BACKSLASH (String c "")
  else if (n =? 9)%N then "\t"
  else if (n =? 10)%N then "\n"
  else if (n =? 13)%N then "\r"
  else if (n <? 32)%N || (n =? 127)%N then
    "\x" ++ json.hex_digit (n / 16) ++ json.hex_digit (n mod 16)
  else String c "".

Fixpoint repr_chars (quote : ascii) (s : string) : string :=
  match s with
  | EmptyString => ""
  | String c rest => repr_char quote c ++ repr_chars quote rest
  end.

(** [repr(s)] for a [str]: between apostrophes, or between double quotes
    when [s] has an apostrophe and no double quote. *)
Definition repr_str (s : string) : string :=
  let quote :=
    if occurs "'" s && negb (occurs json.QUOTE s) then json.QUOTE else "'"%char in
  String quote (repr_chars quote s ++ String quote "").

(** [OSError(errno, strerror, filename)], with the text [str] gives it. *)
Definition OSError (cls errno strerror filename : string) : exn :=
  Exception cls ("[Errno " ++ errno ++ "] " ++ strerror ++ ": " ++ repr_str filename).

Definition mount (disk : list (string * node)) : filesystem :=
  {| fs_listdir path :=
       match lookup_node disk path with
       | Some (Directory _ names) => Return names
       | Some (RegularFile _ _) =>
           Raise (OSError "NotADirectoryError" "20" "Not a directory" path)
       | None => Raise (OSError "FileNotFoundError" "2" "No such file or directory" path)
       end;
     fs_getctime path :=
       match lookup_node disk path with
       | Some (Directory t _) => Return t
       | Some (RegularFile t _) => Return t
       | None => Raise (OSError "FileNotFoundError" "2" "No such file or directory" path)
       end;
     fs_read path :=
       match lookup_node disk path with
       | Some (RegularFile _ text) => Return text
       | Some (Directory _ _) =>
           Raise (OSError "IsADirectoryError" "21" "Is a directory" path)
       | None => Raise (OSError "FileNotFoundError" "2" "No such file or directory" path)
       end |}.

(** A program that exits with [status], writes [err] to its standard
    error and leaves the file system [after]. *)
Definition exits (status : Z) (err : string) (after : filesystem) : program :=
  fun _ _ _ => (Return {| returncode := status; stdout := ""; stderr := err |}, after).

Definition boot (disk : list (string * node)) : world :=
  {| fs := mount disk; trace := [] |}.

Module Example.

Definition agent : string := "./video-transcribe".

Definition nine_tenths : value := VFloat (FDec false 9 (-1)).

(** The artifact of the specification's end-to-end scenario. *)
Definition artifact_B : value :=
  VDict [("transcription",
          VDict [("fullText", VStr "hello world"); ("confidence", nine_tenths)]);
         ("enhancement",
          VDict [("enhancedText", VStr "Hello, world.");
                 ("summary", VStr "greeting");
                 ("keyPoints", VList [VStr "greeting"]);
                 ("topics", VList [VStr "intro"]);
                 ("sentiment", VStr "neutral")])].

(** An older artifact, without enhancement. *)
Definition artifact_A : value :=
  VDict [("transcription",
          VDict [("fullText", VStr "first recording"); ("confidence", nine_tenths)])].

(** An artifact whose enhanced text is empty. *)
Definition artifact_blank : value :=
  VDict [("transcription",
          VDict [("fullText", VStr "raw text"); ("confidence", nine_tenths)]);
         ("enhancement", VDict [("enhancedText", VStr "")])].

Definition name_A : string := "20231231_xyz_transcription.json".
Definition name_B : string := "20240101_abc_transcription.json".

Definition output_of (files : list (string * node)) : list (string * node) :=
  ("./video-transcribe/output", Directory 0 (map fst files))
    :: map (fun f => ("./video-transcribe/output/" ++ fst f, snd f)) files.

(** A at t=1 and B at t=2, next to a file that does not match. *)
Definition disk_AB : list (string * node) :=
  output_of [(name_A, RegularFile 1 (json.dumps artifact_A None));
             ("notes.txt", RegularFile 3 "not an artifact");
             (name_B, RegularFile 2 (json.dumps artifact_B None))].

Definition disk_blank : list (string * node) :=
  output_of [(name_B, RegularFile 2 (json.dumps artifact_blank None))].

Definition disk_minimal : list (string * node) :=
  output_of [(name_B, RegularFile 2 "{}")].

Definition disk_malformed : list (string * node) :=
  output_of [(name_B, RegularFile 2 "not json")].

Definition disk_no_match : list (string * node) :=
  output_of [("notes.txt", RegularFile 3 "not an artifact")].

Definition disk_missing : list (string * node) := [].

(** The input of [_run] naming a video, and the command it leads to. *)
Definition request_text : string :=
  json.dumps (VDict [("video_path", VStr "./meeting.mp4")]) None.

Definition tool_argv : list string :=
  ["node"; "./video-transcribe/packages/cli/dist/cli.js"; "transcribe";
   "./meeting.mp4"; "--format"; "json"; "--enhance"].

Definition process (status : Z) (err : string) : CompletedProcess :=
  {| returncode := status; stdout := ""; stderr := err |}.

(** The creation times in [disk_AB]. *)
Definition ctime_AB (f : string) : Z := if String.eqb f name_A then 1%Z else 2%Z.

End Example.

(** ** The calls an agent makes: the vocabulary of the further properties *)

(** [c] adds to the trace only events that satisfy [P], and a value it
    returns satisfies [Q]. *)
Definition performs {A : Type} (c : M A) (P : event -> Prop) (Q : A -> Prop) : Prop :=
  forall w,
    (exists evs, trace (snd (c w)) = (trace w ++ evs)%list /\ Forall P evs)
    /\ (forall a, fst (c w) = Return a -> Q a).

(** The calls of the search: the listing of the output directory, and the
    stat or the opening of a file of that directory whose name has the
    suffix. *)
Definition examines (agent_path : string) (ev : event) : Prop :=
  ev = Listdir (output_directory agent_path)
  \/ exists f,
       endswith f suffix = true
       /\ (ev = Getctime (os.path.join (output_directory agent_path) f)
           \/ ev = Open (os.path.join (output_directory agent_path) f)).

(** The argument vector of the second agent for a video path and an output
    format that are strings. *)
Definition tool_argv (agent_path video_path : string) (enhance : value)
  (output_format : string) : list string :=
  (["node"; os.path.join agent_path "packages/cli/dist/cli.js"; "transcribe";
    video_path; "--format"; output_format]
     ++ (if truthy enhance then ["--enhance"] else []))%list.

(** The text of the [AttributeError] for a call of [get] on [v]. *)
Definition no_get (v : value) : string :=
  "'" ++ type_name v ++ "' object has no attribute 'get'".


Definition is_dict (v : value) : bool :=
  match v with VDict _ => true | _ => false end.

(** One stat of each of the files, in order. *)
Definition stats (dir : string) (items : list string) : list event :=
  map (fun f => Getctime (os.path.join dir f)) items.

(** A program that cannot be started: the launch raises [e]. *)
Definition cannot_start (e : exn) : program :=
  fun _ _ after => (Raise e, after).

Module Edge.

(** Two artifacts created at the same time, A listed first. *)
Definition disk_tie : list (string * node) :=
  Example.output_of
    [(Example.name_A, RegularFile 2 (json.dumps Example.artifact_A None));
     (Example.name_B, RegularFile 2 (json.dumps Example.artifact_B None))].

Definition name_ghost : string := "ghost_transcription.json".

(** A listing that names a matching file which is no longer there. *)
Definition disk_ghost : list (string * node) :=
  [("./video-transcribe/output", Directory 0 [Example.name_B; name_ghost]);
   ("./video-transcribe/output/" ++ Example.name_B,
    RegularFile 2 (json.dumps Example.artifact_B None))].

(** A directory whose name has the suffix of an artifact. *)
Definition disk_directory : list (string * node) :=
  Example.output_of [(Example.name_B, Directory 2 [])].

(** An artifact whose enhancement section is [null]. *)
Definition artifact_null : value :=
  VDict [("transcription",
          VDict [("fullText", VStr "raw text"); ("confidence", Example.nine_tenths)]);
         ("enhancement", VNone)].

Definition disk_null : list (string * node) :=
  Example.output_of [(Example.name_B, RegularFile 2 (json.dumps artifact_null None))].

(** An artifact without a transcription section. *)
Definition artifact_bare : value :=
  VDict [("enhancement", VDict [("summary", VStr "nothing was said")])].

Definition disk_bare : list (string * node) :=
  Example.output_of [(Example.name_B, RegularFile 2 (json.dumps artifact_bare None))].

Definition node_missing : exn :=
  OSError "FileNotFoundError" "2" "No such file or directory" "node".

End Edge.

(** *** Time stamps on a POSIX system

    There [os.path.getctime] is [st_ctime], the time of the last change of
    the inode: writing to the file, changing its mode or its owner,
    renaming or linking it all move it forward.  The time of creation is
    not what it returns. *)
Module Posix.

Record file : Type := { created : Z; changed : Z; content : string }.

Definition st_ctime (f : file) : Z := changed f.

Definition inode (f : file) : node := RegularFile (st_ctime f) (content f).

(** A was written at 1 and B at 2; the mode of A was changed at 3. *)
Definition file_A : file :=
  {| created := 1; changed := 3; content := json.dumps Example.artifact_A None |}.

Definition file_B : file :=
  {| created := 2; changed := 2; content := json.dumps Example.artifact_B None |}.

Definition disk_touched : list (string * node) :=
  Example.output_of [(Example.name_A, inode file_A); (Example.name_B, inode file_B)].

End Posix.

(** * Properties *)

(** ** Computations *)

Lemma or_stderr (result : CompletedProcess) :
  or_ (VStr (stderr result)) (VStr "Transcription failed")
  = VStr (failure_message result).
Proof.
  unfold or_, failure_message; simpl.
  destruct (String.eqb (stderr result) ""); reflexivity.
Qed.

Lemma get_dict (d : list (string * value)) (key : string) (default : value) (w : world) :
  get (VDict d) key default w = (Return (lookup_default d key default), w).
Proof.
  unfold get, lookup_default; destruct (dict_lookup d key); reflexivity.
Qed.

Lemma reads_ret {A : Type} (a : A) : reads (ret a).
Proof. intros w w' _; split; reflexivity. Qed.

Lemma reads_raise {A : Type} (e : exn) : reads (@raise A e).
Proof. intros w w' _; split; reflexivity. Qed.

Lemma reads_lift {A : Type} (o : outcome A) : reads (lift o).
Proof. intros w w' _; split; reflexivity. Qed.

Lemma reads_bind {A B : Type} (c : M A) (k : A -> M B) :
  reads c -> (forall a, reads (k a)) -> reads (bind c k).
Proof.
  intros Hc Hk w w' E; unfold bind.
  destruct (Hc w w' E) as [E1 E2].
  destruct (Hc w' w' eq_refl) as [_ E2'].
  destruct (c w) as [o1 w1], (c w') as [o2 w2]; simpl in *; subst o2.
  destruct o1 as [a | e]; simpl.
  - destruct (Hk a w1 w2) as [F1 F2]; [congruence |].
    split; [exact F1 | congruence].
  - split; [reflexivity | exact E2].
Qed.

Lemma reads_if {A : Type} (b : bool) (c1 c2 : M A) :
  reads c1 -> reads c2 -> reads (if b then c1 else c2).
Proof. destruct b; trivial. Qed.

Lemma reads_get (v : value) (key : string) (default : value) : reads (get v key default).
Proof.
  destruct v; simpl; try apply reads_raise.
  destruct (dict_lookup d key); apply reads_ret.
Qed.

Lemma reads_getitem (v : value) (key : string) : reads (getitem v key).
Proof.
  destruct v; simpl; try apply reads_raise.
  destruct (dict_lookup d key); [apply reads_ret | apply reads_raise].
Qed.

Lemma reads_or_else (a : value) (b : M value) : reads b -> reads (or_else a b).
Proof. intro Hb; unfold or_else; destruct (truthy a); [apply reads_ret | exact Hb]. Qed.

Lemma reads_listdir (path : string) : reads (os.listdir path).
Proof. intros w w' E; unfold os.listdir; simpl; rewrite E; split; reflexivity. Qed.

Lemma reads_getctime (filename : string) : reads (os.path.getctime filename).
Proof. intros w w' E; unfold os.path.getctime; simpl; rewrite E; split; reflexivity. Qed.

Lemma reads_open (path : string) : reads (open_ path).
Proof.
  intros w w' E; unfold open_; rewrite E.
  destruct (fs_read (fs w') path); simpl; split; congruence.
Qed.

Lemma reads_max_loop {A : Type} (key : A -> M Z) (items : list A) :
  (forall x, reads (key x)) ->
  forall maxitem maxval, reads (max_loop key items maxitem maxval).
Proof.
  intro Hkey; induction items as [| item rest IH]; intros maxitem maxval; simpl.
  - apply reads_ret.
  - apply reads_bind; [apply Hkey | intro val].
    destruct (maxval <? val)%Z; apply IH.
Qed.

Lemma reads_max {A : Type} (items : list A) (key : A -> M Z) :
  (forall x, reads (key x)) -> reads (max_ items key).
Proof.
  intro Hkey; destruct items as [| item rest]; simpl.
  - apply reads_raise.
  - apply reads_bind; [apply Hkey | intro val; apply reads_max_loop, Hkey].
Qed.

Create HintDb reads.

#[local] Hint Resolve reads_ret reads_raise reads_lift reads_get reads_getitem
  reads_listdir reads_getctime reads_open : reads.

Ltac reads_step :=
  first [ apply reads_bind; [| intro]
        | apply reads_or_else
        | apply reads_if
        | apply reads_max; intro
        | solve [auto with reads] ].

Lemma reads_capability_normalize (data : value) :
  reads (VideoTranscriptionCapability.normalize data).
Proof. unfold VideoTranscriptionCapability.normalize; repeat reads_step. Qed.

Lemma reads_tool_normalize (data : value) :
  reads (VideoTranscriptionTool.normalize data).
Proof. unfold VideoTranscriptionTool.normalize; repeat reads_step. Qed.

Lemma reads_capability_load (filename : string) :
  reads (VideoTranscriptionCapability.load_and_normalize filename).
Proof.
  unfold VideoTranscriptionCapability.load_and_normalize.
  repeat reads_step; apply reads_capability_normalize.
Qed.

Lemma reads_tool_load (filename : string) :
  reads (VideoTranscriptionTool.load_and_normalize filename).
Proof.
  unfold VideoTranscriptionTool.load_and_normalize.
  apply reads_bind; [auto with reads | intro f].
  apply reads_bind; [auto with reads | intro data].
  apply reads_bind; [apply reads_tool_normalize | intro; auto with reads].
Qed.

Lemma reads_locate_with {A : Type} (agent_path : string) (load : string -> M A) :
  (forall filename, reads (load filename)) -> reads (locate_with agent_path load).
Proof.
  intro Hload; unfold locate_with.
  apply reads_bind; [auto with reads | intro names].
  apply reads_if; [| auto with reads].
  apply reads_bind; [apply reads_max; intro; auto with reads | intro latest].
  apply reads_bind; [apply Hload | intro; auto with reads].
Qed.

(** ** The newest file *)

Lemma newest_loop_In (ctime : string -> Z) (items : list string) :
  forall maxitem, In (newest_loop ctime items maxitem) (maxitem :: items).
Proof.
  induction items as [| item rest IH]; intro maxitem; simpl.
  - left; reflexivity.
  - destruct (ctime maxitem <? ctime item)%Z.
    + right; apply IH.
    + destruct (IH maxitem) as [E | I]; [left; exact E | right; right; exact I].
Qed.

Lemma newest_loop_max (ctime : string -> Z) (items : list string) :
  forall maxitem f,
    In f (maxitem :: items) ->
    (ctime f <= ctime (newest_loop ctime items maxitem))%Z.
Proof.
  induction items as [| item rest IH]; intros maxitem f Hf; simpl.
  - destruct Hf as [<- | []]; lia.
  - destruct (Z.ltb_spec (ctime maxitem) (ctime item)) as [Hlt | Hge].
    + destruct Hf as [<- | Hf].
      * specialize (IH item item (or_introl eq_refl)); lia.
      * apply IH; exact Hf.
    + destruct Hf as [<- | [<- | Hf]].
      * apply IH; left; reflexivity.
      * specialize (IH maxitem maxitem (or_introl eq_refl)); lia.
      * apply IH; right; exact Hf.
Qed.

(** [newest] picks one of the files, and no file is newer than it. *)
Lemma newest_spec (ctime : string -> Z) (items : list string) (latest : string) :
  newest ctime items = Some latest ->
  In latest items /\ forall f, In f items -> (ctime f <= ctime latest)%Z.
Proof.
  destruct items as [| item rest]; simpl; [discriminate |].
  intro E; injection E as <-; split.
  - apply newest_loop_In.
  - apply newest_loop_max.
Qed.

Lemma newest_nonempty (ctime : string -> Z) (items : list string) :
  items <> [] -> exists latest, newest ctime items = Some latest.
Proof.
  destruct items as [| item rest]; [congruence | intros _; simpl; eauto].
Qed.

(** The loop of [max] computes [newest_loop] when every creation time can
    be read; it stats each file once and changes nothing. *)
Lemma max_loop_newest (dir : string) (ctime : string -> Z) (items : list string) :
  forall maxitem w,
    (forall f, In f items ->
       fs_getctime (fs w) (os.path.join dir f) = Return (ctime f)) ->
    exists w',
      max_loop (fun x => os.path.getctime (os.path.join dir x)) items
        maxitem (ctime maxitem) w
      = (Return (newest_loop ctime items maxitem), w')
      /\ fs w' = fs w.
Proof.
  induction items as [| item rest IH]; intros maxitem w Hstat; simpl.
  - exists w; split; reflexivity.
  - unfold bind at 1, os.path.getctime at 1.
    rewrite (Hstat item (or_introl eq_refl)).
    set (w1 := log (Getctime (os.path.join dir item)) w).
    assert (Hrest : forall f, In f rest ->
              fs_getctime (fs w1) (os.path.join dir f) = Return (ctime f))
      by (intros f Hf; apply Hstat; right; exact Hf).
    destruct (ctime maxitem <? ctime item)%Z.
    + destruct (IH item w1 Hrest) as [w' [E F]]; exists w'; split; [exact E | exact F].
    + destruct (IH maxitem w1 Hrest) as [w' [E F]]; exists w'; split; [exact E | exact F].
Qed.

Lemma max_newest (dir : string) (ctime : string -> Z) (items : list string)
  (latest : string) (w : world) :
  (forall f, In f items ->
     fs_getctime (fs w) (os.path.join dir f) = Return (ctime f)) ->
  newest ctime items = Some latest ->
  exists w',
    max_ items (fun x => os.path.getctime (os.path.join dir x)) w = (Return latest, w')
    /\ fs w' = fs w.
Proof.
  destruct items as [| item rest]; simpl; [discriminate |].
  intros Hstat E; injection E as <-.
  unfold bind, os.path.getctime at 1.
  rewrite (Hstat item (or_introl eq_refl)).
  set (w1 := log (Getctime (os.path.join dir item)) w).
  destruct (max_loop_newest dir ctime rest item w1) as [w' [E F]].
  - intros f Hf; apply Hstat; right; exact Hf.
  - exists w'; split; [exact E | exact F].
Qed.

(** ** The search of the output directory *)

Section Locate.

Context {A : Type}.
Variable agent_path : string.
Variable load : string -> M A.

Lemma locate_with_unlistable (w : world) (e : exn) :
  fs_listdir (fs w) (output_directory agent_path) = Raise e ->
  locate_with agent_path load w
  = (Raise e, log (Listdir (output_directory agent_path)) w).
Proof.
  intro H; unfold locate_with, bind, os.listdir.
  fold (output_directory agent_path); rewrite H; reflexivity.
Qed.

Lemma locate_with_no_match (w : world) (names : list string) :
  fs_listdir (fs w) (output_directory agent_path) = Return names ->
  matching names = [] ->
  locate_with agent_path load w
  = (Return None, log (Listdir (output_directory agent_path)) w).
Proof.
  intros H Hnone; unfold locate_with, bind, os.listdir.
  fold (output_directory agent_path); rewrite H.
  fold suffix; fold (matching names); rewrite Hnone; reflexivity.
Qed.

Lemma locate_with_newest (w : world) (names : list string) (ctime : string -> Z)
  (latest : string) :
  fs_listdir (fs w) (output_directory agent_path) = Return names ->
  (forall f, In f (matching names) ->
     fs_getctime (fs w) (os.path.join (output_directory agent_path) f)
     = Return (ctime f)) ->
  newest ctime (matching names) = Some latest ->
  exists w',
    fs w' = fs w
    /\ locate_with agent_path load w
       = (some_outcome (fst (load (os.path.join (output_directory agent_path) latest) w')),
          snd (load (os.path.join (output_directory agent_path) latest) w')).
Proof.
  intros H Hstat Hnew; unfold locate_with, os.listdir.
  fold (output_directory agent_path); fold suffix.
  unfold bind at 1; rewrite H; fold (matching names).
  set (w1 := log (Listdir (output_directory agent_path)) w).
  destruct (max_newest (output_directory agent_path) ctime (matching names) latest w1
              Hstat Hnew) as [w' [E F]].
  assert (Hsome : truthy (VList (map VStr (matching names))) = true).
  { destruct (matching names); [discriminate Hnew | reflexivity]. }
  rewrite Hsome; unfold bind at 1; rewrite E.
  exists w'; split; [exact F |].
  unfold bind.
  destruct (load (os.path.join (output_directory agent_path) latest) w') as [[a | e] w''];
    reflexivity.
Qed.

End Locate.

(** ** The [try] statement *)

Section Attempt.

Context {A : Type}.
Variable spawn : program.
Variable agent_path : string.
Variable cmd : list value.
Variable locate : M (option A).
Variable failing : string -> A.

Lemma attempt_returns (w : world) :
  exists a w', attempt spawn agent_path cmd locate failing w = (Return a, w').
Proof.
  unfold attempt, try_except.
  match goal with |- context [match ?b w with _ => _ end] => destruct (b w) as [[a | e] w'] end.
  - exists a, w'; reflexivity.
  - eexists _, w'; reflexivity.
Qed.

Lemma attempt_bad_argument (w : world) (e : exn) :
  subprocess.fsencode_args cmd = Raise e ->
  attempt spawn agent_path cmd locate failing w = (Return (failing (str_of_exn e)), w).
Proof.
  intro H; unfold attempt, try_except, bind, subprocess.run; rewrite H; reflexivity.
Qed.

Lemma attempt_not_launched (w : world) (argv : list string) (e : exn) (fs1 : filesystem) :
  subprocess.fsencode_args cmd = Return argv ->
  spawn argv agent_path (fs w) = (Raise e, fs1) ->
  attempt spawn agent_path cmd locate failing w
  = (Return (failing (str_of_exn e)), after_spawn w argv agent_path fs1).
Proof.
  intros H Hs; unfold attempt, try_except, bind, subprocess.run; rewrite H, Hs; reflexivity.
Qed.

Lemma attempt_nonzero (w : world) (argv : list string) (result : CompletedProcess)
  (fs1 : filesystem) :
  subprocess.fsencode_args cmd = Return argv ->
  spawn argv agent_path (fs w) = (Return result, fs1) ->
  returncode result <> 0%Z ->
  attempt spawn agent_path cmd locate failing w
  = (Return (failing (failure_message result)), after_spawn w argv agent_path fs1).
Proof.
  intros H Hs Hrc; unfold attempt, try_except, bind, subprocess.run; rewrite H, Hs.
  destruct (Z.eqb_spec (returncode result) 0); [contradiction | reflexivity].
Qed.

Lemma attempt_zero (w : world) (argv : list string) (result : CompletedProcess)
  (fs1 : filesystem) :
  subprocess.fsencode_args cmd = Return argv ->
  spawn argv agent_path (fs w) = (Return result, fs1) ->
  returncode result = 0%Z ->
  attempt spawn agent_path cmd locate failing w
  = conclude failing result (locate (after_spawn w argv agent_path fs1)).
Proof.
  intros H Hs Hrc; unfold attempt, try_except, bind, subprocess.run; rewrite H, Hs, Hrc.
  simpl; fold (after_spawn w argv agent_path fs1).
  destruct (locate (after_spawn w argv agent_path fs1)) as [[[a |] | e] w']; reflexivity.
Qed.

End Attempt.

(** ** The two agents follow the shared control flow *)

Section Agents.

Variable spawn : program.
Variable agent_path : string.

Lemma capability_command (video_path : string) (enhance : bool) :
  subprocess.fsencode_args
    (VideoTranscriptionCapability.command agent_path video_path enhance)
  = Return (capability_argv agent_path video_path enhance).
Proof. destruct enhance; reflexivity. Qed.

Lemma capability_attempt (video_path : string) (enhance : bool) (w : world) :
  VideoTranscriptionCapability.transcribe_video spawn agent_path video_path enhance w
  = attempt spawn agent_path
      (VideoTranscriptionCapability.command agent_path video_path enhance)
      (locate_with agent_path VideoTranscriptionCapability.load_and_normalize)
      failure_record w.
Proof.
  unfold VideoTranscriptionCapability.transcribe_video,
    VideoTranscriptionCapability.transcribe_video_try, attempt, try_except, bind.
  destruct (subprocess.run spawn _ agent_path w) as [[result | e] w1]; [| reflexivity].
  change (VideoTranscriptionCapability.locate_and_normalize agent_path)
    with (locate_with agent_path VideoTranscriptionCapability.load_and_normalize).
  destruct (if (returncode result =? 0)%Z then _ else _) as [[[r |] | e] w2];
    try reflexivity.
  unfold ret; rewrite or_stderr; reflexivity.
Qed.

Lemma tool_transcribe_attempt (video_path enhance output_format : value) (w : world) :
  try_except (VideoTranscriptionTool.transcribe spawn agent_path
                video_path enhance output_format)
    (fun e => ret (failure_text (str_of_exn e))) w
  = attempt spawn agent_path
      (VideoTranscriptionTool.command agent_path video_path enhance output_format)
      (locate_with agent_path VideoTranscriptionTool.load_and_normalize)
      failure_text w.
Proof.
  unfold VideoTranscriptionTool.transcribe, attempt, try_except, bind.
  destruct (subprocess.run spawn _ agent_path w) as [[result | e] w1]; [| reflexivity].
  change (VideoTranscriptionTool.locate_and_normalize agent_path)
    with (locate_with agent_path VideoTranscriptionTool.load_and_normalize).
  destruct (if (returncode result =? 0)%Z then _ else _) as [[[r |] | e] w2];
    try reflexivity.
  unfold ret, failure_text, failure_record; rewrite or_stderr; reflexivity.
Qed.

Lemma tool_request (input_data : string) (video_path enhance output_format : value)
  (w : world) :
  request input_data video_path enhance output_format ->
  VideoTranscriptionTool._run_try spawn agent_path input_data w
  = VideoTranscriptionTool.transcribe spawn agent_path video_path enhance output_format w.
Proof.
  intros [d [Hloads [Hv [He [Hf Ht]]]]].
  unfold VideoTranscriptionTool._run_try, bind, lift.
  rewrite Hloads, !get_dict, <- Hv, <- He, <- Hf, Ht; reflexivity.
Qed.

Lemma tool_attempt (input_data : string) (video_path enhance output_format : value)
  (w : world) :
  request input_data video_path enhance output_format ->
  VideoTranscriptionTool._run spawn agent_path input_data w
  = attempt spawn agent_path
      (VideoTranscriptionTool.command agent_path video_path enhance output_format)
      (locate_with agent_path VideoTranscriptionTool.load_and_normalize)
      failure_text w.
Proof.
  intro Hreq; rewrite <- tool_transcribe_attempt.
  unfold VideoTranscriptionTool._run, try_except.
  rewrite (tool_request _ _ _ _ w Hreq); reflexivity.
Qed.

End Agents.

(** ** Building the record *)

Lemma pure_ret {A : Type} (a : A) : pure (ret a).
Proof. exists (Return a); reflexivity. Qed.

Lemma pure_raise {A : Type} (e : exn) : pure (@raise A e).
Proof. exists (Raise e); reflexivity. Qed.

Lemma pure_bind {A B : Type} (c : M A) (k : A -> M B) :
  pure c -> (forall a, pure (k a)) -> pure (bind c k).
Proof.
  intros [o Ho] Hk; destruct o as [a | e].
  - destruct (Hk a) as [o' Ho']; exists o'; intro w; unfold bind; rewrite Ho; apply Ho'.
  - exists (Raise e); intro w; unfold bind; rewrite Ho; reflexivity.
Qed.

Lemma pure_get (v : value) (key : string) (default : value) : pure (get v key default).
Proof.
  destruct v; simpl; try apply pure_raise.
  destruct (dict_lookup d key); apply pure_ret.
Qed.

Lemma pure_getitem (v : value) (key : string) : pure (getitem v key).
Proof.
  destruct v; simpl; try apply pure_raise.
  destruct (dict_lookup d key); [apply pure_ret | apply pure_raise].
Qed.

Lemma pure_or_else (a : value) (b : M value) : pure b -> pure (or_else a b).
Proof. intro Hb; unfold or_else; destruct (truthy a); [apply pure_ret | exact Hb]. Qed.

Ltac pure_step :=
  first [ apply pure_bind; [| intro]
        | apply pure_or_else
        | apply pure_get
        | apply pure_getitem
        | apply pure_ret ].

Lemma pure_capability_normalize (data : value) :
  pure (VideoTranscriptionCapability.normalize data).
Proof. unfold VideoTranscriptionCapability.normalize; repeat pure_step. Qed.

Lemma pure_tool_normalize (data : value) :
  pure (VideoTranscriptionTool.normalize data).
Proof. unfold VideoTranscriptionTool.normalize; repeat pure_step. Qed.

Lemma pure_run {A : Type} (c : M A) (w w0 : world) :
  pure c -> c w = (fst (c w0), w).
Proof. intros [o Ho]; rewrite (Ho w), (Ho w0); reflexivity. Qed.

(** The record of the first agent: it is built from a dictionary whose
    enhancement section is a dictionary; all its fields but the
    transcription are read from that section. *)
Lemma capability_normalize_shape (data r : value) (w w' : world) :
  VideoTranscriptionCapability.normalize data w = (Return r, w') ->
  exists d e transcription,
    data = VDict d
    /\ section_of d "enhancement" e
    /\ r = capability_record e transcription.
Proof.
  unfold VideoTranscriptionCapability.normalize, section_of.
  destruct data as [| | | | | | d]; try (unfold bind; simpl; discriminate).
  unfold bind at 1; rewrite get_dict.
  destruct (lookup_default d "enhancement" (VDict [])) as [| | | | | | e] eqn:He;
    try (unfold bind; simpl; discriminate).
  unfold bind at 1; rewrite get_dict.
  unfold bind at 1.
  destruct (or_else _ _ w) as [[transcription | ex] w1] eqn:Ht; [| discriminate].
  unfold bind; repeat first [rewrite get_dict | rewrite He].
  unfold ret; intro E; injection E as <- _.
  exists d, e, transcription; auto.
Qed.

(** When the enhanced text is true, it is the transcription. *)
Lemma capability_normalize_enhanced (d e : list (string * value)) (w : world) :
  section_of d "enhancement" e ->
  truthy (lookup_default e "enhancedText" VNone) = true ->
  VideoTranscriptionCapability.normalize (VDict d) w
  = (Return (capability_record e (lookup_default e "enhancedText" VNone)), w).
Proof.
  unfold section_of; intros He Ht.
  unfold VideoTranscriptionCapability.normalize, bind, or_else.
  repeat first [rewrite get_dict | rewrite He | rewrite Ht
               | progress unfold ret | progress cbv beta iota].
  reflexivity.
Qed.

(** The record of the second agent, before it is printed: the artifact
    is a dictionary, and so are the four sections read from it. *)
Lemma tool_normalize_sections (d e t m o : list (string * value)) (w : world) :
  section_of d "enhancement" e ->
  section_of d "transcription" t ->
  section_of d "metadata" m ->
  section_of m "processingOptions" o ->
  VideoTranscriptionTool.normalize (VDict d) w = (Return (tool_record e t o), w).
Proof.
  unfold section_of; intros He Ht Hm Ho.
  unfold VideoTranscriptionTool.normalize, bind, or_else, tool_record, or_.
  repeat first [rewrite get_dict | rewrite He | rewrite Ht | rewrite Hm | rewrite Ho
               | progress cbv beta iota].
  destruct (truthy (lookup_default e "enhancedText" VNone));
    repeat first [rewrite get_dict | rewrite He | rewrite Ht | rewrite Hm | rewrite Ho
                 | progress unfold ret | progress cbv beta iota];
    reflexivity.
Qed.

Lemma bind_inv {A B : Type} (c : M A) (k : A -> M B) (w w' : world) (b : B) :
  bind c k w = (Return b, w') ->
  exists a w1, c w = (Return a, w1) /\ k a w1 = (Return b, w').
Proof.
  unfold bind; destruct (c w) as [[a | e] w1]; [| discriminate].
  intro H; exists a, w1; split; [reflexivity | exact H].
Qed.

Lemma get_inv (v : value) (key : string) (default a : value) (w w1 : world) :
  get v key default w = (Return a, w1) ->
  exists d, v = VDict d /\ a = lookup_default d key default /\ w1 = w.
Proof.
  destruct v as [| | | | | | d]; try discriminate.
  rewrite get_dict; intro H; injection H as <- <-; exists d; auto.
Qed.

Lemma tool_normalize_shape (data r : value) (w w' : world) :
  VideoTranscriptionTool.normalize data w = (Return r, w') ->
  exists d e t m o,
    data = VDict d
    /\ section_of d "enhancement" e
    /\ section_of d "transcription" t
    /\ section_of d "metadata" m
    /\ section_of m "processingOptions" o
    /\ r = tool_record e t o.
Proof.
  intro H; pose proof H as Hrun; unfold VideoTranscriptionTool.normalize in H.
  apply bind_inv in H as (enhancement & w1 & H1 & H).
  apply get_inv in H1 as (d & -> & He & ->).
  apply bind_inv in H as (transcription & w2 & H2 & H).
  rewrite get_dict in H2; injection H2 as <- <-.
  apply bind_inv in H as (enhancedText & w3 & H3 & H).
  apply get_inv in H3 as (e & -> & _ & ->).
  apply bind_inv in H as (text & w4 & _ & H).
  apply bind_inv in H as (summary & w5 & _ & H).
  apply bind_inv in H as (key_points & w6 & _ & H).
  apply bind_inv in H as (topics & w7 & _ & H).
  apply bind_inv in H as (sentiment & w8 & _ & H).
  apply bind_inv in H as (confidence & w9 & H9 & H).
  apply get_inv in H9 as (t & Ht & _ & ->).
  apply bind_inv in H as (metadata & w10 & H10 & H).
  rewrite get_dict in H10; injection H10 as <- <-.
  apply bind_inv in H as (processingOptions & w11 & H11 & H).
  apply get_inv in H11 as (m & Hm & -> & ->).
  apply bind_inv in H as (output_files & w12 & H12 & _).
  apply get_inv in H12 as (o & Ho & _ & _).
  symmetry in He.
  rewrite (tool_normalize_sections d e t m o w He Ht Hm Ho) in Hrun.
  injection Hrun as <- _.
  exists d, e, t, m, o; repeat split; auto.
Qed.

(** ** Loading the selected file *)

Section Load.

Variable filename : string.
Variable w : world.

Lemma capability_load_unreadable (e : exn) :
  fs_read (fs w) filename = Raise e ->
  VideoTranscriptionCapability.load_and_normalize filename w
  = (Raise e, log (Open filename) w).
Proof.
  intro H; unfold VideoTranscriptionCapability.load_and_normalize, bind, open_.
  rewrite H; reflexivity.
Qed.

Lemma capability_load_unparsable (text : string) (e : exn) :
  fs_read (fs w) filename = Return text ->
  json.loads text = Raise e ->
  VideoTranscriptionCapability.load_and_normalize filename w
  = (Raise e, log (Open filename) w).
Proof.
  intros H Hp; unfold VideoTranscriptionCapability.load_and_normalize, bind, open_, lift,
    json.load.
  rewrite H; simpl; rewrite Hp; reflexivity.
Qed.

Lemma capability_load_parsed (text : string) (data : value) (w0 : world) :
  fs_read (fs w) filename = Return text ->
  json.loads text = Return data ->
  VideoTranscriptionCapability.load_and_normalize filename w
  = (fst (VideoTranscriptionCapability.normalize data w0), log (Open filename) w).
Proof.
  intros H Hp; unfold VideoTranscriptionCapability.load_and_normalize, bind, open_, lift,
    json.load.
  rewrite H; simpl; rewrite Hp.
  apply pure_run, pure_capability_normalize.
Qed.

Lemma tool_load_unreadable (e : exn) :
  fs_read (fs w) filename = Raise e ->
  VideoTranscriptionTool.load_and_normalize filename w
  = (Raise e, log (Open filename) w).
Proof.
  intro H; unfold VideoTranscriptionTool.load_and_normalize, bind, open_.
  rewrite H; reflexivity.
Qed.

Lemma tool_load_unparsable (text : string) (e : exn) :
  fs_read (fs w) filename = Return text ->
  json.loads text = Raise e ->
  VideoTranscriptionTool.load_and_normalize filename w
  = (Raise e, log (Open filename) w).
Proof.
  intros H Hp; unfold VideoTranscriptionTool.load_and_normalize, bind, open_, lift,
    json.load.
  rewrite H; simpl; rewrite Hp; reflexivity.
Qed.

Lemma tool_load_parsed (text : string) (data : value) (w0 : world) :
  fs_read (fs w) filename = Return text ->
  json.loads text = Return data ->
  VideoTranscriptionTool.load_and_normalize filename w
  = (match fst (VideoTranscriptionTool.normalize data w0) with
     | Return record => Return (json.dumps record (Some 2%nat))
     | Raise e => Raise e
     end, log (Open filename) w).
Proof.
  intros H Hp; unfold VideoTranscriptionTool.load_and_normalize, bind, open_, lift,
    json.load.
  rewrite H; simpl; rewrite Hp.
  rewrite (pure_run _ (log (Open filename) w) w0 (pure_tool_normalize data)).
  destruct (fst (VideoTranscriptionTool.normalize data w0)); reflexivity.
Qed.

Lemma capability_load_cases (r : value) (w' : world) :
  VideoTranscriptionCapability.load_and_normalize filename w = (Return r, w') ->
  exists data w1, VideoTranscriptionCapability.normalize data w1 = (Return r, w').
Proof.
  unfold VideoTranscriptionCapability.load_and_normalize, bind.
  destruct (open_ filename w) as [[f | e] w1]; [| discriminate].
  unfold lift; destruct (json.load f) as [data | e]; [| discriminate].
  intro H; exists data, w1; exact H.
Qed.

Lemma tool_load_cases (text : string) (w' : world) :
  VideoTranscriptionTool.load_and_normalize filename w = (Return text, w') ->
  exists data r w1,
    VideoTranscriptionTool.normalize data w1 = (Return r, w')
    /\ text = json.dumps r (Some 2%nat).
Proof.
  unfold VideoTranscriptionTool.load_and_normalize, bind.
  destruct (open_ filename w) as [[f | e] w1]; [| discriminate].
  unfold lift; destruct (json.load f) as [data | e]; [| discriminate].
  destruct (VideoTranscriptionTool.normalize data w1) as [[r | e] w2] eqn:Hn;
    [| discriminate].
  unfold ret; intro H; injection H as <- <-.
  exists data, r, w1; split; [exact Hn | reflexivity].
Qed.

End Load.

(** ** Every path through the [try] statement *)

Lemma conclude_some_outcome {A : Type} (failing : string -> A) (result : CompletedProcess)
  (o : outcome A) (w : world) :
  fst (conclude failing result (some_outcome o, w)) = Return (answer failing o).
Proof. destruct o; reflexivity. Qed.

Lemma locate_with_cases {A : Type} (agent_path : string) (load : string -> M A)
  (w w' : world) (a : A) :
  locate_with agent_path load w = (Return (Some a), w') ->
  exists filename w1, load filename w1 = (Return a, w').
Proof.
  unfold locate_with, bind.
  destruct (os.listdir _ w) as [[names | e] w1]; [| discriminate].
  destruct (truthy _); [| discriminate].
  destruct (max_ _ _ w1) as [[latest | e] w2]; [| discriminate].
  destruct (load _ w2) as [[r | e] w3] eqn:Hl; [| discriminate].
  unfold ret; intro H; injection H as <- <-.
  eexists _, w2; exact Hl.
Qed.

Lemma attempt_cases {A : Type} (spawn : program) (agent_path : string) (cmd : list value)
  (locate : M (option A)) (failing : string -> A) (w : world) :
  exists a w',
    attempt spawn agent_path cmd locate failing w = (Return a, w')
    /\ ((exists msg, a = failing msg)
        \/ (exists w1, locate w1 = (Return (Some a), w'))).
Proof.
  unfold attempt, try_except, bind.
  destruct (subprocess.run spawn cmd agent_path w) as [[result | e] w1].
  - destruct (returncode result =? 0)%Z.
    + destruct (locate w1) as [[[a |] | e] w2] eqn:Hl.
      * exists a, w2; split; [reflexivity | right; exists w1; exact Hl].
      * eexists _, w2; split; [reflexivity | left; eexists; reflexivity].
      * eexists _, w2; split; [reflexivity | left; eexists; reflexivity].
    + eexists _, w1; split; [reflexivity | left; eexists; reflexivity].
  - eexists _, w1; split; [reflexivity | left; eexists; reflexivity].
Qed.

(** When the process has exited with status 0 and the search selects
    [latest], the result is what loading [latest] gives. *)
Lemma attempt_selected {A : Type} (spawn : program) (agent_path : string)
  (cmd : list value) (load : string -> M A) (failing : string -> A)
  (w : world) (argv : list string) (result : CompletedProcess) (fs1 : filesystem)
  (latest : string) :
  (forall filename, reads (load filename)) ->
  subprocess.fsencode_args cmd = Return argv ->
  spawn argv agent_path (fs w) = (Return result, fs1) ->
  returncode result = 0%Z ->
  selected agent_path fs1 latest ->
  fst (attempt spawn agent_path cmd (locate_with agent_path load) failing w)
  = Return (answer failing
              (loaded load fs1 (os.path.join (output_directory agent_path) latest))).
Proof.
  intros Hreads Hargs Hspawn Hrc [names [ctime [Hls [Hstat Hnew]]]].
  rewrite (attempt_zero spawn agent_path cmd _ failing w argv result fs1 Hargs Hspawn Hrc).
  destruct (locate_with_newest agent_path load (after_spawn w argv agent_path fs1)
              names ctime latest Hls Hstat Hnew) as [w' [Hfs ->]].
  rewrite conclude_some_outcome; unfold loaded.
  destruct (Hreads (os.path.join (output_directory agent_path) latest) w'
              {| fs := fs1; trace := [] |} Hfs) as [-> _].
  reflexivity.
Qed.

(** The three ways [_run] treats its input. *)
Lemma tool_input_cases (spawn : program) (agent_path input_data : string) (w : world) :
  (exists e,
      VideoTranscriptionTool._run spawn agent_path input_data w
      = (Return (failure_text (str_of_exn e)), w))
  \/ (exists d,
         json.loads input_data = Return (VDict d)
         /\ truthy (lookup_default d "video_path" VNone) = false
         /\ VideoTranscriptionTool._run spawn agent_path input_data w
            = (Return (json.dumps validation_record None), w))
  \/ (exists video_path enhance output_format,
         request input_data video_path enhance output_format).
Proof.
  destruct (json.loads input_data) as [data | e] eqn:Hl.
  - destruct data as [| | | | | | d];
      try (left; eexists;
           unfold VideoTranscriptionTool._run, VideoTranscriptionTool._run_try,
             try_except, bind, lift; rewrite Hl; reflexivity).
    destruct (truthy (lookup_default d "video_path" VNone)) eqn:Ht.
    + right; right; do 3 eexists; exists d; repeat split; [exact Hl | exact Ht].
    + right; left; exists d; repeat split; [exact Ht |].
      unfold VideoTranscriptionTool._run, VideoTranscriptionTool._run_try,
        try_except, bind, lift.
      rewrite Hl, !get_dict, Ht; reflexivity.
  - left; exists e.
    unfold VideoTranscriptionTool._run, VideoTranscriptionTool._run_try,
      try_except, bind, lift; rewrite Hl; reflexivity.
Qed.

Lemma validation_reply_text : json.dumps validation_record None = validation_reply.
Proof. reflexivity. Qed.

Lemma validation_reply_decodes : json.loads validation_reply = Return validation_record.
Proof. vm_compute; reflexivity. Qed.

(** ** The result invariant (C1) *)

(** Every result of the first agent has exactly one of the two shapes. *)
Lemma capability_result_invariant (spawn : program) (agent_path video_path : string)
  (enhance : bool) (w : world) :
  exists r w',
    VideoTranscriptionCapability.transcribe_video spawn agent_path video_path enhance w
    = (Return r, w')
    /\ result_invariant r = true.
Proof.
  rewrite capability_attempt.
  destruct (attempt_cases spawn agent_path
              (VideoTranscriptionCapability.command agent_path video_path enhance)
              (locate_with agent_path VideoTranscriptionCapability.load_and_normalize)
              failure_record w) as [r [w' [E Hcases]]].
  exists r, w'; split; [exact E |].
  destruct Hcases as [[msg ->] | [w1 Hl]].
  - reflexivity.
  - destruct (locate_with_cases _ _ _ _ _ Hl) as [filename [w2 Hload]].
    destruct (capability_load_cases _ _ _ _ Hload) as [data [w3 Hn]].
    destruct (capability_normalize_shape _ _ _ _ Hn) as [d [e [t [_ [_ ->]]]]].
    reflexivity.
Qed.

(** So has every result of the second agent, except the reply to an input
    that names no video. *)
Lemma tool_result_invariant (spawn : program) (agent_path input_data : string) (w : world) :
  exists text w',
    VideoTranscriptionTool._run spawn agent_path input_data w = (Return text, w')
    /\ (text = validation_reply
        \/ exists r indent, text = json.dumps r indent /\ result_invariant r = true).
Proof.
  destruct (tool_input_cases spawn agent_path input_data w)
    as [[e E] | [[d [_ [_ E]]] | [vp [en [fmt Hreq]]]]].
  - eexists _, w; split; [exact E | right].
    exists (failure_record (str_of_exn e)), None; split; reflexivity.
  - eexists _, w; split; [exact E | left; reflexivity].
  - rewrite (tool_attempt spawn agent_path input_data vp en fmt w Hreq).
    destruct (attempt_cases spawn agent_path
                (VideoTranscriptionTool.command agent_path vp en fmt)
                (locate_with agent_path VideoTranscriptionTool.load_and_normalize)
                failure_text w) as [text [w' [E Hcases]]].
    exists text, w'; split; [exact E | right].
    destruct Hcases as [[msg ->] | [w1 Hl]].
    + exists (failure_record msg), None; split; reflexivity.
    + destruct (locate_with_cases _ _ _ _ _ Hl) as [filename [w2 Hload]].
      destruct (tool_load_cases _ _ _ _ Hload) as [data [r [w3 [Hn ->]]]].
      destruct (tool_normalize_shape _ _ _ _ Hn)
        as [d [e [t [m [o [_ [_ [_ [_ [_ ->]]]]]]]]]].
      eexists _, (Some 2%nat); split; reflexivity.
Qed.

(** C1. Every result returned to the caller has success true with the
    transcription present, or success false with an error message present,
    and never both or neither.  The second agent breaks this on the input
    [{}]: the reply it returns decodes to a record with an error message and
    no success flag, which has neither shape. *)
Theorem run_without_video_path_breaks_invariant :
  forall (spawn : program) (agent_path : string) (w : world),
    VideoTranscriptionTool._run spawn agent_path "{}" w = (Return validation_reply, w)
    /\ json.loads validation_reply = Return validation_record
    /\ field validation_record "success" = None
    /\ is_success validation_record = false
    /\ is_failure validation_record = false
    /\ result_invariant validation_record = false.
Proof.
  intros spawn agent_path w; split; [reflexivity |].
  split; [exact validation_reply_decodes |].
  repeat split.
Qed.

(** ** Input without a video (C10) *)

(** C10, as stated, fails for an input that parses as JSON but is not an
    object: the array [[]] has no [video_path] key, and [_run] answers it
    with a failure record that carries the success flag. *)
Lemma run_on_json_array :
  json.loads "[]" = Return (VList [])
  /\ field (VList []) "video_path" = None
  /\ fst (VideoTranscriptionTool._run (exits 0 "" (mount Example.disk_AB))
            Example.agent "[]" (boot []))
     = Return (failure_text "'list' object has no attribute 'get'")
  /\ failure_text "'list' object has no attribute 'get'" <> validation_reply
  /\ field (failure_record "'list' object has no attribute 'get'") "success"
     = Some (VBool false).
Proof.
  repeat split; try reflexivity.
  vm_compute; discriminate.
Qed.

(** C10 (amended). For every input that parses as a JSON object without a
    [video_path] key, or with a false value for it, [_run] returns the text
    [{"error": "video_path is required"}] and does nothing else; the record
    has the error field only. *)
Theorem run_requires_video_path :
  forall (spawn : program) (agent_path input_data : string)
         (d : list (string * value)) (w : world),
    json.loads input_data = Return (VDict d) ->
    truthy (lookup_default d "video_path" VNone) = false ->
    VideoTranscriptionTool._run spawn agent_path input_data w
    = (Return validation_reply, w)
    /\ json.loads validation_reply = Return validation_record
    /\ field_names validation_record = ["error"].
Proof.
  intros spawn agent_path input_data d w Hloads Hfalsy.
  split; [| split; [exact validation_reply_decodes | reflexivity]].
  unfold VideoTranscriptionTool._run, VideoTranscriptionTool._run_try,
    try_except, bind, lift.
  rewrite Hloads, !get_dict, Hfalsy; reflexivity.
Qed.

Lemma run_requires_video_path_witness :
  VideoTranscriptionTool._run (exits 0 "" (mount Example.disk_AB)) Example.agent
    "{}" (boot [])
  = (Return validation_reply, boot [])
  /\ json.loads validation_reply = Return validation_record
  /\ field_names validation_record = ["error"].
Proof.
  exact (run_requires_video_path (exits 0 "" (mount Example.disk_AB)) Example.agent
           "{}" [] (boot []) eq_refl eq_refl).
Defined.

(** ** A process that fails (C8) *)

(** C8, as stated, fails when the process writes nothing to its standard
    error: the error message is then the fixed text, not the empty
    diagnostic stream. *)
Lemma silent_process_failure :
  fst (VideoTranscriptionCapability.transcribe_video
         (exits 1 "" (mount Example.disk_AB)) Example.agent "./meeting.mp4" true (boot []))
  = Return (failure_record "Transcription failed")
  /\ fst (VideoTranscriptionTool._run
            (exits 1 "" (mount Example.disk_AB)) Example.agent Example.request_text
            (boot []))
     = Return (failure_text "Transcription failed")
  /\ failure_record "Transcription failed" <> failure_record ""
  /\ failure_text "Transcription failed" <> failure_text "".
Proof.
  repeat split; try reflexivity; vm_compute; discriminate.
Qed.

(** C8 (amended). When the process exits with a non-zero status, the
    agent returns at once the record with success false whose error message
    is the standard-error text of the process, or [Transcription failed] when
    that text is empty.  The only call it has made is the launch of the
    process: the directory is not listed, no file is examined or opened. *)
Theorem nonzero_exit_short_circuits :
  (forall (spawn : program) (agent_path video_path : string) (enhance : bool)
          (w : world) (result : CompletedProcess) (fs1 : filesystem),
      capability_completes spawn agent_path video_path enhance w result fs1 ->
      returncode result <> 0%Z ->
      VideoTranscriptionCapability.transcribe_video spawn agent_path video_path enhance w
      = (Return (failure_record (failure_message result)),
         {| fs := fs1;
            trace := trace w
                     ++ [Spawn (capability_argv agent_path video_path enhance)
                           agent_path] |}))
  /\ (forall (spawn : program) (agent_path input_data : string) (w : world)
             (argv : list string) (result : CompletedProcess) (fs1 : filesystem),
         tool_completes spawn agent_path input_data w argv result fs1 ->
         returncode result <> 0%Z ->
         VideoTranscriptionTool._run spawn agent_path input_data w
         = (Return (failure_text (failure_message result)),
            {| fs := fs1; trace := trace w ++ [Spawn argv agent_path] |})).
Proof.
  split.
  - intros spawn agent_path video_path enhance w result fs1 Hrun Hrc.
    rewrite capability_attempt.
    apply (attempt_nonzero spawn agent_path _ _ failure_record w _ result fs1
             (capability_command agent_path video_path enhance) Hrun Hrc).
  - intros spawn agent_path input_data w argv result fs1
      [vp [en [fmt [Hreq [Hargs Hrun]]]]] Hrc.
    rewrite (tool_attempt spawn agent_path input_data vp en fmt w Hreq).
    apply (attempt_nonzero spawn agent_path _ _ failure_text w argv result fs1
             Hargs Hrun Hrc).
Qed.

Lemma example_request :
  request Example.request_text (VStr "./meeting.mp4") (VBool true) (VStr "json").
Proof.
  exists [("video_path", VStr "./meeting.mp4")]; repeat split; reflexivity.
Qed.

Lemma example_tool_completes (status : Z) (err : string) (fs1 : filesystem) :
  tool_completes (exits status err fs1) Example.agent Example.request_text (boot [])
    Example.tool_argv (Example.process status err) fs1.
Proof.
  exists (VStr "./meeting.mp4"), (VBool true), (VStr "json").
  split; [exact example_request | split; reflexivity].
Qed.

Lemma nonzero_exit_short_circuits_witness :
  VideoTranscriptionCapability.transcribe_video
    (exits 1 "boom" (mount Example.disk_AB)) Example.agent "./meeting.mp4" true (boot [])
  = (Return (failure_record "boom"),
     {| fs := mount Example.disk_AB;
        trace := [Spawn (capability_argv Example.agent "./meeting.mp4" true)
                    Example.agent] |})
  /\ VideoTranscriptionTool._run
       (exits 1 "boom" (mount Example.disk_AB)) Example.agent Example.request_text
       (boot [])
     = (Return (failure_text "boom"),
        {| fs := mount Example.disk_AB;
           trace := [Spawn Example.tool_argv Example.agent] |}).
Proof.
  destruct nonzero_exit_short_circuits as [Hcapability Htool]; split.
  - apply (Hcapability (exits 1 "boom" (mount Example.disk_AB)) Example.agent
             "./meeting.mp4" true (boot []) (Example.process 1 "boom")
             (mount Example.disk_AB)); [reflexivity | discriminate].
  - apply (Htool (exits 1 "boom" (mount Example.disk_AB)) Example.agent
             Example.request_text (boot []) Example.tool_argv
             (Example.process 1 "boom") (mount Example.disk_AB));
      [apply example_tool_completes | discriminate].
Defined.

(** ** Idempotence (C9) *)

Lemma reads_twice {A : Type} (c : M A) (w : world) :
  reads c ->
  fst (c (snd (c w))) = fst (c w)
  /\ fs (snd (c w)) = fs w
  /\ fs (snd (c (snd (c w)))) = fs w.
Proof.
  intro Hc.
  destruct (Hc w w eq_refl) as [_ Hfs].
  destruct (Hc (snd (c w)) w Hfs) as [Hsame Hfs'].
  repeat split; congruence.
Qed.

(** C9. For a fixed state of the output directory, running the locate
    and normalize step twice in succession gives the same outcome both
    times; the step leaves the file system as it found it. *)
Theorem locate_and_normalize_idempotent :
  forall (agent_path : string) (w : world),
    (let first := VideoTranscriptionCapability.locate_and_normalize agent_path w in
     let second :=
       VideoTranscriptionCapability.locate_and_normalize agent_path (snd first) in
     fst second = fst first /\ fs (snd first) = fs w /\ fs (snd second) = fs w)
    /\ (let first := VideoTranscriptionTool.locate_and_normalize agent_path w in
        let second :=
          VideoTranscriptionTool.locate_and_normalize agent_path (snd first) in
        fst second = fst first /\ fs (snd first) = fs w /\ fs (snd second) = fs w).
Proof.
  intros agent_path w; split; cbv zeta.
  - apply (reads_twice
             (locate_with agent_path VideoTranscriptionCapability.load_and_normalize)).
    apply reads_locate_with, reads_capability_load.
  - apply (reads_twice
             (locate_with agent_path VideoTranscriptionTool.load_and_normalize)).
    apply reads_locate_with, reads_tool_load.
Qed.

(** ** No artifact (C5) *)

(** C5, as stated, fails on the error text: with no matching file the
    message is the standard error of the process or the fixed text, and
    with no directory it is the text of the exception. *)
Lemma no_artifact_error_text :
  fst (VideoTranscriptionCapability.transcribe_video
         (exits 0 "" (mount Example.disk_no_match)) Example.agent "./meeting.mp4" true
         (boot []))
  = Return (failure_record "Transcription failed")
  /\ fst (VideoTranscriptionTool._run
            (exits 0 "" (mount Example.disk_no_match)) Example.agent
            Example.request_text (boot []))
     = Return (failure_text "Transcription failed")
  /\ failure_record "Transcription failed" <> failure_record "NoArtifactFound"
  /\ fst (VideoTranscriptionCapability.transcribe_video
            (exits 0 "" (mount Example.disk_missing)) Example.agent "./meeting.mp4" true
            (boot []))
     = Return (failure_record
                 "[Errno 2] No such file or directory: './video-transcribe/output'")
  /\ failure_record "[Errno 2] No such file or directory: './video-transcribe/output'"
     <> failure_record "NoArtifactFound"
  /\ failure_record "[Errno 2] No such file or directory: './video-transcribe/output'"
     <> failure_record "IOUnavailable".
Proof.
  repeat split; try reflexivity; discriminate.
Qed.

(** C5 (amended). After a process that exited with status 0: when the
    output directory holds no file with the suffix, the agent returns the
    record with success false whose error message is the standard-error
    text of the process, or [Transcription failed] when that is empty; when
    the directory cannot be listed, for instance because it is missing, the
    error message is the text of the exception the listing raised. *)
Theorem no_artifact_reports_failure :
  (forall (spawn : program) (agent_path video_path : string) (enhance : bool)
          (w : world) (result : CompletedProcess) (fs1 : filesystem),
      capability_completes spawn agent_path video_path enhance w result fs1 ->
      returncode result = 0%Z ->
      (forall names,
          fs_listdir fs1 (output_directory agent_path) = Return names ->
          matching names = [] ->
          fst (VideoTranscriptionCapability.transcribe_video
                 spawn agent_path video_path enhance w)
          = Return (failure_record (failure_message result)))
      /\ (forall e,
             fs_listdir fs1 (output_directory agent_path) = Raise e ->
             fst (VideoTranscriptionCapability.transcribe_video
                    spawn agent_path video_path enhance w)
             = Return (failure_record (str_of_exn e))))
  /\ (forall (spawn : program) (agent_path input_data : string) (w : world)
             (argv : list string) (result : CompletedProcess) (fs1 : filesystem),
         tool_completes spawn agent_path input_data w argv result fs1 ->
         returncode result = 0%Z ->
         (forall names,
             fs_listdir fs1 (output_directory agent_path) = Return names ->
             matching names = [] ->
             fst (VideoTranscriptionTool._run spawn agent_path input_data w)
             = Return (failure_text (failure_message result)))
         /\ (forall e,
                fs_listdir fs1 (output_directory agent_path) = Raise e ->
                fst (VideoTranscriptionTool._run spawn agent_path input_data w)
                = Return (failure_text (str_of_exn e)))).
Proof.
  split.
  - intros spawn agent_path video_path enhance w result fs1 Hrun Hrc.
    pose proof (attempt_zero spawn agent_path _
                  (locate_with agent_path VideoTranscriptionCapability.load_and_normalize)
                  failure_record w _ result fs1
                  (capability_command agent_path video_path enhance) Hrun Hrc) as E.
    split.
    + intros names Hls Hnone; rewrite capability_attempt, E.
      rewrite (locate_with_no_match agent_path _ (after_spawn w _ agent_path fs1)
                 names Hls Hnone); reflexivity.
    + intros e Hls; rewrite capability_attempt, E.
      rewrite (locate_with_unlistable agent_path _ (after_spawn w _ agent_path fs1)
                 e Hls); reflexivity.
  - intros spawn agent_path input_data w argv result fs1
      [vp [en [fmt [Hreq [Hargs Hrun]]]]] Hrc.
    pose proof (attempt_zero spawn agent_path _
                  (locate_with agent_path VideoTranscriptionTool.load_and_normalize)
                  failure_text w argv result fs1 Hargs Hrun Hrc) as E.
    split.
    + intros names Hls Hnone.
      rewrite (tool_attempt spawn agent_path input_data vp en fmt w Hreq), E.
      rewrite (locate_with_no_match agent_path _ (after_spawn w _ agent_path fs1)
                 names Hls Hnone); reflexivity.
    + intros e Hls.
      rewrite (tool_attempt spawn agent_path input_data vp en fmt w Hreq), E.
      rewrite (locate_with_unlistable agent_path _ (after_spawn w _ agent_path fs1)
                 e Hls); reflexivity.
Qed.

Lemma no_artifact_reports_failure_witness :
  fst (VideoTranscriptionCapability.transcribe_video
         (exits 0 "warning: no audio" (mount Example.disk_no_match)) Example.agent
         "./meeting.mp4" true (boot []))
  = Return (failure_record "warning: no audio")
  /\ fst (VideoTranscriptionTool._run
            (exits 0 "" (mount Example.disk_missing)) Example.agent
            Example.request_text (boot []))
     = Return (failure_text
                 "[Errno 2] No such file or directory: './video-transcribe/output'").
Proof.
  destruct no_artifact_reports_failure as [Hcapability Htool]; split.
  - destruct (Hcapability (exits 0 "warning: no audio" (mount Example.disk_no_match))
                Example.agent "./meeting.mp4" true (boot [])
                (Example.process 0 "warning: no audio") (mount Example.disk_no_match)
                eq_refl eq_refl) as [Hnone _].
    apply (Hnone ["notes.txt"]); reflexivity.
  - destruct (Htool (exits 0 "" (mount Example.disk_missing)) Example.agent
                Example.request_text (boot []) Example.tool_argv
                (Example.process 0 "") (mount Example.disk_missing)
                (example_tool_completes 0 "" (mount Example.disk_missing)) eq_refl)
      as [_ Hraise].
    apply (Hraise (OSError "FileNotFoundError" "2" "No such file or directory"
                     "./video-transcribe/output")); reflexivity.
Defined.

(** ** A malformed artifact (C6) *)

(** C6, as stated, fails on the error text: it is the message of the
    decoder, not a fixed name. *)
Lemma malformed_artifact_error_text :
  json.loads "not json"
  = Raise (Exception "JSONDecodeError" "Expecting value: line 1 column 1 (char 0)")
  /\ fst (VideoTranscriptionCapability.transcribe_video
            (exits 0 "" (mount Example.disk_malformed)) Example.agent "./meeting.mp4"
            true (boot []))
     = Return (failure_record "Expecting value: line 1 column 1 (char 0)")
  /\ fst (VideoTranscriptionTool._run
            (exits 0 "" (mount Example.disk_malformed)) Example.agent
            Example.request_text (boot []))
     = Return (failure_text "Expecting value: line 1 column 1 (char 0)")
  /\ failure_record "Expecting value: line 1 column 1 (char 0)"
     <> failure_record "MalformedArtifact"
  /\ failure_text "Expecting value: line 1 column 1 (char 0)"
     <> failure_text "MalformedArtifact".
Proof.
  repeat split; try reflexivity; vm_compute; discriminate.
Qed.

(** C6 (amended). After a process that exited with status 0, when the
    selected artifact is not valid JSON the agent returns normally, with
    the record whose success flag is false and whose error message is the
    text of the exception the decoder raised; the exception itself does not
    reach the caller. *)
Theorem malformed_artifact_reports_parse_error :
  (forall (spawn : program) (agent_path video_path : string) (enhance : bool)
          (w : world) (result : CompletedProcess) (fs1 : filesystem)
          (latest text : string) (e : exn),
      capability_completes spawn agent_path video_path enhance w result fs1 ->
      returncode result = 0%Z ->
      selected agent_path fs1 latest ->
      fs_read fs1 (os.path.join (output_directory agent_path) latest) = Return text ->
      json.loads text = Raise e ->
      fst (VideoTranscriptionCapability.transcribe_video
             spawn agent_path video_path enhance w)
      = Return (failure_record (str_of_exn e)))
  /\ (forall (spawn : program) (agent_path input_data : string) (w : world)
             (argv : list string) (result : CompletedProcess) (fs1 : filesystem)
             (latest text : string) (e : exn),
         tool_completes spawn agent_path input_data w argv result fs1 ->
         returncode result = 0%Z ->
         selected agent_path fs1 latest ->
         fs_read fs1 (os.path.join (output_directory agent_path) latest) = Return text ->
         json.loads text = Raise e ->
         fst (VideoTranscriptionTool._run spawn agent_path input_data w)
         = Return (failure_text (str_of_exn e))).
Proof.
  split.
  - intros spawn agent_path video_path enhance w result fs1 latest text e
      Hrun Hrc Hsel Hread Hparse.
    rewrite capability_attempt.
    rewrite (attempt_selected spawn agent_path _ _ failure_record w _ result fs1 latest
               reads_capability_load
               (capability_command agent_path video_path enhance) Hrun Hrc Hsel).
    unfold loaded.
    rewrite (capability_load_unparsable _ {| fs := fs1; trace := [] |} text e Hread Hparse).
    reflexivity.
  - intros spawn agent_path input_data w argv result fs1 latest text e
      [vp [en [fmt [Hreq [Hargs Hrun]]]]] Hrc Hsel Hread Hparse.
    rewrite (tool_attempt spawn agent_path input_data vp en fmt w Hreq).
    rewrite (attempt_selected spawn agent_path _ _ failure_text w argv result fs1 latest
               reads_tool_load Hargs Hrun Hrc Hsel).
    unfold loaded.
    rewrite (tool_load_unparsable _ {| fs := fs1; trace := [] |} text e Hread Hparse).
    reflexivity.
Qed.

Lemma example_selected_malformed :
  selected Example.agent (mount Example.disk_malformed) Example.name_B.
Proof.
  exists [Example.name_B], (fun _ => 2%Z); split; [reflexivity | split].
  - intros f Hf; vm_compute in Hf; destruct Hf as [<- | []]; reflexivity.
  - reflexivity.
Qed.

Lemma malformed_artifact_reports_parse_error_witness :
  fst (VideoTranscriptionCapability.transcribe_video
         (exits 0 "" (mount Example.disk_malformed)) Example.agent "./meeting.mp4"
         true (boot []))
  = Return (failure_record "Expecting value: line 1 column 1 (char 0)")
  /\ fst (VideoTranscriptionTool._run
            (exits 0 "" (mount Example.disk_malformed)) Example.agent
            Example.request_text (boot []))
     = Return (failure_text "Expecting value: line 1 column 1 (char 0)").
Proof.
  destruct malformed_artifact_reports_parse_error as [Hcapability Htool]; split.
  - apply (Hcapability (exits 0 "" (mount Example.disk_malformed)) Example.agent
             "./meeting.mp4" true (boot []) (Example.process 0 "")
             (mount Example.disk_malformed) Example.name_B "not json"
             (Exception "JSONDecodeError" "Expecting value: line 1 column 1 (char 0)")
             eq_refl eq_refl example_selected_malformed eq_refl eq_refl).
  - apply (Htool (exits 0 "" (mount Example.disk_malformed)) Example.agent
             Example.request_text (boot []) Example.tool_argv (Example.process 0 "")
             (mount Example.disk_malformed) Example.name_B "not json"
             (Exception "JSONDecodeError" "Expecting value: line 1 column 1 (char 0)")
             (example_tool_completes 0 "" (mount Example.disk_malformed))
             eq_refl example_selected_malformed eq_refl eq_refl).
Defined.

(** ** Uniform failures (C7) *)

(** Each of the four kinds of failure ends in a failure record. *)
Lemma attempt_reports_failure {A : Type} (spawn : program) (agent_path : string)
  (cmd : list value) (load : string -> M A) (failing : string -> A)
  (w : world) (argv : list string) (result : CompletedProcess) (fs1 : filesystem) :
  (forall filename, reads (load filename)) ->
  (forall filename w0 text e,
      fs_read (fs w0) filename = Return text ->
      json.loads text = Raise e ->
      fst (load filename w0) = Raise e) ->
  subprocess.fsencode_args cmd = Return argv ->
  spawn argv agent_path (fs w) = (Return result, fs1) ->
  failure agent_path result fs1 ->
  exists msg,
    fst (attempt spawn agent_path cmd (locate_with agent_path load) failing w)
    = Return (failing msg).
Proof.
  intros Hreads Hunparsable Hargs Hrun Hfail.
  destruct Hfail as [Hrc | e Hrc Hls | names Hrc Hls Hnone
                    | names ctime latest text e Hrc Hls Hstat Hnew Hread Hparse].
  - rewrite (attempt_nonzero spawn agent_path cmd _ failing w argv result fs1
               Hargs Hrun Hrc).
    eexists; reflexivity.
  - rewrite (attempt_zero spawn agent_path cmd _ failing w argv result fs1
               Hargs Hrun Hrc).
    rewrite (locate_with_unlistable agent_path load (after_spawn w argv agent_path fs1)
               e Hls).
    eexists; reflexivity.
  - rewrite (attempt_zero spawn agent_path cmd _ failing w argv result fs1
               Hargs Hrun Hrc).
    rewrite (locate_with_no_match agent_path load (after_spawn w argv agent_path fs1)
               names Hls Hnone).
    eexists; reflexivity.
  - assert (Hsel : selected agent_path fs1 latest)
      by (exists names, ctime; auto).
    rewrite (attempt_selected spawn agent_path cmd load failing w argv result fs1 latest
               Hreads Hargs Hrun Hrc Hsel).
    unfold loaded.
    rewrite (Hunparsable _ {| fs := fs1; trace := [] |} text e Hread Hparse).
    eexists; reflexivity.
Qed.

Lemma returns_with {A : Type} (c : M A) (w : world) (a : A) :
  fst (c w) = Return a -> exists w', c w = (Return a, w').
Proof.
  intro H; exists (snd (c w)); rewrite <- H; apply surjective_pairing.
Qed.

(** C7. Whatever the input, the agent returns normally: no exception
    reaches the caller.  And for each of the four kinds of failure (the
    process fails, the output directory cannot be read, no artifact
    matches, the artifact cannot be parsed) what it returns is a record of
    the shape [{success: false, error: message}]. *)
Theorem failures_are_reported_uniformly :
  (forall (spawn : program) (agent_path video_path : string) (enhance : bool)
          (w : world),
      (exists r w',
          VideoTranscriptionCapability.transcribe_video
            spawn agent_path video_path enhance w
          = (Return r, w'))
      /\ forall (result : CompletedProcess) (fs1 : filesystem),
          capability_completes spawn agent_path video_path enhance w result fs1 ->
          failure agent_path result fs1 ->
          exists msg w',
            VideoTranscriptionCapability.transcribe_video
              spawn agent_path video_path enhance w
            = (Return (failure_record msg), w'))
  /\ (forall (spawn : program) (agent_path input_data : string) (w : world),
         (exists text w',
             VideoTranscriptionTool._run spawn agent_path input_data w
             = (Return text, w'))
         /\ forall (argv : list string) (result : CompletedProcess) (fs1 : filesystem),
             tool_completes spawn agent_path input_data w argv result fs1 ->
             failure agent_path result fs1 ->
             exists msg w',
               VideoTranscriptionTool._run spawn agent_path input_data w
               = (Return (json.dumps (failure_record msg) None), w')).
Proof.
  split.
  - intros spawn agent_path video_path enhance w; split.
    + rewrite capability_attempt; apply attempt_returns.
    + intros result fs1 Hrun Hfail.
      destruct (attempt_reports_failure spawn agent_path
                  (VideoTranscriptionCapability.command agent_path video_path enhance)
                  VideoTranscriptionCapability.load_and_normalize failure_record
                  w (capability_argv agent_path video_path enhance) result fs1
                  reads_capability_load) as [msg Hmsg]; trivial.
      * intros filename w0 text e Hread Hparse.
        rewrite (capability_load_unparsable filename w0 text e Hread Hparse);
          reflexivity.
      * apply capability_command.
      * exists msg; apply returns_with.
        rewrite capability_attempt; exact Hmsg.
  - intros spawn agent_path input_data w; split.
    + destruct (tool_result_invariant spawn agent_path input_data w)
        as [text [w' [E _]]]; exists text, w'; exact E.
    + intros argv result fs1 [vp [en [fmt [Hreq [Hargs Hrun]]]]] Hfail.
      destruct (attempt_reports_failure spawn agent_path
                  (VideoTranscriptionTool.command agent_path vp en fmt)
                  VideoTranscriptionTool.load_and_normalize failure_text
                  w argv result fs1 reads_tool_load) as [msg Hmsg]; trivial.
      * intros filename w0 text e Hread Hparse.
        rewrite (tool_load_unparsable filename w0 text e Hread Hparse); reflexivity.
      * exists msg; apply returns_with.
        rewrite (tool_attempt spawn agent_path input_data vp en fmt w Hreq).
        exact Hmsg.
Qed.

Lemma failures_are_reported_uniformly_witness :
  (exists msg w',
      VideoTranscriptionCapability.transcribe_video
        (exits 0 "" (mount Example.disk_missing)) Example.agent "./meeting.mp4" true
        (boot [])
      = (Return (failure_record msg), w'))
  /\ (exists msg w',
         VideoTranscriptionTool._run
           (exits 2 "no such video" (mount Example.disk_AB)) Example.agent
           Example.request_text (boot [])
         = (Return (json.dumps (failure_record msg) None), w')).
Proof.
  destruct failures_are_reported_uniformly as [Hcapability Htool]; split.
  - destruct (Hcapability (exits 0 "" (mount Example.disk_missing)) Example.agent
                "./meeting.mp4" true (boot [])) as [_ Hfail].
    apply (Hfail (Example.process 0 "") (mount Example.disk_missing) eq_refl).
    apply (IOUnavailable _ _ _
             (OSError "FileNotFoundError" "2" "No such file or directory"
                "./video-transcribe/output")); reflexivity.
  - destruct (Htool (exits 2 "no such video" (mount Example.disk_AB)) Example.agent
                Example.request_text (boot [])) as [_ Hfail].
    apply (Hfail Example.tool_argv (Example.process 2 "no such video")
             (mount Example.disk_AB)
             (example_tool_completes 2 "no such video" (mount Example.disk_AB))).
    apply ProcessFailure; discriminate.
Defined.

(** ** Enhanced text and raw text (C2) *)

Lemma enhanced_text_section (data : value) (enh : string) :
  enhanced_text data = Some enh ->
  exists d e,
    data = VDict d
    /\ section_of d "enhancement" e
    /\ lookup_default e "enhancedText" VNone = VStr enh.
Proof.
  unfold enhanced_text, field, section_of, lookup_default.
  destruct data as [| | | | | | d]; try discriminate.
  destruct (dict_lookup d "enhancement") as [section |] eqn:Hd; [| discriminate].
  destruct section as [| | | | | | e]; try discriminate.
  destruct (dict_lookup e "enhancedText") as [v |] eqn:He; [| discriminate].
  destruct v; try discriminate.
  intro H; injection H as ->.
  exists d, e; rewrite Hd, He; auto.
Qed.

Lemma valid_artifact_sections (d : list (string * value)) :
  valid_artifact (VDict d) = true ->
  exists t m o,
    section_of d "transcription" t
    /\ section_of d "metadata" m
    /\ section_of m "processingOptions" o.
Proof.
  unfold valid_artifact, required, optional, section_of, lookup_default.
  intro H; apply andb_prop in H as [H Hm]; apply andb_prop in H as [Ht _].
  destruct (dict_lookup d "transcription") as [tv |] eqn:Hdt; [| discriminate].
  destruct tv as [| | | | | | t]; try discriminate.
  destruct (dict_lookup d "metadata") as [mv |] eqn:Hdm.
  - destruct mv as [| | | | | | m]; try discriminate.
    unfold valid_metadata, optional in Hm.
    destruct (dict_lookup m "processingOptions") as [ov |] eqn:Hmo.
    + destruct ov as [| | | | | | o]; try discriminate.
      exists t, m, o; rewrite Hmo; auto.
    + exists t, m, []; rewrite Hmo; auto.
  - exists t, [], []; auto.
Qed.

Lemma truthy_nonempty (s : string) : s <> "" -> truthy (VStr s) = true.
Proof.
  intro H; simpl; destruct (String.eqb_spec s ""); [contradiction | reflexivity].
Qed.

(** C2, as stated, fails when the enhanced text is the empty string: the
    artifact is valid and has both texts, and the transcription returned is
    the raw text. *)
Lemma blank_enhanced_text_yields_raw_text :
  valid_artifact Example.artifact_blank = true
  /\ raw_text Example.artifact_blank = Some "raw text"
  /\ enhanced_text Example.artifact_blank = Some ""
  /\ artifact Example.agent (mount Example.disk_blank) Example.artifact_blank
  /\ (exists r,
         fst (VideoTranscriptionCapability.transcribe_video
                (exits 0 "" (mount Example.disk_blank)) Example.agent "./meeting.mp4"
                true (boot []))
         = Return r
         /\ field r "transcription" = Some (VStr "raw text"))
  /\ (exists r,
         fst (VideoTranscriptionTool._run
                (exits 0 "" (mount Example.disk_blank)) Example.agent
                Example.request_text (boot []))
         = Return (json.dumps r (Some 2%nat))
         /\ field r "transcription" = Some (VStr "raw text"))
  /\ VStr "raw text" <> VStr "".
Proof.
  split; [reflexivity |].
  split; [reflexivity |].
  split; [reflexivity |].
  split.
  - exists Example.name_B, (json.dumps Example.artifact_blank None).
    split; [| split; [reflexivity | vm_compute; reflexivity]].
    exists [Example.name_B], (fun _ => 2%Z); split; [reflexivity | split].
    + intros f Hf; vm_compute in Hf; destruct Hf as [<- | []]; reflexivity.
    + reflexivity.
  - split; [eexists; split; [vm_compute; reflexivity | reflexivity] |].
    split; [| discriminate].
    exists (tool_record [("enhancedText", VStr "")]
              [("fullText", VStr "raw text"); ("confidence", Example.nine_tenths)] []).
    split; vm_compute; reflexivity.
Qed.

(** C2 (amended). For every valid artifact that contains both a raw full
    text and an enhanced text that is not empty, the transcription returned
    is the enhanced text. *)
Theorem nonempty_enhanced_text_preferred :
  (forall (spawn : program) (agent_path video_path : string) (enhance : bool)
          (w : world) (result : CompletedProcess) (fs1 : filesystem)
          (data : value) (raw enh : string),
      capability_completes spawn agent_path video_path enhance w result fs1 ->
      returncode result = 0%Z ->
      artifact agent_path fs1 data ->
      valid_artifact data = true ->
      raw_text data = Some raw ->
      enhanced_text data = Some enh ->
      enh <> "" ->
      exists r,
        fst (VideoTranscriptionCapability.transcribe_video
               spawn agent_path video_path enhance w)
        = Return r
        /\ field r "success" = Some (VBool true)
        /\ field r "transcription" = Some (VStr enh))
  /\ (forall (spawn : program) (agent_path input_data : string) (w : world)
             (argv : list string) (result : CompletedProcess) (fs1 : filesystem)
             (data : value) (raw enh : string),
         tool_completes spawn agent_path input_data w argv result fs1 ->
         returncode result = 0%Z ->
         artifact agent_path fs1 data ->
         valid_artifact data = true ->
         raw_text data = Some raw ->
         enhanced_text data = Some enh ->
         enh <> "" ->
         exists r,
           fst (VideoTranscriptionTool._run spawn agent_path input_data w)
           = Return (json.dumps r (Some 2%nat))
           /\ field r "success" = Some (VBool true)
           /\ field r "transcription" = Some (VStr enh)).
Proof.
  split.
  - intros spawn agent_path video_path enhance w result fs1 data raw enh
      Hrun Hrc [latest [text [Hsel [Hread Hparse]]]] _ _ Henh Hne.
    destruct (enhanced_text_section data enh Henh) as [d [e [-> [He Htext]]]].
    exists (capability_record e (VStr enh)); split; [| split; reflexivity].
    rewrite capability_attempt.
    rewrite (attempt_selected spawn agent_path _ _ failure_record w _ result fs1 latest
               reads_capability_load
               (capability_command agent_path video_path enhance) Hrun Hrc Hsel).
    unfold loaded.
    rewrite (capability_load_parsed _ {| fs := fs1; trace := [] |} text (VDict d) w
               Hread Hparse).
    rewrite (capability_normalize_enhanced d e w He), Htext;
      [reflexivity | rewrite Htext; apply truthy_nonempty, Hne].
  - intros spawn agent_path input_data w argv result fs1 data raw enh
      [vp [en [fmt [Hreq [Hargs Hrun]]]]] Hrc [latest [text [Hsel [Hread Hparse]]]]
      Hvalid _ Henh Hne.
    destruct (enhanced_text_section data enh Henh) as [d [e [-> [He Htext]]]].
    destruct (valid_artifact_sections d Hvalid) as [t [m [o [Ht [Hm Ho]]]]].
    exists (tool_record e t o); split; [| split].
    + rewrite (tool_attempt spawn agent_path input_data vp en fmt w Hreq).
      rewrite (attempt_selected spawn agent_path _ _ failure_text w argv result fs1
                 latest reads_tool_load Hargs Hrun Hrc Hsel).
      unfold loaded.
      rewrite (tool_load_parsed _ {| fs := fs1; trace := [] |} text (VDict d) w
                 Hread Hparse).
      rewrite (tool_normalize_sections d e t m o w He Ht Hm Ho); reflexivity.
    + reflexivity.
    + unfold tool_record, field, or_; rewrite Htext, (truthy_nonempty enh Hne).
      reflexivity.
Qed.

Lemma example_selected_B :
  selected Example.agent (mount Example.disk_AB) Example.name_B.
Proof.
  exists [Example.name_A; "notes.txt"; Example.name_B], Example.ctime_AB.
  split; [reflexivity | split].
  - intros f Hf; vm_compute in Hf; destruct Hf as [<- | [<- | []]]; reflexivity.
  - reflexivity.
Qed.

Lemma example_artifact_B :
  artifact Example.agent (mount Example.disk_AB) Example.artifact_B.
Proof.
  exists Example.name_B, (json.dumps Example.artifact_B None).
  split; [exact example_selected_B | split; [reflexivity | vm_compute; reflexivity]].
Qed.

Lemma nonempty_enhanced_text_preferred_witness :
  (exists r,
      fst (VideoTranscriptionCapability.transcribe_video
             (exits 0 "" (mount Example.disk_AB)) Example.agent "./meeting.mp4" true
             (boot []))
      = Return r
      /\ field r "success" = Some (VBool true)
      /\ field r "transcription" = Some (VStr "Hello, world."))
  /\ (exists r,
         fst (VideoTranscriptionTool._run
                (exits 0 "" (mount Example.disk_AB)) Example.agent
                Example.request_text (boot []))
         = Return (json.dumps r (Some 2%nat))
         /\ field r "success" = Some (VBool true)
         /\ field r "transcription" = Some (VStr "Hello, world.")).
Proof.
  destruct nonempty_enhanced_text_preferred as [Hcapability Htool]; split.
  - apply (Hcapability (exits 0 "" (mount Example.disk_AB)) Example.agent
             "./meeting.mp4" true (boot []) (Example.process 0 "")
             (mount Example.disk_AB) Example.artifact_B "hello world" "Hello, world."
             eq_refl eq_refl example_artifact_B eq_refl eq_refl eq_refl).
    discriminate.
  - apply (Htool (exits 0 "" (mount Example.disk_AB)) Example.agent
             Example.request_text (boot []) Example.tool_argv (Example.process 0 "")
             (mount Example.disk_AB) Example.artifact_B "hello world" "Hello, world."
             (example_tool_completes 0 "" (mount Example.disk_AB))
             eq_refl example_artifact_B eq_refl eq_refl eq_refl).
    discriminate.
Defined.

(** ** What a result that is not a failure rests on *)

(** When the loop of [max] returns, it has read the time of every file. *)
Lemma max_loop_stats (dir : string) (items : list string) :
  forall maxitem maxval w latest w',
    max_loop (fun x => os.path.getctime (os.path.join dir x)) items maxitem maxval w
    = (Return latest, w') ->
    forall f, In f items ->
      exists z, fs_getctime (fs w) (os.path.join dir f) = Return z.
Proof.
  induction items as [| item rest IH]; intros maxitem maxval w latest w' H f Hf;
    [destruct Hf |].
  simpl in H; unfold bind at 1, os.path.getctime at 1 in H.
  destruct (fs_getctime (fs w) (os.path.join dir item)) as [z | e] eqn:Hz;
    [| discriminate H].
  destruct Hf as [<- | Hf]; [exists z; exact Hz |].
  destruct (maxval <? z)%Z; exact (IH _ _ _ _ _ H f Hf).
Qed.

(** When [max] returns a file, the time of every file could be read and
    the file returned is the newest. *)
Lemma max_inv (dir : string) (items : list string) (w w' : world) (latest : string) :
  max_ items (fun x => os.path.getctime (os.path.join dir x)) w = (Return latest, w') ->
  exists ctime,
    (forall f, In f items -> fs_getctime (fs w) (os.path.join dir f) = Return (ctime f))
    /\ newest ctime items = Some latest.
Proof.
  intro H.
  pose (ctime := fun f => match fs_getctime (fs w) (os.path.join dir f) with
                          | Return z => z
                          | Raise _ => 0%Z
                          end).
  assert (Hstat : forall f, In f items ->
             fs_getctime (fs w) (os.path.join dir f) = Return (ctime f)).
  { intros f Hf.
    assert (Hz : exists z, fs_getctime (fs w) (os.path.join dir f) = Return z).
    { destruct items as [| item rest]; [destruct Hf |].
      simpl in H; unfold bind at 1, os.path.getctime at 1 in H.
      destruct (fs_getctime (fs w) (os.path.join dir item)) as [z | e] eqn:Hz;
        [| discriminate H].
      destruct Hf as [<- | Hf]; [exists z; exact Hz |].
      exact (max_loop_stats dir rest _ _ _ _ _ H f Hf). }
    destruct Hz as [z Hz]; unfold ctime; rewrite Hz; reflexivity. }
  exists ctime; split; [exact Hstat |].
  destruct items as [| item rest]; [discriminate H |].
  destruct (newest_nonempty ctime (item :: rest)) as [l Hl]; [discriminate |].
  destruct (max_newest dir ctime (item :: rest) l w Hstat Hl) as [w'' [E _]].
  rewrite E in H; injection H as -> _; exact Hl.
Qed.

(** When the search returns a result, it is what loading the selected
    file gave. *)
Lemma locate_with_selected {A : Type} (agent_path : string) (load : string -> M A)
  (w w' : world) (a : A) :
  locate_with agent_path load w = (Return (Some a), w') ->
  exists latest w0,
    selected agent_path (fs w) latest
    /\ fs w0 = fs w
    /\ load (os.path.join (output_directory agent_path) latest) w0 = (Return a, w').
Proof.
  unfold locate_with; fold (output_directory agent_path); fold suffix.
  intro H; apply bind_inv in H as (names & wa & Hls & H).
  unfold os.listdir in Hls; injection Hls as Hls <-.
  fold (matching names) in H.
  destruct (truthy (VList (map VStr (matching names)))); [| discriminate H].
  apply bind_inv in H as (latest & wb & Hmax & H).
  apply bind_inv in H as (r & wc & Hload & H).
  unfold ret in H; injection H as <- <-.
  destruct (max_inv _ _ _ _ _ Hmax) as [ctime [Hstat Hnew]].
  exists latest, wb; split; [| split; [| exact Hload]].
  - exists names, ctime; split; [exact Hls | split; [exact Hstat | exact Hnew]].
  - destruct (reads_max (matching names)
                (fun x => os.path.getctime (os.path.join (output_directory agent_path) x))
                (fun x => reads_getctime _)
                (log (Listdir (output_directory agent_path)) w)
                (log (Listdir (output_directory agent_path)) w) eq_refl) as [_ Hfs].
    rewrite Hmax in Hfs; exact Hfs.
Qed.

(** The results of the [try] statement: a failure, or what loading the
    selected file gave after an exit with status 0. *)
Lemma attempt_artifact_cases {A : Type} (spawn : program) (agent_path : string)
  (cmd : list value) (load : string -> M A) (failing : string -> A)
  (argv : list string) (w : world) :
  subprocess.fsencode_args cmd = Return argv ->
  exists a w',
    attempt spawn agent_path cmd (locate_with agent_path load) failing w = (Return a, w')
    /\ ((exists msg, a = failing msg)
        \/ (exists result fs1 latest w0,
               spawn argv agent_path (fs w) = (Return result, fs1)
               /\ returncode result = 0%Z
               /\ selected agent_path fs1 latest
               /\ fs w0 = fs1
               /\ load (os.path.join (output_directory agent_path) latest) w0
                  = (Return a, w'))).
Proof.
  intro Hargs; unfold attempt, try_except, bind, subprocess.run; rewrite Hargs.
  destruct (spawn argv agent_path (fs w)) as [[result | e] fs1] eqn:Hspawn.
  - destruct (Z.eqb_spec (returncode result) 0) as [Hrc | Hrc].
    + destruct (locate_with agent_path load _) as [[[a |] | e] w2] eqn:Hl.
      * exists a, w2; split; [reflexivity | right].
        destruct (locate_with_selected _ _ _ _ _ Hl) as (latest & w0 & Hsel & Hfs & Hload).
        exists result, fs1, latest, w0; auto 10.
      * eexists _, w2; split; [reflexivity | left; eexists; reflexivity].
      * eexists _, w2; split; [reflexivity | left; eexists; reflexivity].
    + eexists _, _; split; [reflexivity | left; eexists; reflexivity].
  - eexists _, _; split; [reflexivity | left; eexists; reflexivity].
Qed.

Lemma capability_load_inv (filename : string) (w w' : world) (r : value) :
  VideoTranscriptionCapability.load_and_normalize filename w = (Return r, w') ->
  exists text d e transcription,
    fs_read (fs w) filename = Return text
    /\ json.loads text = Return (VDict d)
    /\ section_of d "enhancement" e
    /\ r = capability_record e transcription.
Proof.
  unfold VideoTranscriptionCapability.load_and_normalize.
  intro H; apply bind_inv in H as (f & wa & Hopen & H).
  apply bind_inv in H as (data & wb & Hparse & H).
  unfold open_ in Hopen.
  destruct (fs_read (fs w) filename) as [text | e] eqn:Hread; [| discriminate Hopen].
  injection Hopen as <- <-.
  unfold lift, json.load in Hparse; simpl in Hparse; injection Hparse as Hparse <-.
  destruct (capability_normalize_shape _ _ _ _ H) as (d & e & t & -> & He & ->).
  exists text, d, e, t; auto.
Qed.

Lemma tool_load_inv (filename : string) (w w' : world) (out : string) :
  VideoTranscriptionTool.load_and_normalize filename w = (Return out, w') ->
  exists text d e t m o,
    fs_read (fs w) filename = Return text
    /\ json.loads text = Return (VDict d)
    /\ section_of d "enhancement" e
    /\ section_of d "transcription" t
    /\ section_of d "metadata" m
    /\ section_of m "processingOptions" o
    /\ out = json.dumps (tool_record e t o) (Some 2%nat).
Proof.
  unfold VideoTranscriptionTool.load_and_normalize.
  intro H; apply bind_inv in H as (f & wa & Hopen & H).
  apply bind_inv in H as (data & wb & Hparse & H).
  apply bind_inv in H as (r & wc & Hnorm & H).
  unfold open_ in Hopen.
  destruct (fs_read (fs w) filename) as [text | e] eqn:Hread; [| discriminate Hopen].
  injection Hopen as <- <-.
  unfold lift, json.load in Hparse; simpl in Hparse; injection Hparse as Hparse <-.
  destruct (tool_normalize_shape _ _ _ _ Hnorm)
    as (d & e & t & m & o & -> & He & Ht & Hm & Ho & ->).
  unfold ret in H; injection H as <- _.
  exists text, d, e, t, m, o; auto 10.
Qed.

(** ** The record of a valid artifact *)

Lemma getitem_dict (d : list (string * value)) (key : string) (x : value) (w : world) :
  dict_lookup d key = Some x -> getitem (VDict d) key w = (Return x, w).
Proof. intro H; unfold getitem; rewrite H; reflexivity. Qed.

Lemma getitem_missing (d : list (string * value)) (key : string) (w : world) :
  dict_lookup d key = None ->
  getitem (VDict d) key w = (Raise (Exception "KeyError" ("'" ++ key ++ "'")), w).
Proof. intro H; unfold getitem; rewrite H; reflexivity. Qed.

(** The result of either agent when the search selects a file that holds
    the document [data]. *)
Lemma capability_artifact_result (spawn : program) (agent_path video_path : string)
  (enhance : bool) (w : world) (result : CompletedProcess) (fs1 : filesystem)
  (data : value) (w0 : world) :
  capability_completes spawn agent_path video_path enhance w result fs1 ->
  returncode result = 0%Z ->
  artifact agent_path fs1 data ->
  fst (VideoTranscriptionCapability.transcribe_video spawn agent_path video_path enhance w)
  = Return (answer failure_record
              (fst (VideoTranscriptionCapability.normalize data w0))).
Proof.
  intros Hrun Hrc [latest [text [Hsel [Hread Hparse]]]].
  rewrite capability_attempt.
  rewrite (attempt_selected spawn agent_path _ _ failure_record w _ result fs1 latest
             reads_capability_load
             (capability_command agent_path video_path enhance) Hrun Hrc Hsel).
  unfold loaded.
  rewrite (capability_load_parsed _ {| fs := fs1; trace := [] |} text data w0
             Hread Hparse).
  reflexivity.
Qed.

Lemma tool_artifact_result (spawn : program) (agent_path input_data : string)
  (w : world) (argv : list string) (result : CompletedProcess) (fs1 : filesystem)
  (data : value) (w0 : world) :
  tool_completes spawn agent_path input_data w argv result fs1 ->
  returncode result = 0%Z ->
  artifact agent_path fs1 data ->
  fst (VideoTranscriptionTool._run spawn agent_path input_data w)
  = Return (answer failure_text
              (match fst (VideoTranscriptionTool.normalize data w0) with
               | Return record => Return (json.dumps record (Some 2%nat))
               | Raise e => Raise e
               end)).
Proof.
  intros [vp [en [fmt [Hreq [Hargs Hrun]]]]] Hrc [latest [text [Hsel [Hread Hparse]]]].
  rewrite (tool_attempt spawn agent_path input_data vp en fmt w Hreq).
  rewrite (attempt_selected spawn agent_path _ _ failure_text w argv result fs1
             latest reads_tool_load Hargs Hrun Hrc Hsel).
  unfold loaded.
  rewrite (tool_load_parsed _ {| fs := fs1; trace := [] |} text data w0 Hread Hparse).
  reflexivity.
Qed.

Lemma raw_text_section (data : value) (raw : string) :
  raw_text data = Some raw ->
  exists d t,
    data = VDict d
    /\ dict_lookup d "transcription" = Some (VDict t)
    /\ dict_lookup t "fullText" = Some (VStr raw).
Proof.
  unfold raw_text, field.
  destruct data as [| | | | | | d]; try discriminate.
  destruct (dict_lookup d "transcription") as [section |] eqn:Hd; [| discriminate].
  destruct section as [| | | | | | t]; try discriminate.
  destruct (dict_lookup t "fullText") as [v |] eqn:Ht; [| discriminate].
  destruct v; try discriminate.
  intro H; injection H as ->.
  exists d, t; auto.
Qed.

(** In a valid artifact without enhanced text, or with an empty one, the
    enhancement section is a dictionary and its enhanced text is false. *)
Lemma valid_enhancement_falsy (d : list (string * value)) :
  valid_artifact (VDict d) = true ->
  enhanced_text (VDict d) = None \/ enhanced_text (VDict d) = Some "" ->
  exists e,
    section_of d "enhancement" e
    /\ truthy (lookup_default e "enhancedText" VNone) = false.
Proof.
  unfold valid_artifact, optional, enhanced_text, field, section_of, lookup_default.
  intros H Henh; apply andb_prop in H as [H _]; apply andb_prop in H as [_ He].
  destruct (dict_lookup d "enhancement") as [section |] eqn:Hd.
  - destruct section as [| | | | | | e]; try discriminate.
    exists e; split; [reflexivity |].
    unfold valid_enhancement, optional in He.
    destruct (dict_lookup e "enhancedText") as [v |] eqn:Hv; [| reflexivity].
    destruct v as [| | | | s | |]; try discriminate.
    destruct Henh as [Henh | Henh]; [discriminate |].
    injection Henh as ->; reflexivity.
  - exists []; split; reflexivity.
Qed.

Lemma capability_normalize_raw (d e t : list (string * value)) (x : value) (w : world) :
  section_of d "enhancement" e ->
  truthy (lookup_default e "enhancedText" VNone) = false ->
  dict_lookup d "transcription" = Some (VDict t) ->
  dict_lookup t "fullText" = Some x ->
  VideoTranscriptionCapability.normalize (VDict d) w
  = (Return (capability_record e x), w).
Proof.
  unfold section_of; intros He Hf Ht Hx.
  unfold VideoTranscriptionCapability.normalize, bind, or_else.
  repeat first [rewrite get_dict | rewrite He | rewrite Hf
               | rewrite (getitem_dict d _ _ _ Ht) | rewrite (getitem_dict t _ _ _ Hx)
               | progress unfold ret | progress cbv beta iota].
  reflexivity.
Qed.

Lemma valid_raw_text (d : list (string * value)) :
  valid_artifact (VDict d) = true ->
  exists t raw,
    dict_lookup d "transcription" = Some (VDict t)
    /\ dict_lookup t "fullText" = Some (VStr raw)
    /\ raw_text (VDict d) = Some raw.
Proof.
  unfold valid_artifact, required; intro H.
  apply andb_prop in H as [H _]; apply andb_prop in H as [Ht _].
  destruct (dict_lookup d "transcription") as [tv |] eqn:Hd; [| discriminate].
  destruct tv as [| | | | | | t]; try discriminate.
  unfold valid_transcription, required in Ht; apply andb_prop in Ht as [Hf _].
  destruct (dict_lookup t "fullText") as [x |] eqn:Hx; [| discriminate].
  destruct x as [| | | | raw | |]; try discriminate.
  exists t, raw; split; [reflexivity | split; [exact Hx |]].
  unfold raw_text, field; rewrite Hd, Hx; reflexivity.
Qed.

(** The enhancement section of a valid artifact and the text it holds,
    in the two cases of the [or]. *)
Lemma valid_artifact_text (d : list (string * value)) :
  valid_artifact (VDict d) = true ->
  exists e t s,
    section_of d "enhancement" e
    /\ dict_lookup d "transcription" = Some (VDict t)
    /\ transcript (VDict d) = Some s
    /\ ((truthy (lookup_default e "enhancedText" VNone) = true
         /\ lookup_default e "enhancedText" VNone = VStr s)
        \/ (truthy (lookup_default e "enhancedText" VNone) = false
            /\ dict_lookup t "fullText" = Some (VStr s))).
Proof.
  intro Hvalid.
  destruct (valid_raw_text d Hvalid) as (t & raw & Ht & Hx & Hraw).
  destruct (enhanced_text (VDict d)) as [enh |] eqn:Henh.
  - destruct (String.eqb_spec enh "") as [-> | Hne].
    + destruct (valid_enhancement_falsy d Hvalid (or_intror Henh)) as [e [He Hf]].
      exists e, t, raw; split; [exact He | split; [exact Ht | split]].
      * unfold transcript; rewrite Henh; exact Hraw.
      * right; split; assumption.
    + destruct (enhanced_text_section (VDict d) enh Henh) as [d' [e [Hd [He Htext]]]].
      injection Hd as <-.
      exists e, t, enh; split; [exact He | split; [exact Ht | split]].
      * unfold transcript; rewrite Henh.
        destruct (String.eqb_spec enh ""); [contradiction | reflexivity].
      * left; split; [rewrite Htext; apply truthy_nonempty, Hne | exact Htext].
  - destruct (valid_enhancement_falsy d Hvalid (or_introl Henh)) as [e [He Hf]].
    exists e, t, raw; split; [exact He | split; [exact Ht | split]].
    + unfold transcript; rewrite Henh; exact Hraw.
    + right; split; assumption.
Qed.

(** What the first agent makes of a valid artifact. *)
Lemma capability_valid_record (d : list (string * value)) :
  valid_artifact (VDict d) = true ->
  exists e s,
    section_of d "enhancement" e
    /\ transcript (VDict d) = Some s
    /\ forall w,
         VideoTranscriptionCapability.normalize (VDict d) w
         = (Return (capability_record e (VStr s)), w).
Proof.
  intro Hvalid.
  destruct (valid_artifact_text d Hvalid)
    as (e & t & s & He & Ht & Hs & [[Htrue Htext] | [Hfalse Hx]]);
    exists e, s; (split; [exact He | split; [exact Hs | intro w]]).
  - rewrite (capability_normalize_enhanced d e w He Htrue), Htext; reflexivity.
  - exact (capability_normalize_raw d e t (VStr s) w He Hfalse Ht Hx).
Qed.

(** What the second agent makes of a valid artifact, before printing. *)
Lemma tool_valid_record (d : list (string * value)) :
  valid_artifact (VDict d) = true ->
  exists e t m o s,
    section_of d "enhancement" e
    /\ section_of d "transcription" t
    /\ section_of d "metadata" m
    /\ section_of m "processingOptions" o
    /\ transcript (VDict d) = Some s
    /\ field (tool_record e t o) "transcription" = Some (VStr s)
    /\ forall w,
         VideoTranscriptionTool.normalize (VDict d) w = (Return (tool_record e t o), w).
Proof.
  intro Hvalid.
  destruct (valid_artifact_sections d Hvalid) as [t [m [o [Ht [Hm Ho]]]]].
  destruct (valid_artifact_text d Hvalid) as (e & t0 & s & He & Ht0 & Hs & Hcases).
  assert (t0 = t) as ->.
  { unfold section_of, lookup_default in Ht; rewrite Ht0 in Ht.
    injection Ht as <-; reflexivity. }
  exists e, t, m, o, s.
  split; [exact He | split; [exact Ht | split; [exact Hm | split; [exact Ho |]]]].
  split; [exact Hs | split].
  - unfold tool_record, field, or_; simpl dict_lookup.
    destruct Hcases as [[Htrue Htext] | [Hfalse Hx]].
    + rewrite Htrue, Htext; reflexivity.
    + rewrite Hfalse; unfold lookup_default; rewrite Hx; reflexivity.
  - intro w; exact (tool_normalize_sections d e t m o w He Ht Hm Ho).
Qed.

(** ** The fields of a success record (C3) *)

Lemma lookup_default_absent (d : list (string * value)) (key : string) (default : value) :
  dict_lookup d key = None -> lookup_default d key default = default.
Proof. unfold lookup_default; intros ->; reflexivity. Qed.

(** C3, as stated, fails on the field names and on the defaults.  The
    record of the first agent has six fields, with [keyPoints] for the key
    points and neither confidence nor error, and its sentiment defaults to
    [None]; the record of the second agent has eight fields, with
    [output_files] and no error, and an absent sentiment or confidence
    defaults to [neutral] or [0]. *)
Lemma success_record_counterexample :
  (exists r,
      fst (VideoTranscriptionCapability.transcribe_video
             (exits 0 "" (mount Example.disk_blank)) Example.agent "./meeting.mp4" true
             (boot []))
      = Return r
      /\ field r "success" = Some (VBool true)
      /\ has_field r "error" = false
      /\ has_field r "confidence" = false
      /\ has_field r "key_points" = false
      /\ field r "sentiment" = Some VNone)
  /\ (exists text r,
         fst (VideoTranscriptionTool._run
                (exits 0 "" (mount Example.disk_minimal)) Example.agent
                Example.request_text (boot []))
         = Return text
         /\ json.loads text = Return r
         /\ field r "success" = Some (VBool true)
         /\ has_field r "error" = false
         /\ field r "sentiment" = Some (VStr "neutral")
         /\ field r "confidence" = Some (VInt 0))
  /\ VStr "neutral" <> VStr "unknown"
  /\ VInt 0 <> VStr "unknown"
  /\ VNone <> VStr "unknown".
Proof.
  split; [| split; [| repeat split; discriminate]].
  - eexists; split; [vm_compute; reflexivity | repeat split].
  - do 2 eexists; split; [vm_compute; reflexivity |].
    split; [vm_compute; reflexivity | repeat split].
Qed.

(** C3 (amended). Every result of the first agent is a failure record or
    the record made of the artifact the search selected, with exactly the
    fields success, transcription, summary, keyPoints, topics and sentiment;
    every result of the second agent is the reply to a missing video path, a
    failure record, or the record made of the selected artifact, with exactly
    the fields success, transcription, summary, key_points, topics,
    sentiment, confidence and output_files.  A success record has no error
    field.  Each of its fields is the entry of the artifact's section, and
    when the artifact lacks the entry: the empty list for the list-valued
    fields; [None] or the empty string for the summary; [None] or
    [neutral] for the sentiment; [0] for the confidence. *)
Theorem success_record_fields :
  (forall (spawn : program) (agent_path video_path : string) (enhance : bool)
          (w : world),
      exists r w',
        VideoTranscriptionCapability.transcribe_video
          spawn agent_path video_path enhance w
        = (Return r, w')
        /\ ((exists msg, r = failure_record msg)
            \/ (exists result fs1 d e,
                   capability_completes spawn agent_path video_path enhance w result fs1
                   /\ returncode result = 0%Z
                   /\ artifact agent_path fs1 (VDict d)
                   /\ section_of d "enhancement" e
                   /\ field r "success" = Some (VBool true)
                   /\ field_names r
                      = ["success"; "transcription"; "summary"; "keyPoints"; "topics";
                         "sentiment"]
                   /\ defaults_to r "summary" e "summary" VNone
                   /\ defaults_to r "keyPoints" e "keyPoints" (VList [])
                   /\ defaults_to r "topics" e "topics" (VList [])
                   /\ defaults_to r "sentiment" e "sentiment" VNone)))
  /\ (forall (spawn : program) (agent_path input_data : string) (w : world),
         exists text w',
           VideoTranscriptionTool._run spawn agent_path input_data w = (Return text, w')
           /\ (text = validation_reply
               \/ (exists msg, text = failure_text msg)
               \/ (exists r argv result fs1 d e t m o,
                      text = json.dumps r (Some 2%nat)
                      /\ tool_completes spawn agent_path input_data w argv result fs1
                      /\ returncode result = 0%Z
                      /\ artifact agent_path fs1 (VDict d)
                      /\ section_of d "enhancement" e
                      /\ section_of d "transcription" t
                      /\ section_of d "metadata" m
                      /\ section_of m "processingOptions" o
                      /\ field r "success" = Some (VBool true)
                      /\ field_names r
                         = ["success"; "transcription"; "summary"; "key_points";
                            "topics"; "sentiment"; "confidence"; "output_files"]
                      /\ defaults_to r "summary" e "summary" (VStr "")
                      /\ defaults_to r "key_points" e "keyPoints" (VList [])
                      /\ defaults_to r "topics" e "topics" (VList [])
                      /\ defaults_to r "sentiment" e "sentiment" (VStr "neutral")
                      /\ defaults_to r "confidence" t "confidence" (VInt 0)
                      /\ defaults_to r "output_files" o "outputFiles" (VList [])))).
Proof.
  split.
  - intros spawn agent_path video_path enhance w.
    rewrite capability_attempt.
    destruct (attempt_artifact_cases spawn agent_path _
                VideoTranscriptionCapability.load_and_normalize failure_record _ w
                (capability_command agent_path video_path enhance))
      as (r & w' & E & Hcases).
    exists r, w'; split; [exact E |].
    destruct Hcases as [Hfail | Hok]; [left; exact Hfail | right].
    destruct Hok as (result & fs1 & latest & w0 & Hrun & Hrc & Hsel & Hfs & Hload).
    destruct (capability_load_inv _ _ _ _ Hload)
      as (text & d & e & t & Hread & Hp & He & ->).
    rewrite Hfs in Hread.
    exists result, fs1, d, e.
    split; [exact Hrun | split; [exact Hrc | split; [| split; [exact He |]]]].
    + exists latest, text; auto.
    + repeat split.
  - intros spawn agent_path input_data w.
    destruct (tool_input_cases spawn agent_path input_data w)
      as [[e E] | [[d [_ [_ E]]] | [vp [en [fmt Hreq]]]]].
    + eexists _, w; split; [exact E | right; left; eexists; reflexivity].
    + eexists _, w; split; [exact E | left; reflexivity].
    + rewrite (tool_attempt spawn agent_path input_data vp en fmt w Hreq).
      destruct (subprocess.fsencode_args
                  (VideoTranscriptionTool.command agent_path vp en fmt))
        as [argv | e] eqn:Hargs.
      * destruct (attempt_artifact_cases spawn agent_path _
                    VideoTranscriptionTool.load_and_normalize failure_text argv w Hargs)
          as (out & w' & E & Hcases).
        exists out, w'; split; [exact E | right].
        destruct Hcases as [Hfail | Hok]; [left; exact Hfail | right].
        destruct Hok as (result & fs1 & latest & w0 & Hrun & Hrc & Hsel & Hfs & Hload).
        destruct (tool_load_inv _ _ _ _ Hload)
          as (text & d & e & t & m & o & Hread & Hp & He & Ht & Hm & Ho & ->).
        rewrite Hfs in Hread.
        exists (tool_record e t o), argv, result, fs1, d, e, t, m, o.
        split; [reflexivity | split; [| split; [exact Hrc | split]]].
        -- exists vp, en, fmt; auto.
        -- exists latest, text; auto.
        -- repeat split; assumption.
      * rewrite (attempt_bad_argument spawn agent_path _ _ failure_text w e Hargs).
        eexists _, w; split; [reflexivity | right; left; eexists; reflexivity].
Qed.

(** ** The newest artifact (C4) *)

(** C4, as stated, fails on a POSIX system.  The key of the selection is
    [os.path.getctime], which there is the time of the last change of the
    inode, not the time of creation: B was created after A, A was changed
    last, and the content returned is A's. *)
Lemma latest_created_is_not_returned :
  (Posix.created Posix.file_A < Posix.created Posix.file_B)%Z
  /\ fst (VideoTranscriptionCapability.transcribe_video
            (exits 0 "" (mount Posix.disk_touched)) Example.agent "./meeting.mp4" true
            (boot []))
     = Return (VDict [("success", VBool true);
                      ("transcription", VStr "first recording");
                      ("summary", VNone);
                      ("keyPoints", VList []);
                      ("topics", VList []);
                      ("sentiment", VNone)])
  /\ (exists text,
         fst (VideoTranscriptionTool._run
                (exits 0 "" (mount Posix.disk_touched)) Example.agent
                Example.request_text (boot []))
         = Return text
         /\ json.loads text
            = Return (VDict [("success", VBool true);
                             ("transcription", VStr "first recording");
                             ("summary", VStr "");
                             ("key_points", VList []);
                             ("topics", VList []);
                             ("sentiment", VStr "neutral");
                             ("confidence", Example.nine_tenths);
                             ("output_files", VList [])])).
Proof.
  split; [reflexivity | split; [vm_compute; reflexivity |]].
  eexists; split; [vm_compute; reflexivity | vm_compute; reflexivity].
Qed.

(** C4 (amended). After a process that exited with status 0, when the
    output directory holds matching files (in particular two or more) whose
    time [os.path.getctime] can be read, the content returned is that of a
    matching file for which this time is the maximum: when that file holds
    a valid artifact, the result is the record made of this artifact, with
    its text as transcription.  With A at 1 and B at 2, the content
    returned is the content of B. *)
Theorem newest_artifact_is_returned :
  (forall (spawn : program) (agent_path video_path : string) (enhance : bool)
          (w : world) (result : CompletedProcess) (fs1 : filesystem)
          (names : list string) (ctime : string -> Z),
      capability_completes spawn agent_path video_path enhance w result fs1 ->
      returncode result = 0%Z ->
      fs_listdir fs1 (output_directory agent_path) = Return names ->
      (forall f, In f (matching names) ->
         fs_getctime fs1 (os.path.join (output_directory agent_path) f)
         = Return (ctime f)) ->
      matching names <> [] ->
      exists latest,
        In latest (matching names)
        /\ (forall f, In f (matching names) -> (ctime f <= ctime latest)%Z)
        /\ forall (text : string) (d : list (string * value)),
             fs_read fs1 (os.path.join (output_directory agent_path) latest)
             = Return text ->
             json.loads text = Return (VDict d) ->
             valid_artifact (VDict d) = true ->
             exists e s,
               section_of d "enhancement" e
               /\ transcript (VDict d) = Some s
               /\ fst (VideoTranscriptionCapability.transcribe_video
                         spawn agent_path video_path enhance w)
                  = Return (capability_record e (VStr s)))
  /\ (forall (spawn : program) (agent_path input_data : string) (w : world)
             (argv : list string) (result : CompletedProcess) (fs1 : filesystem)
             (names : list string) (ctime : string -> Z),
         tool_completes spawn agent_path input_data w argv result fs1 ->
         returncode result = 0%Z ->
         fs_listdir fs1 (output_directory agent_path) = Return names ->
         (forall f, In f (matching names) ->
            fs_getctime fs1 (os.path.join (output_directory agent_path) f)
            = Return (ctime f)) ->
         matching names <> [] ->
         exists latest,
           In latest (matching names)
           /\ (forall f, In f (matching names) -> (ctime f <= ctime latest)%Z)
           /\ forall (text : string) (d : list (string * value)),
                fs_read fs1 (os.path.join (output_directory agent_path) latest)
                = Return text ->
                json.loads text = Return (VDict d) ->
                valid_artifact (VDict d) = true ->
                exists e t m o s,
                  section_of d "enhancement" e
                  /\ section_of d "transcription" t
                  /\ section_of d "metadata" m
                  /\ section_of m "processingOptions" o
                  /\ transcript (VDict d) = Some s
                  /\ field (tool_record e t o) "transcription" = Some (VStr s)
                  /\ fst (VideoTranscriptionTool._run spawn agent_path input_data w)
                     = Return (json.dumps (tool_record e t o) (Some 2%nat))).
Proof.
  split.
  - intros spawn agent_path video_path enhance w result fs1 names ctime
      Hrun Hrc Hls Hstat Hsome.
    destruct (newest_nonempty ctime (matching names) Hsome) as [latest Hnew].
    destruct (newest_spec ctime (matching names) latest Hnew) as [Hin Hmax].
    exists latest; split; [exact Hin | split; [exact Hmax |]].
    intros text d Hread Hparse Hvalid.
    destruct (capability_valid_record d Hvalid) as (e & s & He & Hs & Hnorm).
    exists e, s; split; [exact He | split; [exact Hs |]].
    rewrite (capability_artifact_result spawn agent_path video_path enhance w result fs1
               (VDict d) w Hrun Hrc).
    + rewrite Hnorm; reflexivity.
    + exists latest, text; split; [exists names, ctime; auto | auto].
  - intros spawn agent_path input_data w argv result fs1 names ctime
      Hrun Hrc Hls Hstat Hsome.
    destruct (newest_nonempty ctime (matching names) Hsome) as [latest Hnew].
    destruct (newest_spec ctime (matching names) latest Hnew) as [Hin Hmax].
    exists latest; split; [exact Hin | split; [exact Hmax |]].
    intros text d Hread Hparse Hvalid.
    destruct (tool_valid_record d Hvalid)
      as (e & t & m & o & s & He & Ht & Hm & Ho & Hs & Hfield & Hnorm).
    exists e, t, m, o, s.
    split; [exact He | split; [exact Ht | split; [exact Hm | split; [exact Ho |]]]].
    split; [exact Hs | split; [exact Hfield |]].
    rewrite (tool_artifact_result spawn agent_path input_data w argv result fs1
               (VDict d) w Hrun Hrc).
    + rewrite Hnorm; reflexivity.
    + exists latest, text; split; [exists names, ctime; auto | auto].
Qed.

Lemma example_decodes_B :
  json.loads (json.dumps Example.artifact_B None) = Return Example.artifact_B.
Proof. vm_compute; reflexivity. Qed.

Lemma newest_artifact_is_returned_witness :
  Example.ctime_AB Example.name_A = 1%Z
  /\ Example.ctime_AB Example.name_B = 2%Z
  /\ fst (VideoTranscriptionCapability.transcribe_video
            (exits 0 "" (mount Example.disk_AB)) Example.agent "./meeting.mp4"
            true (boot []))
     = Return (VDict [("success", VBool true);
                      ("transcription", VStr "Hello, world.");
                      ("summary", VStr "greeting");
                      ("keyPoints", VList [VStr "greeting"]);
                      ("topics", VList [VStr "intro"]);
                      ("sentiment", VStr "neutral")])
  /\ fst (VideoTranscriptionTool._run
            (exits 0 "" (mount Example.disk_AB)) Example.agent
            Example.request_text (boot []))
     = Return (json.dumps
                 (VDict [("success", VBool true);
                         ("transcription", VStr "Hello, world.");
                         ("summary", VStr "greeting");
                         ("key_points", VList [VStr "greeting"]);
                         ("topics", VList [VStr "intro"]);
                         ("sentiment", VStr "neutral");
                         ("confidence", Example.nine_tenths);
                         ("output_files", VList [])])
                 (Some 2%nat)).
Proof.
  destruct newest_artifact_is_returned as [Hcapability Htool].
  assert (Hstat : forall f,
             In f (matching [Example.name_A; "notes.txt"; Example.name_B]) ->
             fs_getctime (mount Example.disk_AB)
               (os.path.join (output_directory Example.agent) f)
             = Return (Example.ctime_AB f)).
  { intros f Hf; vm_compute in Hf; destruct Hf as [<- | [<- | []]]; reflexivity. }
  assert (Hsome : matching [Example.name_A; "notes.txt"; Example.name_B] <> [])
    by discriminate.
  split; [reflexivity | split; [reflexivity | split]].
  - destruct (Hcapability (exits 0 "" (mount Example.disk_AB)) Example.agent
                "./meeting.mp4" true (boot []) (Example.process 0 "")
                (mount Example.disk_AB) [Example.name_A; "notes.txt"; Example.name_B]
                Example.ctime_AB eq_refl eq_refl eq_refl Hstat Hsome)
      as [latest [Hin [Hmax Hcontent]]].
    change (matching [Example.name_A; "notes.txt"; Example.name_B])
      with [Example.name_A; Example.name_B] in Hin, Hmax.
    destruct Hin as [<- | [<- | []]].
    + exfalso; exact (Hmax Example.name_B (or_intror (or_introl eq_refl)) eq_refl).
    + destruct (Hcontent (json.dumps Example.artifact_B None) _
                  eq_refl example_decodes_B eq_refl) as (e & s & He & Hs & E).
      vm_compute in He; injection He as <-.
      vm_compute in Hs; injection Hs as <-.
      exact E.
  - destruct (Htool (exits 0 "" (mount Example.disk_AB)) Example.agent
                Example.request_text (boot []) Example.tool_argv (Example.process 0 "")
                (mount Example.disk_AB) [Example.name_A; "notes.txt"; Example.name_B]
                Example.ctime_AB (example_tool_completes 0 "" (mount Example.disk_AB))
                eq_refl eq_refl Hstat Hsome)
      as [latest [Hin [Hmax Hcontent]]].
    change (matching [Example.name_A; "notes.txt"; Example.name_B])
      with [Example.name_A; Example.name_B] in Hin, Hmax.
    destruct Hin as [<- | [<- | []]].
    + exfalso; exact (Hmax Example.name_B (or_intror (or_introl eq_refl)) eq_refl).
    + destruct (Hcontent (json.dumps Example.artifact_B None) _
                  eq_refl example_decodes_B eq_refl)
        as (e & t & m & o & s & He & Ht & Hm & Ho & Hs & _ & E).
      vm_compute in He; injection He as <-.
      vm_compute in Ht; injection Ht as <-.
      vm_compute in Hm; injection Hm as <-.
      vm_compute in Ho; injection Ho as <-.
      exact E.
Defined.

(** The end-to-end scenario of the specification, with the older artifact
    A next to B: both agents return the content of B. *)
Example newest_of_A_and_B :
  fst (VideoTranscriptionCapability.transcribe_video
         (exits 0 "" (mount Example.disk_AB)) Example.agent "./meeting.mp4" true
         (boot []))
  = Return (VDict [("success", VBool true);
                   ("transcription", VStr "Hello, world.");
                   ("summary", VStr "greeting");
                   ("keyPoints", VList [VStr "greeting"]);
                   ("topics", VList [VStr "intro"]);
                   ("sentiment", VStr "neutral")])
  /\ (exists text,
         fst (VideoTranscriptionTool._run
                (exits 0 "" (mount Example.disk_AB)) Example.agent
                Example.request_text (boot []))
         = Return text
         /\ json.loads text
            = Return (VDict [("success", VBool true);
                             ("transcription", VStr "Hello, world.");
                             ("summary", VStr "greeting");
                             ("key_points", VList [VStr "greeting"]);
                             ("topics", VList [VStr "intro"]);
                             ("sentiment", VStr "neutral");
                             ("confidence", Example.nine_tenths);
                             ("output_files", VList [])])).
Proof.
  split; [vm_compute; reflexivity |].
  eexists; split; [vm_compute; reflexivity | vm_compute; reflexivity].
Qed.

(** * Further properties of the two agents *)

(** ** The calls made to the operating system *)

Lemma performs_ret {A : Type} (a : A) (P : event -> Prop) (Q : A -> Prop) :
  Q a -> performs (ret a) P Q.
Proof.
  intros Ha w; split.
  - exists []; split; [symmetry; apply app_nil_r | constructor].
  - intros a' H; injection H as <-; exact Ha.
Qed.

Lemma performs_raise {A : Type} (e : exn) (P : event -> Prop) (Q : A -> Prop) :
  performs (@raise A e) P Q.
Proof.
  intro w; split.
  - exists []; split; [symmetry; apply app_nil_r | constructor].
  - intros a H; discriminate H.
Qed.

Lemma performs_pure {A : Type} (c : M A) (P : event -> Prop) :
  pure c -> performs c P (fun _ => True).
Proof.
  intros [o Ho] w; rewrite Ho; split; [| trivial].
  exists []; split; [symmetry; apply app_nil_r | constructor].
Qed.

Lemma performs_bind {A B : Type} (c : M A) (k : A -> M B) (P : event -> Prop)
  (Q : A -> Prop) (R : B -> Prop) :
  performs c P Q ->
  (forall a, Q a -> performs (k a) P R) ->
  performs (bind c k) P R.
Proof.
  intros Hc Hk w; unfold bind.
  destruct (Hc w) as [[evs [Ht Hevs]] Hq].
  destruct (c w) as [[a | e] w1]; simpl in *.
  - destruct (Hk a (Hq a eq_refl) w1) as [[evs' [Ht' Hevs']] Hr].
    split; [| exact Hr].
    exists (evs ++ evs')%list; split.
    + rewrite Ht', Ht, app_assoc; reflexivity.
    + apply Forall_app; split; assumption.
  - split; [exists evs; split; assumption | intros b H; discriminate H].
Qed.

Lemma performs_weaken {A : Type} (c : M A) (P : event -> Prop) (Q Q' : A -> Prop) :
  performs c P Q -> (forall a, Q a -> Q' a) -> performs c P Q'.
Proof.
  intros Hc Hq w; destruct (Hc w) as [Ht Hr]; split; [exact Ht | auto].
Qed.

Lemma performs_event {A : Type} (ev : event) (f : filesystem -> outcome A)
  (P : event -> Prop) :
  P ev -> performs (fun w => (f (fs w), log ev w)) P (fun _ => True).
Proof.
  intros Hev w; split; [| trivial].
  exists [ev]; split; [reflexivity | constructor; [exact Hev | constructor]].
Qed.

Lemma performs_listdir (path : string) (P : event -> Prop) :
  P (Listdir path) -> performs (os.listdir path) P (fun _ => True).
Proof. intro H; exact (performs_event (Listdir path) (fun f => fs_listdir f path) P H). Qed.

Lemma performs_getctime (filename : string) (P : event -> Prop) :
  P (Getctime filename) -> performs (os.path.getctime filename) P (fun _ => True).
Proof.
  intro H; exact (performs_event (Getctime filename) (fun f => fs_getctime f filename) P H).
Qed.

Lemma performs_open (path : string) (P : event -> Prop) :
  P (Open path) -> performs (open_ path) P (fun _ => True).
Proof.
  intros H w; split; [| trivial].
  exists [Open path]; unfold open_; split.
  - destruct (fs_read (fs w) path); reflexivity.
  - constructor; [exact H | constructor].
Qed.

Lemma performs_max_loop {A : Type} (key : A -> M Z) (P : event -> Prop)
  (items : list A) :
  forall (all : list A) (maxitem : A) (maxval : Z),
    (forall x, In x items -> In x all) ->
    In maxitem all ->
    (forall x, In x all -> performs (key x) P (fun _ => True)) ->
    performs (max_loop key items maxitem maxval) P (fun x => In x all).
Proof.
  induction items as [| item rest IH]; intros all maxitem maxval Hsub Hmax Hkey; simpl.
  - apply performs_ret; exact Hmax.
  - apply (performs_bind _ _ P (fun _ => True)).
    + apply Hkey, Hsub; left; reflexivity.
    + assert (Hrest : forall x, In x rest -> In x all)
        by (intros x Hx; apply Hsub; right; exact Hx).
      intros val _; destruct (maxval <? val)%Z; apply IH; trivial.
      apply Hsub; left; reflexivity.
Qed.

(** [max] computes keys of the items only, and returns one of the items. *)
Lemma performs_max {A : Type} (items : list A) (key : A -> M Z) (P : event -> Prop) :
  (forall x, In x items -> performs (key x) P (fun _ => True)) ->
  performs (max_ items key) P (fun x => In x items).
Proof.
  intro Hkey; destruct items as [| item rest]; unfold max_.
  - apply performs_raise.
  - apply (performs_bind _ _ P (fun _ => True)).
    + apply Hkey; left; reflexivity.
    + intros val _.
      apply (performs_max_loop key P rest (item :: rest) item val).
      * intros x Hx; right; exact Hx.
      * left; reflexivity.
      * exact Hkey.
Qed.

Lemma performs_capability_load (filename : string) (P : event -> Prop) :
  P (Open filename) ->
  performs (VideoTranscriptionCapability.load_and_normalize filename) P (fun _ => True).
Proof.
  intro H; unfold VideoTranscriptionCapability.load_and_normalize.
  apply (performs_bind _ _ P (fun _ => True)); [apply performs_open, H | intros f _].
  apply (performs_bind _ _ P (fun _ => True)); [| intros data _].
  - apply performs_pure; exists (json.load f); reflexivity.
  - apply performs_pure, pure_capability_normalize.
Qed.

Lemma performs_tool_load (filename : string) (P : event -> Prop) :
  P (Open filename) ->
  performs (VideoTranscriptionTool.load_and_normalize filename) P (fun _ => True).
Proof.
  intro H; unfold VideoTranscriptionTool.load_and_normalize.
  apply (performs_bind _ _ P (fun _ => True)); [apply performs_open, H | intros f _].
  apply (performs_bind _ _ P (fun _ => True)); [| intros data _].
  - apply performs_pure; exists (json.load f); reflexivity.
  - apply (performs_bind _ _ P (fun _ => True)); [| intros r _; apply performs_ret; trivial].
    apply performs_pure, pure_tool_normalize.
Qed.

(** The search lists the output directory, stats files with the suffix and
    opens one of them; it makes no other call. *)
Lemma performs_locate_with {A : Type} (agent_path : string) (load : string -> M A) :
  (forall filename,
      examines agent_path (Open filename) ->
      performs (load filename) (examines agent_path) (fun _ => True)) ->
  performs (locate_with agent_path load) (examines agent_path) (fun _ => True).
Proof.
  intro Hload; unfold locate_with.
  fold (output_directory agent_path); fold suffix.
  apply (performs_bind _ _ _ (fun _ => True)).
  - apply performs_listdir; left; reflexivity.
  - intros names _; fold (matching names).
    destruct (truthy (VList (map VStr (matching names)))); [| apply performs_ret; trivial].
    apply (performs_bind _ _ _ (fun x => In x (matching names))).
    + apply performs_max; intros x Hx.
      apply performs_getctime; right; exists x; split; [| left; reflexivity].
      apply filter_In in Hx; apply Hx.
    + intros latest Hin.
      apply (performs_bind _ _ _ (fun _ => True)); [| intros r _; apply performs_ret; trivial].
      apply Hload; right; exists latest; split; [| right; reflexivity].
      apply filter_In in Hin; apply Hin.
Qed.

(** Once the arguments are strings, the [try] statement launches the
    process first and then makes the calls of the search only. *)
Lemma attempt_footprint {A : Type} (spawn : program) (agent_path : string)
  (cmd : list value) (locate : M (option A)) (failing : string -> A)
  (P : event -> Prop) (argv : list string) (w : world) :
  subprocess.fsencode_args cmd = Return argv ->
  performs locate P (fun _ => True) ->
  exists rest,
    trace (snd (attempt spawn agent_path cmd locate failing w))
    = (trace w ++ Spawn argv agent_path :: rest)%list
    /\ Forall P rest.
Proof.
  intros Hargs Hlocate; unfold attempt, try_except, bind, subprocess.run.
  rewrite Hargs.
  destruct (spawn argv agent_path (fs w)) as [[result | e] fs1].
  - destruct (returncode result =? 0)%Z.
    + destruct (Hlocate {| fs := fs1; trace := (trace w ++ [Spawn argv agent_path])%list |})
        as [[evs [Ht Hevs]] _].
      exists evs; split; [| exact Hevs].
      destruct (locate _) as [[[a |] | e] w2]; simpl in *;
        rewrite Ht, <- app_assoc; reflexivity.
    + exists []; split; [reflexivity | constructor].
  - exists []; split; [reflexivity | constructor].
Qed.

Lemma tool_command (agent_path video_path : string) (enhance : value)
  (output_format : string) :
  subprocess.fsencode_args
    (VideoTranscriptionTool.command agent_path (VStr video_path) enhance
       (VStr output_format))
  = Return (tool_argv agent_path video_path enhance output_format).
Proof.
  unfold VideoTranscriptionTool.command, tool_argv.
  destruct (truthy enhance); reflexivity.
Qed.

(** X1. Every call of either agent that reaches [subprocess.run] launches
    the process exactly once, first, with the working directory
    [agent_path] and the command line built from its arguments ([--enhance]
    last, when asked for).  Every other call it makes to the operating
    system is the listing of the output directory, or the stat or the
    opening of a file of that directory whose name ends with
    [_transcription.json]: it never launches a second process and never
    examines another file. *)
Theorem agents_only_examine_artifacts :
  (forall (spawn : program) (agent_path video_path : string) (enhance : bool)
          (w : world),
      exists rest,
        trace (snd (VideoTranscriptionCapability.transcribe_video
                      spawn agent_path video_path enhance w))
        = (trace w
             ++ Spawn (capability_argv agent_path video_path enhance) agent_path
             :: rest)%list
        /\ Forall (examines agent_path) rest)
  /\ (forall (spawn : program) (agent_path input_data : string) (w : world)
             (video_path output_format : string) (enhance : value),
         request input_data (VStr video_path) enhance (VStr output_format) ->
         exists rest,
           trace (snd (VideoTranscriptionTool._run spawn agent_path input_data w))
           = (trace w
                ++ Spawn (tool_argv agent_path video_path enhance output_format)
                     agent_path
                :: rest)%list
           /\ Forall (examines agent_path) rest).
Proof.
  split.
  - intros spawn agent_path video_path enhance w.
    rewrite capability_attempt.
    apply attempt_footprint; [apply capability_command |].
    apply performs_locate_with; intros filename H; apply performs_capability_load, H.
  - intros spawn agent_path input_data w video_path output_format enhance Hreq.
    rewrite (tool_attempt spawn agent_path input_data _ _ _ w Hreq).
    apply attempt_footprint; [apply tool_command |].
    apply performs_locate_with; intros filename H; apply performs_tool_load, H.
Qed.

Lemma agents_only_examine_artifacts_witness :
  (exists rest,
      trace (snd (VideoTranscriptionCapability.transcribe_video
                    (exits 0 "" (mount Example.disk_AB)) Example.agent "./meeting.mp4"
                    true (boot [])))
      = (trace (boot [])
           ++ Spawn (capability_argv Example.agent "./meeting.mp4" true) Example.agent
           :: rest)%list
      /\ Forall (examines Example.agent) rest)
  /\ (exists rest,
         trace (snd (VideoTranscriptionTool._run
                       (exits 0 "" (mount Example.disk_AB)) Example.agent
                       Example.request_text (boot [])))
         = (trace (boot [])
              ++ Spawn (tool_argv Example.agent "./meeting.mp4" (VBool true) "json")
                   Example.agent
              :: rest)%list
         /\ Forall (examines Example.agent) rest).
Proof.
  destruct agents_only_examine_artifacts as [Hcapability Htool]; split.
  - apply Hcapability.
  - apply Htool; exact example_request.
Defined.

(** ** The calls of a search that succeeds *)

Lemma world_eta (w : world) : {| fs := fs w; trace := trace w |} = w.
Proof. destruct w; reflexivity. Qed.

Lemma max_loop_world (dir : string) (ctime : string -> Z) (items : list string) :
  forall maxitem w,
    (forall f, In f items ->
       fs_getctime (fs w) (os.path.join dir f) = Return (ctime f)) ->
    max_loop (fun x => os.path.getctime (os.path.join dir x)) items
      maxitem (ctime maxitem) w
    = (Return (newest_loop ctime items maxitem),
       {| fs := fs w; trace := (trace w ++ stats dir items)%list |}).
Proof.
  induction items as [| item rest IH]; intros maxitem w Hstat; simpl.
  - unfold ret; rewrite app_nil_r, world_eta; reflexivity.
  - unfold bind at 1, os.path.getctime at 1.
    rewrite (Hstat item (or_introl eq_refl)).
    set (w1 := log (Getctime (os.path.join dir item)) w).
    assert (Hrest : forall f, In f rest ->
              fs_getctime (fs w1) (os.path.join dir f) = Return (ctime f))
      by (intros f Hf; apply Hstat; right; exact Hf).
    assert (Htrace : forall tail : list event,
               ((trace w ++ [Getctime (os.path.join dir item)]) ++ tail)%list
               = (trace w ++ Getctime (os.path.join dir item) :: tail)%list)
      by (intro tail; rewrite <- app_assoc; reflexivity).
    destruct (ctime maxitem <? ctime item)%Z; rewrite (IH _ w1 Hrest);
      unfold w1; simpl; rewrite Htrace; reflexivity.
Qed.

Lemma max_world (dir : string) (ctime : string -> Z) (items : list string)
  (latest : string) (w : world) :
  (forall f, In f items ->
     fs_getctime (fs w) (os.path.join dir f) = Return (ctime f)) ->
  newest ctime items = Some latest ->
  max_ items (fun x => os.path.getctime (os.path.join dir x)) w
  = (Return latest, {| fs := fs w; trace := (trace w ++ stats dir items)%list |}).
Proof.
  destruct items as [| item rest]; simpl; [discriminate |].
  intros Hstat E; injection E as <-.
  unfold bind, os.path.getctime at 1.
  rewrite (Hstat item (or_introl eq_refl)).
  rewrite (max_loop_world dir ctime rest item
             (log (Getctime (os.path.join dir item)) w)).
  - simpl; rewrite <- app_assoc; reflexivity.
  - intros f Hf; apply Hstat; right; exact Hf.
Qed.

Lemma capability_load_world (filename : string) (w : world) :
  snd (VideoTranscriptionCapability.load_and_normalize filename w)
  = log (Open filename) w.
Proof.
  unfold VideoTranscriptionCapability.load_and_normalize, bind, open_, lift.
  destruct (fs_read (fs w) filename) as [text | e]; [| reflexivity].
  destruct (json.load _) as [data | e]; [| reflexivity].
  rewrite (pure_run _ (log (Open filename) w) w (pure_capability_normalize data)).
  reflexivity.
Qed.

Lemma tool_load_world (filename : string) (w : world) :
  snd (VideoTranscriptionTool.load_and_normalize filename w) = log (Open filename) w.
Proof.
  unfold VideoTranscriptionTool.load_and_normalize, bind, open_, lift.
  destruct (fs_read (fs w) filename) as [text | e]; [| reflexivity].
  destruct (json.load _) as [data | e]; [| reflexivity].
  rewrite (pure_run _ (log (Open filename) w) w (pure_tool_normalize data)).
  destruct (fst _); reflexivity.
Qed.

Lemma conclude_world {A : Type} (failing : string -> A) (result : CompletedProcess)
  (r : outcome (option A) * world) :
  snd (conclude failing result r) = snd r.
Proof. destruct r as [[[a |] | e] w]; reflexivity. Qed.

Lemma locate_with_world {A : Type} (agent_path : string) (load : string -> M A)
  (w : world) (names : list string) (ctime : string -> Z) (latest : string) :
  (forall filename w0, snd (load filename w0) = log (Open filename) w0) ->
  fs_listdir (fs w) (output_directory agent_path) = Return names ->
  (forall f, In f (matching names) ->
     fs_getctime (fs w) (os.path.join (output_directory agent_path) f)
     = Return (ctime f)) ->
  newest ctime (matching names) = Some latest ->
  snd (locate_with agent_path load w)
  = {| fs := fs w;
       trace := (trace w
                   ++ Listdir (output_directory agent_path)
                   :: stats (output_directory agent_path) (matching names)
                   ++ [Open (os.path.join (output_directory agent_path) latest)])%list |}.
Proof.
  intros Hload Hls Hstat Hnew; unfold locate_with, os.listdir.
  fold (output_directory agent_path); fold suffix.
  unfold bind at 1; rewrite Hls; fold (matching names).
  assert (Hsome : truthy (VList (map VStr (matching names))) = true).
  { destruct (matching names); [discriminate Hnew | reflexivity]. }
  rewrite Hsome; unfold bind at 1.
  rewrite (max_world (output_directory agent_path) ctime (matching names) latest
             (log (Listdir (output_directory agent_path)) w) Hstat Hnew).
  unfold bind.
  match goal with
  | |- context [load ?p ?w0] =>
      pose proof (Hload p w0) as Hw; destruct (load p w0) as [[a | e] w']
  end; simpl in *; subst w'; unfold log; simpl;
    rewrite <- !app_assoc; reflexivity.
Qed.

(** X2. When the process has exited with status 0, the output directory
    can be listed and the creation time of every matching file can be
    read, the agent makes exactly these calls, in this order: the launch of
    the process, the listing of the directory, one stat of each matching
    file in listing order, and the opening of one file, the newest.  No
    other file is opened, whatever the outcome of the parsing. *)
Theorem search_opens_the_newest_file_only :
  (forall (spawn : program) (agent_path video_path : string) (enhance : bool)
          (w : world) (result : CompletedProcess) (fs1 : filesystem)
          (names : list string) (ctime : string -> Z) (latest : string),
      capability_completes spawn agent_path video_path enhance w result fs1 ->
      returncode result = 0%Z ->
      fs_listdir fs1 (output_directory agent_path) = Return names ->
      (forall f, In f (matching names) ->
         fs_getctime fs1 (os.path.join (output_directory agent_path) f)
         = Return (ctime f)) ->
      newest ctime (matching names) = Some latest ->
      trace (snd (VideoTranscriptionCapability.transcribe_video
                    spawn agent_path video_path enhance w))
      = (trace w
           ++ Spawn (capability_argv agent_path video_path enhance) agent_path
           :: Listdir (output_directory agent_path)
           :: stats (output_directory agent_path) (matching names)
           ++ [Open (os.path.join (output_directory agent_path) latest)])%list)
  /\ (forall (spawn : program) (agent_path input_data : string) (w : world)
             (argv : list string) (result : CompletedProcess) (fs1 : filesystem)
             (names : list string) (ctime : string -> Z) (latest : string),
         tool_completes spawn agent_path input_data w argv result fs1 ->
         returncode result = 0%Z ->
         fs_listdir fs1 (output_directory agent_path) = Return names ->
         (forall f, In f (matching names) ->
            fs_getctime fs1 (os.path.join (output_directory agent_path) f)
            = Return (ctime f)) ->
         newest ctime (matching names) = Some latest ->
         trace (snd (VideoTranscriptionTool._run spawn agent_path input_data w))
         = (trace w
              ++ Spawn argv agent_path
              :: Listdir (output_directory agent_path)
              :: stats (output_directory agent_path) (matching names)
              ++ [Open (os.path.join (output_directory agent_path) latest)])%list).
Proof.
  split.
  - intros spawn agent_path video_path enhance w result fs1 names ctime latest
      Hrun Hrc Hls Hstat Hnew.
    rewrite capability_attempt.
    rewrite (attempt_zero spawn agent_path _ _ failure_record w _ result fs1
               (capability_command agent_path video_path enhance) Hrun Hrc).
    rewrite conclude_world.
    rewrite (locate_with_world agent_path _ (after_spawn w _ agent_path fs1)
               names ctime latest capability_load_world Hls Hstat Hnew).
    simpl; rewrite <- app_assoc; reflexivity.
  - intros spawn agent_path input_data w argv result fs1 names ctime latest
      [vp [en [fmt [Hreq [Hargs Hrun]]]]] Hrc Hls Hstat Hnew.
    rewrite (tool_attempt spawn agent_path input_data vp en fmt w Hreq).
    rewrite (attempt_zero spawn agent_path _ _ failure_text w argv result fs1
               Hargs Hrun Hrc).
    rewrite conclude_world.
    rewrite (locate_with_world agent_path _ (after_spawn w argv agent_path fs1)
               names ctime latest tool_load_world Hls Hstat Hnew).
    simpl; rewrite <- app_assoc; reflexivity.
Qed.

Lemma example_stats_AB :
  forall f,
    In f (matching [Example.name_A; "notes.txt"; Example.name_B]) ->
    fs_getctime (mount Example.disk_AB)
      (os.path.join (output_directory Example.agent) f)
    = Return (Example.ctime_AB f).
Proof.
  intros f Hf; vm_compute in Hf; destruct Hf as [<- | [<- | []]]; reflexivity.
Qed.

Lemma search_opens_the_newest_file_only_witness :
  trace (snd (VideoTranscriptionCapability.transcribe_video
                (exits 0 "" (mount Example.disk_AB)) Example.agent "./meeting.mp4"
                true (boot [])))
  = [Spawn (capability_argv Example.agent "./meeting.mp4" true) Example.agent;
     Listdir "./video-transcribe/output";
     Getctime "./video-transcribe/output/20231231_xyz_transcription.json";
     Getctime "./video-transcribe/output/20240101_abc_transcription.json";
     Open "./video-transcribe/output/20240101_abc_transcription.json"]
  /\ trace (snd (VideoTranscriptionTool._run
                   (exits 0 "" (mount Example.disk_AB)) Example.agent
                   Example.request_text (boot [])))
     = [Spawn Example.tool_argv Example.agent;
        Listdir "./video-transcribe/output";
        Getctime "./video-transcribe/output/20231231_xyz_transcription.json";
        Getctime "./video-transcribe/output/20240101_abc_transcription.json";
        Open "./video-transcribe/output/20240101_abc_transcription.json"].
Proof.
  destruct search_opens_the_newest_file_only as [Hcapability Htool]; split.
  - apply (Hcapability (exits 0 "" (mount Example.disk_AB)) Example.agent
             "./meeting.mp4" true (boot []) (Example.process 0 "")
             (mount Example.disk_AB) [Example.name_A; "notes.txt"; Example.name_B]
             Example.ctime_AB Example.name_B eq_refl eq_refl eq_refl
             example_stats_AB eq_refl).
  - apply (Htool (exits 0 "" (mount Example.disk_AB)) Example.agent
             Example.request_text (boot []) Example.tool_argv (Example.process 0 "")
             (mount Example.disk_AB) [Example.name_A; "notes.txt"; Example.name_B]
             Example.ctime_AB Example.name_B
             (example_tool_completes 0 "" (mount Example.disk_AB))
             eq_refl eq_refl example_stats_AB eq_refl).
Defined.

(** ** Files of equal age *)

Lemma newest_loop_stays (ctime : string -> Z) (items : list string) (maxitem : string) :
  (forall f, In f items -> (ctime f <= ctime maxitem)%Z) ->
  newest_loop ctime items maxitem = maxitem.
Proof.
  induction items as [| item rest IH]; intro Hle; simpl; [reflexivity |].
  destruct (Z.ltb_spec (ctime maxitem) (ctime item)) as [Hlt | _].
  - specialize (Hle item (or_introl eq_refl)); lia.
  - apply IH; intros f Hf; apply Hle; right; exact Hf.
Qed.

Lemma newest_loop_first (ctime : string -> Z) (before after : list string) (x : string) :
  forall maxitem,
    (ctime maxitem < ctime x)%Z ->
    (forall f, In f before -> (ctime f < ctime x)%Z) ->
    (forall f, In f after -> (ctime f <= ctime x)%Z) ->
    newest_loop ctime (before ++ x :: after) maxitem = x.
Proof.
  induction before as [| item rest IH]; intros maxitem Hmax Hbefore Hafter; simpl.
  - destruct (Z.ltb_spec (ctime maxitem) (ctime x)) as [_ | Hge]; [| lia].
    apply newest_loop_stays, Hafter.
  - assert (Hrest : forall f, In f rest -> (ctime f < ctime x)%Z)
      by (intros f Hf; apply Hbefore; right; exact Hf).
    destruct (ctime maxitem <? ctime item)%Z; apply IH; trivial.
    apply Hbefore; left; reflexivity.
Qed.

(** Of the files with the greatest creation time, the first one listed
    is the newest. *)
Lemma newest_first (ctime : string -> Z) (before after : list string) (x : string) :
  (forall f, In f before -> (ctime f < ctime x)%Z) ->
  (forall f, In f after -> (ctime f <= ctime x)%Z) ->
  newest ctime (before ++ x :: after) = Some x.
Proof.
  intros Hbefore Hafter; destruct before as [| item rest]; simpl.
  - rewrite newest_loop_stays; [reflexivity | exact Hafter].
  - rewrite newest_loop_first; trivial.
    + apply Hbefore; left; reflexivity.
    + intros f Hf; apply Hbefore; right; exact Hf.
Qed.

(** X3. When several matching files share the greatest creation time,
    the agent returns the content of the one the directory listing gives
    first.  A matching file wins when every matching file listed before it
    is strictly older and no matching file listed after it is newer: when
    that file holds a valid artifact, the result is the record made of this
    artifact, with its text as transcription. *)
Theorem first_listed_wins_a_tie :
  (forall (spawn : program) (agent_path video_path : string) (enhance : bool)
          (w : world) (result : CompletedProcess) (fs1 : filesystem)
          (names before after : list string) (ctime : string -> Z) (x text : string)
          (d : list (string * value)),
      capability_completes spawn agent_path video_path enhance w result fs1 ->
      returncode result = 0%Z ->
      fs_listdir fs1 (output_directory agent_path) = Return names ->
      (forall f, In f (matching names) ->
         fs_getctime fs1 (os.path.join (output_directory agent_path) f)
         = Return (ctime f)) ->
      matching names = (before ++ x :: after)%list ->
      (forall f, In f before -> (ctime f < ctime x)%Z) ->
      (forall f, In f after -> (ctime f <= ctime x)%Z) ->
      fs_read fs1 (os.path.join (output_directory agent_path) x) = Return text ->
      json.loads text = Return (VDict d) ->
      valid_artifact (VDict d) = true ->
      exists e s,
        section_of d "enhancement" e
        /\ transcript (VDict d) = Some s
        /\ fst (VideoTranscriptionCapability.transcribe_video
                  spawn agent_path video_path enhance w)
           = Return (capability_record e (VStr s)))
  /\ (forall (spawn : program) (agent_path input_data : string) (w : world)
             (argv : list string) (result : CompletedProcess) (fs1 : filesystem)
             (names before after : list string) (ctime : string -> Z)
             (x text : string) (d : list (string * value)),
         tool_completes spawn agent_path input_data w argv result fs1 ->
         returncode result = 0%Z ->
         fs_listdir fs1 (output_directory agent_path) = Return names ->
         (forall f, In f (matching names) ->
            fs_getctime fs1 (os.path.join (output_directory agent_path) f)
            = Return (ctime f)) ->
         matching names = (before ++ x :: after)%list ->
         (forall f, In f before -> (ctime f < ctime x)%Z) ->
         (forall f, In f after -> (ctime f <= ctime x)%Z) ->
         fs_read fs1 (os.path.join (output_directory agent_path) x) = Return text ->
         json.loads text = Return (VDict d) ->
         valid_artifact (VDict d) = true ->
         exists e t m o s,
           section_of d "enhancement" e
           /\ section_of d "transcription" t
           /\ section_of d "metadata" m
           /\ section_of m "processingOptions" o
           /\ transcript (VDict d) = Some s
           /\ field (tool_record e t o) "transcription" = Some (VStr s)
           /\ fst (VideoTranscriptionTool._run spawn agent_path input_data w)
              = Return (json.dumps (tool_record e t o) (Some 2%nat))).
Proof.
  split.
  - intros spawn agent_path video_path enhance w result fs1 names before after ctime x
      text d Hrun Hrc Hls Hstat Hsplit Hbefore Hafter Hread Hparse Hvalid.
    destruct (capability_valid_record d Hvalid) as (e & s & He & Hs & Hnorm).
    exists e, s; split; [exact He | split; [exact Hs |]].
    rewrite (capability_artifact_result spawn agent_path video_path enhance w result fs1
               (VDict d) w Hrun Hrc).
    + rewrite Hnorm; reflexivity.
    + exists x, text; split; [| auto].
      exists names, ctime; split; [exact Hls | split; [exact Hstat |]].
      rewrite Hsplit; apply newest_first; assumption.
  - intros spawn agent_path input_data w argv result fs1 names before after ctime x
      text d Hrun Hrc Hls Hstat Hsplit Hbefore Hafter Hread Hparse Hvalid.
    destruct (tool_valid_record d Hvalid)
      as (e & t & m & o & s & He & Ht & Hm & Ho & Hs & Hfield & Hnorm).
    exists e, t, m, o, s.
    split; [exact He | split; [exact Ht | split; [exact Hm | split; [exact Ho |]]]].
    split; [exact Hs | split; [exact Hfield |]].
    rewrite (tool_artifact_result spawn agent_path input_data w argv result fs1
               (VDict d) w Hrun Hrc).
    + rewrite Hnorm; reflexivity.
    + exists x, text; split; [| auto].
      exists names, ctime; split; [exact Hls | split; [exact Hstat |]].
      rewrite Hsplit; apply newest_first; assumption.
Qed.

Lemma example_decodes_A :
  json.loads (json.dumps Example.artifact_A None) = Return Example.artifact_A.
Proof. vm_compute; reflexivity. Qed.

Lemma first_listed_wins_a_tie_witness :
  fst (VideoTranscriptionCapability.transcribe_video
         (exits 0 "" (mount Edge.disk_tie)) Example.agent "./meeting.mp4" true (boot []))
  = Return (VDict [("success", VBool true);
                   ("transcription", VStr "first recording");
                   ("summary", VNone);
                   ("keyPoints", VList []);
                   ("topics", VList []);
                   ("sentiment", VNone)])
  /\ fst (VideoTranscriptionTool._run
            (exits 0 "" (mount Edge.disk_tie)) Example.agent Example.request_text
            (boot []))
     = Return (json.dumps
                 (VDict [("success", VBool true);
                         ("transcription", VStr "first recording");
                         ("summary", VStr "");
                         ("key_points", VList []);
                         ("topics", VList []);
                         ("sentiment", VStr "neutral");
                         ("confidence", Example.nine_tenths);
                         ("output_files", VList [])])
                 (Some 2%nat)).
Proof.
  destruct first_listed_wins_a_tie as [Hcapability Htool].
  assert (Hstat : forall f,
             In f (matching [Example.name_A; Example.name_B]) ->
             fs_getctime (mount Edge.disk_tie)
               (os.path.join (output_directory Example.agent) f)
             = Return ((fun _ => 2%Z) f)).
  { intros f Hf; vm_compute in Hf; destruct Hf as [<- | [<- | []]]; reflexivity. }
  assert (Hbefore : forall f : string, In f [] -> (2 < 2)%Z) by (intros f []).
  assert (Hafter : forall f, In f [Example.name_B] -> (2 <= 2)%Z) by (intros; lia).
  split.
  - destruct (Hcapability (exits 0 "" (mount Edge.disk_tie)) Example.agent
                "./meeting.mp4" true (boot []) (Example.process 0 "")
                (mount Edge.disk_tie) [Example.name_A; Example.name_B] []
                [Example.name_B] (fun _ => 2%Z) Example.name_A
                (json.dumps Example.artifact_A None) _
                eq_refl eq_refl eq_refl Hstat eq_refl Hbefore Hafter
                eq_refl example_decodes_A eq_refl) as (e & s & He & Hs & E).
    vm_compute in He; injection He as <-.
    vm_compute in Hs; injection Hs as <-.
    exact E.
  - destruct (Htool (exits 0 "" (mount Edge.disk_tie)) Example.agent
                Example.request_text (boot []) Example.tool_argv (Example.process 0 "")
                (mount Edge.disk_tie) [Example.name_A; Example.name_B] []
                [Example.name_B] (fun _ => 2%Z) Example.name_A
                (json.dumps Example.artifact_A None) _
                (example_tool_completes 0 "" (mount Edge.disk_tie))
                eq_refl eq_refl Hstat eq_refl Hbefore Hafter
                eq_refl example_decodes_A eq_refl)
      as (e & t & m & o & s & He & Ht & Hm & Ho & Hs & _ & E).
    vm_compute in He; injection He as <-.
    vm_compute in Ht; injection Ht as <-.
    vm_compute in Hm; injection Hm as <-.
    vm_compute in Ho; injection Ho as <-.
    exact E.
Defined.

(** ** Files that cannot be examined *)

Lemma max_loop_raises (dir : string) (ctime : string -> Z) (before after : list string)
  (f : string) (e : exn) :
  forall maxitem maxval w,
    (forall g, In g before ->
       fs_getctime (fs w) (os.path.join dir g) = Return (ctime g)) ->
    fs_getctime (fs w) (os.path.join dir f) = Raise e ->
    fst (max_loop (fun x => os.path.getctime (os.path.join dir x))
           (before ++ f :: after) maxitem maxval w)
    = Raise e.
Proof.
  induction before as [| item rest IH]; intros maxitem maxval w Hstat Hraise; simpl.
  - unfold bind, os.path.getctime at 1; rewrite Hraise; reflexivity.
  - unfold bind at 1, os.path.getctime at 1.
    rewrite (Hstat item (or_introl eq_refl)).
    assert (Hrest : forall g, In g rest ->
              fs_getctime (fs (log (Getctime (os.path.join dir item)) w))
                (os.path.join dir g) = Return (ctime g))
      by (intros g Hg; apply Hstat; right; exact Hg).
    destruct (maxval <? ctime item)%Z; apply IH; assumption.
Qed.

Lemma max_raises (dir : string) (ctime : string -> Z) (before after : list string)
  (f : string) (e : exn) (w : world) :
  (forall g, In g before ->
     fs_getctime (fs w) (os.path.join dir g) = Return (ctime g)) ->
  fs_getctime (fs w) (os.path.join dir f) = Raise e ->
  fst (max_ (before ++ f :: after) (fun x => os.path.getctime (os.path.join dir x)) w)
  = Raise e.
Proof.
  intros Hstat Hraise; destruct before as [| item rest]; simpl.
  - unfold bind, os.path.getctime at 1; rewrite Hraise; reflexivity.
  - unfold bind at 1, os.path.getctime at 1.
    rewrite (Hstat item (or_introl eq_refl)).
    apply (max_loop_raises dir ctime rest after f e); [| exact Hraise].
    intros g Hg; apply Hstat; right; exact Hg.
Qed.

Lemma locate_with_stat_raises {A : Type} (agent_path : string) (load : string -> M A)
  (w : world) (names before after : list string) (ctime : string -> Z)
  (f : string) (e : exn) :
  fs_listdir (fs w) (output_directory agent_path) = Return names ->
  matching names = (before ++ f :: after)%list ->
  (forall g, In g before ->
     fs_getctime (fs w) (os.path.join (output_directory agent_path) g)
     = Return (ctime g)) ->
  fs_getctime (fs w) (os.path.join (output_directory agent_path) f) = Raise e ->
  fst (locate_with agent_path load w) = Raise e.
Proof.
  intros Hls Hsplit Hstat Hraise; unfold locate_with, os.listdir.
  fold (output_directory agent_path); fold suffix.
  unfold bind at 1; rewrite Hls; fold (matching names); rewrite Hsplit.
  assert (Hsome : truthy (VList (map VStr (before ++ f :: after))) = true)
    by (destruct before; reflexivity).
  rewrite Hsome; unfold bind at 1.
  pose proof (max_raises (output_directory agent_path) ctime before after f e
                (log (Listdir (output_directory agent_path)) w) Hstat Hraise) as Hmax.
  destruct (max_ _ _ _) as [o w']; simpl in Hmax; subst o; reflexivity.
Qed.

Lemma conclude_raise {A : Type} (failing : string -> A) (result : CompletedProcess)
  (r : outcome (option A) * world) (e : exn) :
  fst r = Raise e -> fst (conclude failing result r) = Return (failing (str_of_exn e)).
Proof. destruct r as [o w]; simpl; intros ->; reflexivity. Qed.

(** X4. One matching file whose creation time cannot be read fails the
    whole call, whatever the other files are: when the stat of a matching
    file raises (the file has vanished since the listing, say) and the
    files listed before it could be examined, the agent returns the failure
    record with the text of that exception. *)
Theorem unreadable_creation_time_fails_the_call :
  (forall (spawn : program) (agent_path video_path : string) (enhance : bool)
          (w : world) (result : CompletedProcess) (fs1 : filesystem)
          (names before after : list string) (ctime : string -> Z) (f : string)
          (e : exn),
      capability_completes spawn agent_path video_path enhance w result fs1 ->
      returncode result = 0%Z ->
      fs_listdir fs1 (output_directory agent_path) = Return names ->
      matching names = (before ++ f :: after)%list ->
      (forall g, In g before ->
         fs_getctime fs1 (os.path.join (output_directory agent_path) g)
         = Return (ctime g)) ->
      fs_getctime fs1 (os.path.join (output_directory agent_path) f) = Raise e ->
      fst (VideoTranscriptionCapability.transcribe_video
             spawn agent_path video_path enhance w)
      = Return (failure_record (str_of_exn e)))
  /\ (forall (spawn : program) (agent_path input_data : string) (w : world)
             (argv : list string) (result : CompletedProcess) (fs1 : filesystem)
             (names before after : list string) (ctime : string -> Z) (f : string)
             (e : exn),
         tool_completes spawn agent_path input_data w argv result fs1 ->
         returncode result = 0%Z ->
         fs_listdir fs1 (output_directory agent_path) = Return names ->
         matching names = (before ++ f :: after)%list ->
         (forall g, In g before ->
            fs_getctime fs1 (os.path.join (output_directory agent_path) g)
            = Return (ctime g)) ->
         fs_getctime fs1 (os.path.join (output_directory agent_path) f) = Raise e ->
         fst (VideoTranscriptionTool._run spawn agent_path input_data w)
         = Return (failure_text (str_of_exn e))).
Proof.
  split.
  - intros spawn agent_path video_path enhance w result fs1 names before after ctime f e
      Hrun Hrc Hls Hsplit Hstat Hraise.
    rewrite capability_attempt.
    rewrite (attempt_zero spawn agent_path _ _ failure_record w _ result fs1
               (capability_command agent_path video_path enhance) Hrun Hrc).
    apply conclude_raise.
    apply (locate_with_stat_raises agent_path _ (after_spawn w _ agent_path fs1)
             names before after ctime f e Hls Hsplit Hstat Hraise).
  - intros spawn agent_path input_data w argv result fs1 names before after ctime f e
      [vp [en [fmt [Hreq [Hargs Hrun]]]]] Hrc Hls Hsplit Hstat Hraise.
    rewrite (tool_attempt spawn agent_path input_data vp en fmt w Hreq).
    rewrite (attempt_zero spawn agent_path _ _ failure_text w argv result fs1
               Hargs Hrun Hrc).
    apply conclude_raise.
    apply (locate_with_stat_raises agent_path _ (after_spawn w argv agent_path fs1)
             names before after ctime f e Hls Hsplit Hstat Hraise).
Qed.

Lemma unreadable_creation_time_fails_the_call_witness :
  fst (VideoTranscriptionCapability.transcribe_video
         (exits 0 "" (mount Edge.disk_ghost)) Example.agent "./meeting.mp4" true
         (boot []))
  = Return (failure_record
              "[Errno 2] No such file or directory: './video-transcribe/output/ghost_transcription.json'")
  /\ fst (VideoTranscriptionTool._run
            (exits 0 "" (mount Edge.disk_ghost)) Example.agent Example.request_text
            (boot []))
     = Return (failure_text
                 "[Errno 2] No such file or directory: './video-transcribe/output/ghost_transcription.json'").
Proof.
  destruct unreadable_creation_time_fails_the_call as [Hcapability Htool].
  assert (Hstat : forall g,
             In g [Example.name_B] ->
             fs_getctime (mount Edge.disk_ghost)
               (os.path.join (output_directory Example.agent) g)
             = Return ((fun _ => 2%Z) g)).
  { intros g [<- | []]; reflexivity. }
  split.
  - apply (Hcapability (exits 0 "" (mount Edge.disk_ghost)) Example.agent
             "./meeting.mp4" true (boot []) (Example.process 0 "")
             (mount Edge.disk_ghost) [Example.name_B; Edge.name_ghost]
             [Example.name_B] [] (fun _ => 2%Z) Edge.name_ghost
             (OSError "FileNotFoundError" "2" "No such file or directory"
                "./video-transcribe/output/ghost_transcription.json")
             eq_refl eq_refl eq_refl eq_refl Hstat eq_refl).
  - apply (Htool (exits 0 "" (mount Edge.disk_ghost)) Example.agent
             Example.request_text (boot []) Example.tool_argv (Example.process 0 "")
             (mount Edge.disk_ghost) [Example.name_B; Edge.name_ghost]
             [Example.name_B] [] (fun _ => 2%Z) Edge.name_ghost
             (OSError "FileNotFoundError" "2" "No such file or directory"
                "./video-transcribe/output/ghost_transcription.json")
             (example_tool_completes 0 "" (mount Edge.disk_ghost))
             eq_refl eq_refl eq_refl Hstat eq_refl).
Defined.

(** X5. When the selected file cannot be opened or read as text (it is
    a directory, it is not readable, its bytes do not decode), the agent
    returns the failure record with the text of that exception. *)
Theorem unreadable_artifact_fails_the_call :
  (forall (spawn : program) (agent_path video_path : string) (enhance : bool)
          (w : world) (result : CompletedProcess) (fs1 : filesystem)
          (latest : string) (e : exn),
      capability_completes spawn agent_path video_path enhance w result fs1 ->
      returncode result = 0%Z ->
      selected agent_path fs1 latest ->
      fs_read fs1 (os.path.join (output_directory agent_path) latest) = Raise e ->
      fst (VideoTranscriptionCapability.transcribe_video
             spawn agent_path video_path enhance w)
      = Return (failure_record (str_of_exn e)))
  /\ (forall (spawn : program) (agent_path input_data : string) (w : world)
             (argv : list string) (result : CompletedProcess) (fs1 : filesystem)
             (latest : string) (e : exn),
         tool_completes spawn agent_path input_data w argv result fs1 ->
         returncode result = 0%Z ->
         selected agent_path fs1 latest ->
         fs_read fs1 (os.path.join (output_directory agent_path) latest) = Raise e ->
         fst (VideoTranscriptionTool._run spawn agent_path input_data w)
         = Return (failure_text (str_of_exn e))).
Proof.
  split.
  - intros spawn agent_path video_path enhance w result fs1 latest e
      Hrun Hrc Hsel Hread.
    rewrite capability_attempt.
    rewrite (attempt_selected spawn agent_path _ _ failure_record w _ result fs1 latest
               reads_capability_load
               (capability_command agent_path video_path enhance) Hrun Hrc Hsel).
    unfold loaded.
    rewrite (capability_load_unreadable _ {| fs := fs1; trace := [] |} e Hread).
    reflexivity.
  - intros spawn agent_path input_data w argv result fs1 latest e
      [vp [en [fmt [Hreq [Hargs Hrun]]]]] Hrc Hsel Hread.
    rewrite (tool_attempt spawn agent_path input_data vp en fmt w Hreq).
    rewrite (attempt_selected spawn agent_path _ _ failure_text w argv result fs1 latest
               reads_tool_load Hargs Hrun Hrc Hsel).
    unfold loaded.
    rewrite (tool_load_unreadable _ {| fs := fs1; trace := [] |} e Hread).
    reflexivity.
Qed.

Lemma example_selected_directory :
  selected Example.agent (mount Edge.disk_directory) Example.name_B.
Proof.
  exists [Example.name_B], (fun _ => 2%Z); split; [reflexivity | split].
  - intros f Hf; vm_compute in Hf; destruct Hf as [<- | []]; reflexivity.
  - reflexivity.
Qed.

Lemma unreadable_artifact_fails_the_call_witness :
  fst (VideoTranscriptionCapability.transcribe_video
         (exits 0 "" (mount Edge.disk_directory)) Example.agent "./meeting.mp4" true
         (boot []))
  = Return (failure_record
              "[Errno 21] Is a directory: './video-transcribe/output/20240101_abc_transcription.json'")
  /\ fst (VideoTranscriptionTool._run
            (exits 0 "" (mount Edge.disk_directory)) Example.agent
            Example.request_text (boot []))
     = Return (failure_text
                 "[Errno 21] Is a directory: './video-transcribe/output/20240101_abc_transcription.json'").
Proof.
  destruct unreadable_artifact_fails_the_call as [Hcapability Htool]; split.
  - apply (Hcapability (exits 0 "" (mount Edge.disk_directory)) Example.agent
             "./meeting.mp4" true (boot []) (Example.process 0 "")
             (mount Edge.disk_directory) Example.name_B
             (OSError "IsADirectoryError" "21" "Is a directory"
                "./video-transcribe/output/20240101_abc_transcription.json")
             eq_refl eq_refl example_selected_directory eq_refl).
  - apply (Htool (exits 0 "" (mount Edge.disk_directory)) Example.agent
             Example.request_text (boot []) Example.tool_argv (Example.process 0 "")
             (mount Edge.disk_directory) Example.name_B
             (OSError "IsADirectoryError" "21" "Is a directory"
                "./video-transcribe/output/20240101_abc_transcription.json")
             (example_tool_completes 0 "" (mount Edge.disk_directory))
             eq_refl example_selected_directory eq_refl).
Defined.

(** ** A process that cannot be started *)

(** X6. When the launch of the process raises (the [node] executable is
    not installed, say), the agent returns the failure record with the text
    of that exception, and does not look at the output directory: the
    launch is the only call it has made. *)
Theorem launch_failure_is_reported :
  (forall (spawn : program) (agent_path video_path : string) (enhance : bool)
          (w : world) (e : exn) (fs1 : filesystem),
      spawn (capability_argv agent_path video_path enhance) agent_path (fs w)
      = (Raise e, fs1) ->
      VideoTranscriptionCapability.transcribe_video spawn agent_path video_path enhance w
      = (Return (failure_record (str_of_exn e)),
         {| fs := fs1;
            trace := (trace w
                        ++ [Spawn (capability_argv agent_path video_path enhance)
                              agent_path])%list |}))
  /\ (forall (spawn : program) (agent_path input_data : string) (w : world)
             (video_path output_format : string) (enhance : value)
             (e : exn) (fs1 : filesystem),
         request input_data (VStr video_path) enhance (VStr output_format) ->
         spawn (tool_argv agent_path video_path enhance output_format) agent_path (fs w)
         = (Raise e, fs1) ->
         VideoTranscriptionTool._run spawn agent_path input_data w
         = (Return (failure_text (str_of_exn e)),
            {| fs := fs1;
               trace := (trace w
                           ++ [Spawn (tool_argv agent_path video_path enhance
                                        output_format) agent_path])%list |})).
Proof.
  split.
  - intros spawn agent_path video_path enhance w e fs1 Hrun.
    rewrite capability_attempt.
    apply (attempt_not_launched spawn agent_path _ _ failure_record w _ e fs1
             (capability_command agent_path video_path enhance) Hrun).
  - intros spawn agent_path input_data w video_path output_format enhance e fs1
      Hreq Hrun.
    rewrite (tool_attempt spawn agent_path input_data _ _ _ w Hreq).
    apply (attempt_not_launched spawn agent_path _ _ failure_text w _ e fs1
             (tool_command agent_path video_path enhance output_format) Hrun).
Qed.

Lemma launch_failure_is_reported_witness :
  VideoTranscriptionCapability.transcribe_video
    (cannot_start Edge.node_missing) Example.agent "./meeting.mp4" true
    (boot Example.disk_AB)
  = (Return (failure_record "[Errno 2] No such file or directory: 'node'"),
     {| fs := mount Example.disk_AB;
        trace := [Spawn (capability_argv Example.agent "./meeting.mp4" true)
                    Example.agent] |})
  /\ VideoTranscriptionTool._run
       (cannot_start Edge.node_missing) Example.agent Example.request_text
       (boot Example.disk_AB)
     = (Return (failure_text "[Errno 2] No such file or directory: 'node'"),
        {| fs := mount Example.disk_AB;
           trace := [Spawn (tool_argv Example.agent "./meeting.mp4" (VBool true) "json")
                       Example.agent] |}).
Proof.
  destruct launch_failure_is_reported as [Hcapability Htool]; split.
  - apply (Hcapability (cannot_start Edge.node_missing) Example.agent "./meeting.mp4"
             true (boot Example.disk_AB) Edge.node_missing (mount Example.disk_AB)
             eq_refl).
  - apply (Htool (cannot_start Edge.node_missing) Example.agent Example.request_text
             (boot Example.disk_AB) "./meeting.mp4" "json" (VBool true)
             Edge.node_missing (mount Example.disk_AB) example_request eq_refl).
Defined.

(** ** Inputs [_run] rejects *)




(** ** The result does not depend on the video *)

(** X8. After an exit with status 0 the record returned is determined by
    the output directory alone.  Two calls, for different videos and with
    different options, that find the directory in the same state return the
    same record: the agent does not check that the artifact it selects was
    written for the video it was asked about. *)
Theorem result_depends_on_the_directory_only :
  (forall (spawn1 spawn2 : program) (agent_path video1 video2 : string)
          (enhance1 enhance2 : bool) (w1 w2 : world)
          (result1 result2 : CompletedProcess) (fs1 : filesystem) (latest : string),
      capability_completes spawn1 agent_path video1 enhance1 w1 result1 fs1 ->
      capability_completes spawn2 agent_path video2 enhance2 w2 result2 fs1 ->
      returncode result1 = 0%Z ->
      returncode result2 = 0%Z ->
      selected agent_path fs1 latest ->
      fst (VideoTranscriptionCapability.transcribe_video
             spawn1 agent_path video1 enhance1 w1)
      = fst (VideoTranscriptionCapability.transcribe_video
               spawn2 agent_path video2 enhance2 w2))
  /\ (forall (spawn1 spawn2 : program) (agent_path input1 input2 : string)
             (w1 w2 : world) (argv1 argv2 : list string)
             (result1 result2 : CompletedProcess) (fs1 : filesystem) (latest : string),
         tool_completes spawn1 agent_path input1 w1 argv1 result1 fs1 ->
         tool_completes spawn2 agent_path input2 w2 argv2 result2 fs1 ->
         returncode result1 = 0%Z ->
         returncode result2 = 0%Z ->
         selected agent_path fs1 latest ->
         fst (VideoTranscriptionTool._run spawn1 agent_path input1 w1)
         = fst (VideoTranscriptionTool._run spawn2 agent_path input2 w2)).
Proof.
  split.
  - intros spawn1 spawn2 agent_path video1 video2 enhance1 enhance2 w1 w2
      result1 result2 fs1 latest Hrun1 Hrun2 Hrc1 Hrc2 Hsel.
    rewrite !capability_attempt.
    rewrite (attempt_selected spawn1 agent_path _ _ failure_record w1 _ result1 fs1
               latest reads_capability_load
               (capability_command agent_path video1 enhance1) Hrun1 Hrc1 Hsel).
    rewrite (attempt_selected spawn2 agent_path _ _ failure_record w2 _ result2 fs1
               latest reads_capability_load
               (capability_command agent_path video2 enhance2) Hrun2 Hrc2 Hsel).
    reflexivity.
  - intros spawn1 spawn2 agent_path input1 input2 w1 w2 argv1 argv2
      result1 result2 fs1 latest
      [vp1 [en1 [fmt1 [Hreq1 [Hargs1 Hrun1]]]]]
      [vp2 [en2 [fmt2 [Hreq2 [Hargs2 Hrun2]]]]] Hrc1 Hrc2 Hsel.
    rewrite (tool_attempt spawn1 agent_path input1 vp1 en1 fmt1 w1 Hreq1).
    rewrite (tool_attempt spawn2 agent_path input2 vp2 en2 fmt2 w2 Hreq2).
    rewrite (attempt_selected spawn1 agent_path _ _ failure_text w1 argv1 result1 fs1
               latest reads_tool_load Hargs1 Hrun1 Hrc1 Hsel).
    rewrite (attempt_selected spawn2 agent_path _ _ failure_text w2 argv2 result2 fs1
               latest reads_tool_load Hargs2 Hrun2 Hrc2 Hsel).
    reflexivity.
Qed.

Lemma result_depends_on_the_directory_only_witness :
  fst (VideoTranscriptionCapability.transcribe_video
         (exits 0 "" (mount Example.disk_AB)) Example.agent "./meeting.mp4" true
         (boot []))
  = fst (VideoTranscriptionCapability.transcribe_video
           (exits 0 "done" (mount Example.disk_AB)) Example.agent "./interview.mp4"
           false (boot Example.disk_AB))
  /\ fst (VideoTranscriptionTool._run
            (exits 0 "" (mount Example.disk_AB)) Example.agent Example.request_text
            (boot []))
     = fst (VideoTranscriptionTool._run
              (exits 0 "done" (mount Example.disk_AB)) Example.agent
              (json.dumps (VDict [("video_path", VStr "./interview.mp4");
                                  ("enhance", VBool false)]) None)
              (boot Example.disk_AB)).
Proof.
  destruct result_depends_on_the_directory_only as [Hcapability Htool]; split.
  - apply (Hcapability (exits 0 "" (mount Example.disk_AB))
             (exits 0 "done" (mount Example.disk_AB)) Example.agent
             "./meeting.mp4" "./interview.mp4" true false (boot [])
             (boot Example.disk_AB) (Example.process 0 "") (Example.process 0 "done")
             (mount Example.disk_AB) Example.name_B
             eq_refl eq_refl eq_refl eq_refl example_selected_B).
  - apply (Htool (exits 0 "" (mount Example.disk_AB))
             (exits 0 "done" (mount Example.disk_AB)) Example.agent
             Example.request_text
             (json.dumps (VDict [("video_path", VStr "./interview.mp4");
                                 ("enhance", VBool false)]) None)
             (boot []) (boot Example.disk_AB) Example.tool_argv
             (tool_argv Example.agent "./interview.mp4" (VBool false) "json")
             (Example.process 0 "") (Example.process 0 "done")
             (mount Example.disk_AB) Example.name_B
             (example_tool_completes 0 "" (mount Example.disk_AB)));
      [| reflexivity | reflexivity | exact example_selected_B].
    exists (VStr "./interview.mp4"), (VBool false), (VStr "json").
    split; [| split; reflexivity].
    exists [("video_path", VStr "./interview.mp4"); ("enhance", VBool false)];
      repeat split; reflexivity.
Defined.

(** ** When success is reported *)

Lemma locate_with_inv {A : Type} (agent_path : string) (load : string -> M A)
  (w w' : world) (a : A) :
  locate_with agent_path load w = (Return (Some a), w') ->
  exists names latest w0,
    fs_listdir (fs w) (output_directory agent_path) = Return names
    /\ In latest (matching names)
    /\ fs w0 = fs w
    /\ load (os.path.join (output_directory agent_path) latest) w0 = (Return a, w').
Proof.
  unfold locate_with; fold (output_directory agent_path); fold suffix.
  intro H; apply bind_inv in H as (names & wa & Hls & H).
  unfold os.listdir in Hls; injection Hls as Hls <-.
  fold (matching names) in H.
  destruct (truthy (VList (map VStr (matching names)))); [| discriminate H].
  apply bind_inv in H as (latest & wb & Hmax & H).
  apply bind_inv in H as (r & wc & Hload & H).
  unfold ret in H; injection H as <- <-.
  exists names, latest, wb; split; [exact Hls | split; [| split; [| exact Hload]]].
  - destruct (performs_max (matching names)
                (fun x => os.path.getctime (os.path.join (output_directory agent_path) x))
                (fun _ => True)
                (fun x _ => performs_getctime _ (fun _ => True) I)
                (log (Listdir (output_directory agent_path)) w)) as [_ Hin].
    apply Hin; rewrite Hmax; reflexivity.
  - destruct (reads_max (matching names)
                (fun x => os.path.getctime (os.path.join (output_directory agent_path) x))
                (fun x => reads_getctime _)
                (log (Listdir (output_directory agent_path)) w)
                (log (Listdir (output_directory agent_path)) w) eq_refl) as [_ Hfs].
    rewrite Hmax in Hfs; exact Hfs.
Qed.

(** The results of the [try] statement, with what a result that is not a
    failure rests on. *)
Lemma attempt_success_cases {A : Type} (spawn : program) (agent_path : string)
  (cmd : list value) (load : string -> M A) (failing : string -> A)
  (argv : list string) (w : world) :
  subprocess.fsencode_args cmd = Return argv ->
  exists a w',
    attempt spawn agent_path cmd (locate_with agent_path load) failing w = (Return a, w')
    /\ ((exists msg, a = failing msg)
        \/ (exists result fs1 names latest w0,
               spawn argv agent_path (fs w) = (Return result, fs1)
               /\ returncode result = 0%Z
               /\ fs_listdir fs1 (output_directory agent_path) = Return names
               /\ In latest (matching names)
               /\ fs w0 = fs1
               /\ load (os.path.join (output_directory agent_path) latest) w0
                  = (Return a, w'))).
Proof.
  intro Hargs; unfold attempt, try_except, bind, subprocess.run; rewrite Hargs.
  destruct (spawn argv agent_path (fs w)) as [[result | e] fs1] eqn:Hspawn.
  - destruct (Z.eqb_spec (returncode result) 0) as [Hrc | Hrc].
    + destruct (locate_with agent_path load _) as [[[a |] | e] w2] eqn:Hl.
      * exists a, w2; split; [reflexivity | right].
        destruct (locate_with_inv _ _ _ _ _ Hl)
          as (names & latest & w0 & Hls & Hin & Hfs & Hload).
        exists result, fs1, names, latest, w0; auto 10.
      * eexists _, w2; split; [reflexivity | left; eexists; reflexivity].
      * eexists _, w2; split; [reflexivity | left; eexists; reflexivity].
    + eexists _, _; split; [reflexivity | left; eexists; reflexivity].
  - eexists _, _; split; [reflexivity | left; eexists; reflexivity].
Qed.

(** X9. Success is never reported on the word of the process alone.  A
    result of either agent is a failure record (or, for [_run], the reply
    to a missing video path) unless the process was launched and exited
    with status 0, the output directory could be listed, and the record was
    built from a JSON object decoded from a file of that directory whose
    name has the suffix; in that case its success flag is true. *)
Theorem success_rests_on_an_artifact :
  (forall (spawn : program) (agent_path video_path : string) (enhance : bool)
          (w : world),
      exists r w',
        VideoTranscriptionCapability.transcribe_video
          spawn agent_path video_path enhance w
        = (Return r, w')
        /\ ((exists msg, r = failure_record msg)
            \/ (exists result fs1 names latest text d,
                   capability_completes spawn agent_path video_path enhance w result fs1
                   /\ returncode result = 0%Z
                   /\ fs_listdir fs1 (output_directory agent_path) = Return names
                   /\ In latest names
                   /\ endswith latest suffix = true
                   /\ fs_read fs1 (os.path.join (output_directory agent_path) latest)
                      = Return text
                   /\ json.loads text = Return (VDict d)
                   /\ field r "success" = Some (VBool true))))
  /\ (forall (spawn : program) (agent_path input_data : string) (w : world),
         exists out w',
           VideoTranscriptionTool._run spawn agent_path input_data w = (Return out, w')
           /\ (out = validation_reply
               \/ (exists msg, out = failure_text msg)
               \/ (exists r argv result fs1 names latest text d,
                      out = json.dumps r (Some 2%nat)
                      /\ tool_completes spawn agent_path input_data w argv result fs1
                      /\ returncode result = 0%Z
                      /\ fs_listdir fs1 (output_directory agent_path) = Return names
                      /\ In latest names
                      /\ endswith latest suffix = true
                      /\ fs_read fs1 (os.path.join (output_directory agent_path) latest)
                         = Return text
                      /\ json.loads text = Return (VDict d)
                      /\ field r "success" = Some (VBool true)))).
Proof.
  split.
  - intros spawn agent_path video_path enhance w.
    rewrite capability_attempt.
    destruct (attempt_success_cases spawn agent_path _
                VideoTranscriptionCapability.load_and_normalize failure_record _ w
                (capability_command agent_path video_path enhance))
      as (r & w' & E & Hcases).
    exists r, w'; split; [exact E |].
    destruct Hcases as [Hfail | Hok]; [left; exact Hfail | right].
    destruct Hok as (result & fs1 & names & latest & w0 & Hrun & Hrc & Hls & Hin
                     & Hfs & Hload).
    destruct (capability_load_inv _ _ _ _ Hload) as (text & d & e & t & Hread & Hp & _ & ->).
    apply filter_In in Hin as [Hin Hsuffix]; rewrite Hfs in Hread.
    exists result, fs1, names, latest, text, d; repeat split; assumption.
  - intros spawn agent_path input_data w.
    destruct (tool_input_cases spawn agent_path input_data w)
      as [[e E] | [[d [_ [_ E]]] | [vp [en [fmt Hreq]]]]].
    + eexists _, w; split; [exact E | right; left; eexists; reflexivity].
    + eexists _, w; split; [exact E | left; reflexivity].
    + rewrite (tool_attempt spawn agent_path input_data vp en fmt w Hreq).
      destruct (subprocess.fsencode_args
                  (VideoTranscriptionTool.command agent_path vp en fmt))
        as [argv | e] eqn:Hargs.
      * destruct (attempt_success_cases spawn agent_path _
                    VideoTranscriptionTool.load_and_normalize failure_text argv w Hargs)
          as (out & w' & E & Hcases).
        exists out, w'; split; [exact E | right].
        destruct Hcases as [Hfail | Hok]; [left; exact Hfail | right].
        destruct Hok as (result & fs1 & names & latest & w0 & Hrun & Hrc & Hls & Hin
                         & Hfs & Hload).
        destruct (tool_load_inv _ _ _ _ Hload)
          as (text & d & e & t & m & o & Hread & Hp & _ & _ & _ & _ & ->).
        apply filter_In in Hin as [Hin Hsuffix]; rewrite Hfs in Hread.
        exists (tool_record e t o), argv, result, fs1, names, latest, text, d.
        repeat split; try assumption.
        exists vp, en, fmt; auto.
      * rewrite (attempt_bad_argument spawn agent_path _ _ failure_text w e Hargs).
        eexists _, w; split; [reflexivity | right; left; eexists; reflexivity].
Qed.

(** ** The transcription text of an artifact *)

Lemma capability_normalize_no_section (d e : list (string * value)) (w : world) :
  section_of d "enhancement" e ->
  truthy (lookup_default e "enhancedText" VNone) = false ->
  dict_lookup d "transcription" = None ->
  VideoTranscriptionCapability.normalize (VDict d) w
  = (Raise (Exception "KeyError" "'transcription'"), w).
Proof.
  unfold section_of; intros He Hf Ht.
  unfold VideoTranscriptionCapability.normalize, bind, or_else.
  repeat first [rewrite get_dict | rewrite He | rewrite Hf
               | rewrite (getitem_missing d _ _ Ht)
               | progress unfold ret | progress cbv beta iota].
  reflexivity.
Qed.

Lemma normalize_enhancement_not_a_dict (d : list (string * value)) (v : value)
  (w : world) :
  dict_lookup d "enhancement" = Some v ->
  is_dict v = false ->
  VideoTranscriptionCapability.normalize (VDict d) w
  = (Raise (Exception "AttributeError" (no_get v)), w)
  /\ VideoTranscriptionTool.normalize (VDict d) w
     = (Raise (Exception "AttributeError" (no_get v)), w).
Proof.
  intros Hd Hv.
  unfold VideoTranscriptionCapability.normalize, VideoTranscriptionTool.normalize, bind.
  assert (E : lookup_default d "enhancement" (VDict []) = v)
    by (unfold lookup_default; rewrite Hd; reflexivity).
  split;
    repeat first [rewrite get_dict | rewrite E | progress cbv beta iota];
    destruct v; try discriminate Hv; reflexivity.
Qed.

(** X10. Without enhanced text the raw text is the transcription: for a
    valid artifact that has a raw full text and either no enhanced text or
    an empty one, both agents report success with the raw full text. *)
Theorem raw_text_is_the_fallback :
  (forall (spawn : program) (agent_path video_path : string) (enhance : bool)
          (w : world) (result : CompletedProcess) (fs1 : filesystem)
          (data : value) (raw : string),
      capability_completes spawn agent_path video_path enhance w result fs1 ->
      returncode result = 0%Z ->
      artifact agent_path fs1 data ->
      valid_artifact data = true ->
      raw_text data = Some raw ->
      enhanced_text data = None \/ enhanced_text data = Some "" ->
      exists r,
        fst (VideoTranscriptionCapability.transcribe_video
               spawn agent_path video_path enhance w)
        = Return r
        /\ field r "success" = Some (VBool true)
        /\ field r "transcription" = Some (VStr raw))
  /\ (forall (spawn : program) (agent_path input_data : string) (w : world)
             (argv : list string) (result : CompletedProcess) (fs1 : filesystem)
             (data : value) (raw : string),
         tool_completes spawn agent_path input_data w argv result fs1 ->
         returncode result = 0%Z ->
         artifact agent_path fs1 data ->
         valid_artifact data = true ->
         raw_text data = Some raw ->
         enhanced_text data = None \/ enhanced_text data = Some "" ->
         exists r,
           fst (VideoTranscriptionTool._run spawn agent_path input_data w)
           = Return (json.dumps r (Some 2%nat))
           /\ field r "success" = Some (VBool true)
           /\ field r "transcription" = Some (VStr raw)).
Proof.
  split.
  - intros spawn agent_path video_path enhance w result fs1 data raw
      Hrun Hrc Hart Hvalid Hraw Henh.
    destruct (raw_text_section data raw Hraw) as [d [t [-> [Ht Hx]]]].
    destruct (valid_enhancement_falsy d Hvalid Henh) as [e [He Hf]].
    exists (capability_record e (VStr raw)); split; [| split; reflexivity].
    rewrite (capability_artifact_result spawn agent_path video_path enhance w result fs1
               (VDict d) w Hrun Hrc Hart).
    rewrite (capability_normalize_raw d e t (VStr raw) w He Hf Ht Hx); reflexivity.
  - intros spawn agent_path input_data w argv result fs1 data raw
      Hrun Hrc Hart Hvalid Hraw Henh.
    destruct (raw_text_section data raw Hraw) as [d [t [-> [Ht Hx]]]].
    destruct (valid_enhancement_falsy d Hvalid Henh) as [e [He Hf]].
    destruct (valid_artifact_sections d Hvalid) as [t' [m [o [Ht' [Hm Ho]]]]].
    exists (tool_record e t' o); split; [| split].
    + rewrite (tool_artifact_result spawn agent_path input_data w argv result fs1
                 (VDict d) w Hrun Hrc Hart).
      rewrite (tool_normalize_sections d e t' m o w He Ht' Hm Ho); reflexivity.
    + reflexivity.
    + unfold section_of, lookup_default in Ht'; rewrite Ht in Ht'.
      injection Ht' as <-.
      unfold tool_record, field, or_; simpl dict_lookup; rewrite Hf.
      unfold lookup_default; rewrite Hx; reflexivity.
Qed.

Lemma example_selected_lone (text : string) (ctime : Z) :
  selected Example.agent
    (mount (Example.output_of [(Example.name_B, RegularFile ctime text)]))
    Example.name_B.
Proof.
  exists [Example.name_B], (fun _ => ctime); split; [reflexivity | split].
  - intros f Hf; vm_compute in Hf; destruct Hf as [<- | []]; reflexivity.
  - reflexivity.
Qed.

Lemma example_artifact_blank :
  artifact Example.agent (mount Example.disk_blank) Example.artifact_blank.
Proof.
  exists Example.name_B, (json.dumps Example.artifact_blank None).
  split; [apply example_selected_lone | split; [reflexivity | vm_compute; reflexivity]].
Qed.

Lemma raw_text_is_the_fallback_witness :
  (exists r,
      fst (VideoTranscriptionCapability.transcribe_video
             (exits 0 "" (mount Example.disk_blank)) Example.agent "./meeting.mp4" true
             (boot []))
      = Return r
      /\ field r "success" = Some (VBool true)
      /\ field r "transcription" = Some (VStr "raw text"))
  /\ (exists r,
         fst (VideoTranscriptionTool._run
                (exits 0 "" (mount Example.disk_blank)) Example.agent
                Example.request_text (boot []))
         = Return (json.dumps r (Some 2%nat))
         /\ field r "success" = Some (VBool true)
         /\ field r "transcription" = Some (VStr "raw text")).
Proof.
  destruct raw_text_is_the_fallback as [Hcapability Htool]; split.
  - apply (Hcapability (exits 0 "" (mount Example.disk_blank)) Example.agent
             "./meeting.mp4" true (boot []) (Example.process 0 "")
             (mount Example.disk_blank) Example.artifact_blank "raw text"
             eq_refl eq_refl example_artifact_blank eq_refl eq_refl).
    right; reflexivity.
  - apply (Htool (exits 0 "" (mount Example.disk_blank)) Example.agent
             Example.request_text (boot []) Example.tool_argv (Example.process 0 "")
             (mount Example.disk_blank) Example.artifact_blank "raw text"
             (example_tool_completes 0 "" (mount Example.disk_blank))
             eq_refl example_artifact_blank eq_refl eq_refl).
    right; reflexivity.
Defined.

(** X11. An artifact without a transcription section divides the agents.
    When the enhancement section gives no text, the first agent fails on
    the missing key and reports its name in quotes; the second agent
    reports success with an empty transcription and confidence 0. *)
Theorem missing_transcription_divides_the_agents :
  (forall (spawn : program) (agent_path video_path : string) (enhance : bool)
          (w : world) (result : CompletedProcess) (fs1 : filesystem)
          (d e : list (string * value)),
      capability_completes spawn agent_path video_path enhance w result fs1 ->
      returncode result = 0%Z ->
      artifact agent_path fs1 (VDict d) ->
      section_of d "enhancement" e ->
      truthy (lookup_default e "enhancedText" VNone) = false ->
      dict_lookup d "transcription" = None ->
      fst (VideoTranscriptionCapability.transcribe_video
             spawn agent_path video_path enhance w)
      = Return (failure_record "'transcription'"))
  /\ (forall (spawn : program) (agent_path input_data : string) (w : world)
             (argv : list string) (result : CompletedProcess) (fs1 : filesystem)
             (d e m o : list (string * value)),
         tool_completes spawn agent_path input_data w argv result fs1 ->
         returncode result = 0%Z ->
         artifact agent_path fs1 (VDict d) ->
         section_of d "enhancement" e ->
         truthy (lookup_default e "enhancedText" VNone) = false ->
         dict_lookup d "transcription" = None ->
         section_of d "metadata" m ->
         section_of m "processingOptions" o ->
         exists r,
           fst (VideoTranscriptionTool._run spawn agent_path input_data w)
           = Return (json.dumps r (Some 2%nat))
           /\ field r "success" = Some (VBool true)
           /\ field r "transcription" = Some (VStr "")
           /\ field r "confidence" = Some (VInt 0)).
Proof.
  split.
  - intros spawn agent_path video_path enhance w result fs1 d e
      Hrun Hrc Hart He Hf Ht.
    rewrite (capability_artifact_result spawn agent_path video_path enhance w result fs1
               (VDict d) w Hrun Hrc Hart).
    rewrite (capability_normalize_no_section d e w He Hf Ht); reflexivity.
  - intros spawn agent_path input_data w argv result fs1 d e m o
      Hrun Hrc Hart He Hf Ht Hm Ho.
    assert (Ht' : section_of d "transcription" [])
      by (unfold section_of, lookup_default; rewrite Ht; reflexivity).
    exists (tool_record e [] o); split; [| split; [| split]].
    + rewrite (tool_artifact_result spawn agent_path input_data w argv result fs1
                 (VDict d) w Hrun Hrc Hart).
      rewrite (tool_normalize_sections d e [] m o w He Ht' Hm Ho); reflexivity.
    + reflexivity.
    + unfold tool_record, field, or_; simpl dict_lookup; rewrite Hf; reflexivity.
    + reflexivity.
Qed.

Lemma example_artifact_bare :
  artifact Example.agent (mount Edge.disk_bare) Edge.artifact_bare.
Proof.
  exists Example.name_B, (json.dumps Edge.artifact_bare None).
  split; [apply example_selected_lone | split; [reflexivity | vm_compute; reflexivity]].
Qed.

Lemma missing_transcription_divides_the_agents_witness :
  fst (VideoTranscriptionCapability.transcribe_video
         (exits 0 "" (mount Edge.disk_bare)) Example.agent "./meeting.mp4" true
         (boot []))
  = Return (failure_record "'transcription'")
  /\ (exists r,
         fst (VideoTranscriptionTool._run
                (exits 0 "" (mount Edge.disk_bare)) Example.agent
                Example.request_text (boot []))
         = Return (json.dumps r (Some 2%nat))
         /\ field r "success" = Some (VBool true)
         /\ field r "transcription" = Some (VStr "")
         /\ field r "confidence" = Some (VInt 0)).
Proof.
  destruct missing_transcription_divides_the_agents as [Hcapability Htool]; split.
  - apply (Hcapability (exits 0 "" (mount Edge.disk_bare)) Example.agent
             "./meeting.mp4" true (boot []) (Example.process 0 "")
             (mount Edge.disk_bare)
             [("enhancement", VDict [("summary", VStr "nothing was said")])]
             [("summary", VStr "nothing was said")]
             eq_refl eq_refl example_artifact_bare eq_refl eq_refl eq_refl).
  - apply (Htool (exits 0 "" (mount Edge.disk_bare)) Example.agent
             Example.request_text (boot []) Example.tool_argv (Example.process 0 "")
             (mount Edge.disk_bare)
             [("enhancement", VDict [("summary", VStr "nothing was said")])]
             [("summary", VStr "nothing was said")] [] []
             (example_tool_completes 0 "" (mount Edge.disk_bare))
             eq_refl example_artifact_bare eq_refl eq_refl eq_refl eq_refl eq_refl).
Defined.

(** X12. An enhancement entry that is not an object fails both agents:
    when the artifact maps [enhancement] to a value without the method
    [get] ([null], a string, a list, a number), the result is the failure
    record with the text of the [AttributeError], whatever else the
    artifact holds. *)
Theorem enhancement_must_be_an_object :
  (forall (spawn : program) (agent_path video_path : string) (enhance : bool)
          (w : world) (result : CompletedProcess) (fs1 : filesystem)
          (d : list (string * value)) (v : value),
      capability_completes spawn agent_path video_path enhance w result fs1 ->
      returncode result = 0%Z ->
      artifact agent_path fs1 (VDict d) ->
      dict_lookup d "enhancement" = Some v ->
      is_dict v = false ->
      fst (VideoTranscriptionCapability.transcribe_video
             spawn agent_path video_path enhance w)
      = Return (failure_record (no_get v)))
  /\ (forall (spawn : program) (agent_path input_data : string) (w : world)
             (argv : list string) (result : CompletedProcess) (fs1 : filesystem)
             (d : list (string * value)) (v : value),
         tool_completes spawn agent_path input_data w argv result fs1 ->
         returncode result = 0%Z ->
         artifact agent_path fs1 (VDict d) ->
         dict_lookup d "enhancement" = Some v ->
         is_dict v = false ->
         fst (VideoTranscriptionTool._run spawn agent_path input_data w)
         = Return (failure_text (no_get v))).
Proof.
  split.
  - intros spawn agent_path video_path enhance w result fs1 d v Hrun Hrc Hart Hd Hv.
    rewrite (capability_artifact_result spawn agent_path video_path enhance w result fs1
               (VDict d) w Hrun Hrc Hart).
    destruct (normalize_enhancement_not_a_dict d v w Hd Hv) as [-> _]; reflexivity.
  - intros spawn agent_path input_data w argv result fs1 d v Hrun Hrc Hart Hd Hv.
    rewrite (tool_artifact_result spawn agent_path input_data w argv result fs1
               (VDict d) w Hrun Hrc Hart).
    destruct (normalize_enhancement_not_a_dict d v w Hd Hv) as [_ ->]; reflexivity.
Qed.

Lemma example_artifact_null :
  artifact Example.agent (mount Edge.disk_null) Edge.artifact_null.
Proof.
  exists Example.name_B, (json.dumps Edge.artifact_null None).
  split; [apply example_selected_lone | split; [reflexivity | vm_compute; reflexivity]].
Qed.

Lemma enhancement_must_be_an_object_witness :
  fst (VideoTranscriptionCapability.transcribe_video
         (exits 0 "" (mount Edge.disk_null)) Example.agent "./meeting.mp4" true
         (boot []))
  = Return (failure_record "'NoneType' object has no attribute 'get'")
  /\ fst (VideoTranscriptionTool._run
            (exits 0 "" (mount Edge.disk_null)) Example.agent
            Example.request_text (boot []))
     = Return (failure_text "'NoneType' object has no attribute 'get'").
Proof.
  destruct enhancement_must_be_an_object as [Hcapability Htool]; split.
  - apply (Hcapability (exits 0 "" (mount Edge.disk_null)) Example.agent
             "./meeting.mp4" true (boot []) (Example.process 0 "")
             (mount Edge.disk_null)
             [("transcription",
               VDict [("fullText", VStr "raw text");
                      ("confidence", Example.nine_tenths)]);
              ("enhancement", VNone)]
             VNone eq_refl eq_refl example_artifact_null eq_refl eq_refl).
  - apply (Htool (exits 0 "" (mount Edge.disk_null)) Example.agent
             Example.request_text (boot []) Example.tool_argv (Example.process 0 "")
             (mount Edge.disk_null)
             [("transcription",
               VDict [("fullText", VStr "raw text");
                      ("confidence", Example.nine_tenths)]);
              ("enhancement", VNone)]
             VNone (example_tool_completes 0 "" (mount Edge.disk_null))
             eq_refl example_artifact_null eq_refl eq_refl).
Defined.
